(** * FHIR CapabilityStatement Viewer: the loader of [app.js]

    A shallow embedding of the class [FHIRCapabilityViewer] of [app.js]:
    the loading pipeline [loadCapabilityStatement] with its two-stage fetch,
    the validity check [isValidCapabilityStatement], the permalink input
    path ([generatePermalink] / [checkUrlParameters]), the tab strip
    ([switchTab]) and the render methods ([renderOverview] to
    [renderRawData]).

    Conventions.
    - A JavaScript string is represented by the bytes of its UTF-8 encoding
      ([string] of the Standard Library).  Strings with unpaired surrogate
      code units have no such encoding and are outside the model.
    - The browser is a parameter ([Platform]): the URL parser behind
      [new URL], the network behind [fetch], [JSON.parse], and the HTML
      templates of the seven result panels.  The loader is verified for
      any templates; [Render.template] is the one the render methods of
      [app.js] compute, over the primitives of a [Js.Runtime] (number
      formatting, upper case, dates, [JSON.stringify]).  [Json] is
      [JSON.parse] itself, the grammar and the object that is built, for
      the platforms that [parsesJson] describes.
    - [async]/[await] is sequenced: one invocation is run to completion, and
      every awaited [fetch] is assumed to settle. *)

From Stdlib Require Import String Ascii List Bool NArith ZArith Lia.
From Stdlib Require Import Floats.PrimFloat.
From Stdlib Require DecimalString.
Import ListNotations.

Set Warnings "-register-all".

Local Open Scope string_scope.
Local Open Scope bool_scope.

(** ** Strings *)

Module JsString.

(** The byte value of a character. *)
Definition code (c : ascii) : N := N_of_ascii c.

(** [s.includes(pat)] *)
Fixpoint includes (s pat : string) : bool :=
  if String.prefix pat s then true
  else match s with
       | EmptyString => false
       | String _ s' => includes s' pat
       end.

(** ECMAScript WhiteSpace and LineTerminator code points, by the length of
    their UTF-8 encoding: TAB LF VT FF CR SP; U+00A0; U+1680, U+2000..U+200A,
    U+2028, U+2029, U+202F, U+205F, U+3000, U+FEFF. *)
Definition isWhiteSpace1 (c : ascii) : bool :=
  let n := code c in
  ((9 <=? n) && (n <=? 13) || (n =? 32))%N.

Definition isWhiteSpace2 (c1 c2 : ascii) : bool :=
  ((code c1 =? 194) && (code c2 =? 160))%N.

Definition isWhiteSpace3 (c1 c2 c3 : ascii) : bool :=
  let '(a, b, c) := (code c1, code c2, code c3) in
  ((a =? 225) && (b =? 154) && (c =? 128)
   || (a =? 226) && (b =? 128)
      && ((128 <=? c) && (c <=? 138) || (c =? 168) || (c =? 169) || (c =? 175))
   || (a =? 226) && (b =? 129) && (c =? 159)
   || (a =? 227) && (b =? 128) && (c =? 128)
   || (a =? 239) && (b =? 187) && (c =? 191))%N.

(** [s.trimStart()] *)
Fixpoint trimStart (s : string) : string :=
  match s with
  | EmptyString => s
  | String c1 r1 =>
      if isWhiteSpace1 c1 then trimStart r1
      else match r1 with
           | EmptyString => s
           | String c2 r2 =>
               if isWhiteSpace2 c1 c2 then trimStart r2
               else match r2 with
                    | EmptyString => s
                    | String c3 r3 =>
                        if isWhiteSpace3 c1 c2 c3 then trimStart r3 else s
                    end
           end
  end.

(** [s.trimEnd()]: cut at the first position from which only white space
    follows. *)
Fixpoint trimEnd (s : string) : string :=
  match s with
  | EmptyString => EmptyString
  | String c r =>
      match trimStart s with
      | EmptyString => EmptyString
      | _ => String c (trimEnd r)
      end
  end.

(** [s.trim()] *)
Definition trim (s : string) : string := trimEnd (trimStart s).

(** [String(n)] for a non-negative integer. *)
Definition ofN (n : N) : string :=
  DecimalString.NilZero.string_of_uint (N.to_uint n).

(** ASCII lower-casing of one character, for case-insensitive matching. *)
Definition asciiLower (c : ascii) : ascii :=
  let n := code c in
  if ((65 <=? n) && (n <=? 90))%N then ascii_of_N (n + 32) else c.

Fixpoint toAsciiLower (s : string) : string :=
  match s with
  | EmptyString => EmptyString
  | String c r => String (asciiLower c) (toAsciiLower r)
  end.

End JsString.

Import JsString.

(** ** Exceptions *)

(** A thrown value: every value thrown in [app.js] or by the platform calls
    it makes is an [Error] object; the code reads only its [message]. *)
Record Error : Type := mkError { name : string; message : string }.

Inductive result (A : Type) : Type :=
| Ok (a : A)
| Throw (e : Error).
Arguments Ok {A} a.
Arguments Throw {A} e.

(** [new Error(msg)] *)
Definition newError (msg : string) : Error := mkError "Error" msg.
Definition URIError : Error := mkError "URIError" "URI malformed".

(** ** URI component coding *)

Module Uri.

Definition hexDigit (n : N) : ascii :=
  if (n <? 10)%N then ascii_of_N (48 + n) else ascii_of_N (55 + n).

Definition hexValue (c : ascii) : option N :=
  let n := code c in
  if ((48 <=? n) && (n <=? 57))%N then Some (n - 48)%N
  else if ((65 <=? n) && (n <=? 70))%N then Some (n - 55)%N
  else if ((97 <=? n) && (n <=? 102))%N then Some (n - 87)%N
  else None.

(** [%XY] for one byte, upper-case digits. *)
Definition percentEncodeByte (c : ascii) (rest : string) : string :=
  String "%" (String (hexDigit (code c / 16)) (String (hexDigit (code c mod 16)) rest)).

(** uriUnreserved of ECMAScript: letters, digits and [- _ . ! ~ * ' ( )]. *)
Definition isUnreserved (c : ascii) : bool :=
  let n := code c in
  ((65 <=? n) && (n <=? 90) || (97 <=? n) && (n <=? 122)
   || (48 <=? n) && (n <=? 57)
   || (n =? 45) || (n =? 95) || (n =? 46) || (n =? 33) || (n =? 126)
   || (n =? 42) || (n =? 39) || (n =? 40) || (n =? 41))%N.

(** [encodeURIComponent(s)]: every byte of the UTF-8 encoding that is not
    unreserved is percent-encoded. *)
Fixpoint encodeURIComponent (s : string) : string :=
  match s with
  | EmptyString => EmptyString
  | String c r =>
      if isUnreserved c then String c (encodeURIComponent r)
      else percentEncodeByte c (encodeURIComponent r)
  end.

(** The pieces of an encoded string: a literal byte or a [%XY] escape. *)
Inductive token : Type :=
| Lit (c : ascii)
| Pct (b : N).

(** Strict scan of the escapes: a [%] not followed by two hexadecimal digits
    is a [URIError]. *)
Fixpoint scanEscapes (s : string) : result (list token) :=
  match s with
  | EmptyString => Ok []
  | String c r =>
      if (code c =? 37)%N then
        match r with
        | String h (String l r') =>
            match hexValue h, hexValue l with
            | Some hv, Some lv =>
                match scanEscapes r' with
                | Ok ts => Ok (Pct (16 * hv + lv) :: ts)
                | Throw e => Throw e
                end
            | _, _ => Throw URIError
            end
        | _ => Throw URIError
        end
      else
        match scanEscapes r with
        | Ok ts => Ok (Lit c :: ts)
        | Throw e => Throw e
        end
  end.

(** What an escaped UTF-8 sequence still needs: [more] continuation bytes,
    the next of them within [lo, hi]. *)
Record pending : Type := mkPending { more : nat; lo : N; hi : N }.

(** The lead byte of an escaped multi-byte sequence (well-formed UTF-8:
    no overlong form, no surrogate, nothing above U+10FFFF). *)
Definition leadByte (b : N) : option pending :=
  if ((194 <=? b) && (b <=? 223))%N then Some (mkPending 1 128 191)
  else if (b =? 224)%N then Some (mkPending 2 160 191)
  else if (b =? 237)%N then Some (mkPending 2 128 159)
  else if ((225 <=? b) && (b <=? 239))%N then Some (mkPending 2 128 191)
  else if (b =? 240)%N then Some (mkPending 3 144 191)
  else if (b =? 244)%N then Some (mkPending 3 128 143)
  else if ((241 <=? b) && (b <=? 243))%N then Some (mkPending 3 128 191)
  else None.

(** Decoding of the scanned tokens; the escapes must spell well-formed
    UTF-8, each multi-byte character wholly escaped. *)
Fixpoint decodeTokens (st : option pending) (ts : list token) : result string :=
  match ts with
  | [] => match st with None => Ok EmptyString | Some _ => Throw URIError end
  | t :: ts' =>
      match st, t with
      | None, Lit c =>
          match decodeTokens None ts' with
          | Ok s => Ok (String c s)
          | Throw e => Throw e
          end
      | None, Pct b =>
          if (b <? 128)%N then
            match decodeTokens None ts' with
            | Ok s => Ok (String (ascii_of_N b) s)
            | Throw e => Throw e
            end
          else
            match leadByte b with
            | Some p =>
                match decodeTokens (Some p) ts' with
                | Ok s => Ok (String (ascii_of_N b) s)
                | Throw e => Throw e
                end
            | None => Throw URIError
            end
      | Some _, Lit _ => Throw URIError
      | Some p, Pct b =>
          if ((lo p <=? b) && (b <=? hi p))%N then
            let st' := match more p with
                       | S (S k) => Some (mkPending (S k) 128 191)
                       | _ => None
                       end in
            match decodeTokens st' ts' with
            | Ok s => Ok (String (ascii_of_N b) s)
            | Throw e => Throw e
            end
          else Throw URIError
      end
  end.

(** [decodeURIComponent(s)] *)
Definition decodeURIComponent (s : string) : result string :=
  match scanEscapes s with
  | Ok ts => decodeTokens None ts
  | Throw e => Throw e
  end.

End Uri.

Import Uri.

(** ** The query of the page address: [URLSearchParams] *)

Module UrlSearchParams.

Fixpoint splitOn (sep : ascii) (s : string) : list string :=
  match s with
  | EmptyString => [EmptyString]
  | String c r =>
      if (code c =? code sep)%N then EmptyString :: splitOn sep r
      else match splitOn sep r with
           | [] => [String c EmptyString]
           | x :: xs => String c x :: xs
           end
  end.

(** Name and value of one pair: split at the first [=]. *)
Fixpoint splitPair (s : string) : string * string :=
  match s with
  | EmptyString => (EmptyString, EmptyString)
  | String c r =>
      if (code c =? 61)%N then (EmptyString, r)
      else let '(n, v) := splitPair r in (String c n, v)
  end.

Fixpoint plusToSpace (s : string) : string :=
  match s with
  | EmptyString => EmptyString
  | String c r =>
      String (if (code c =? 43)%N then " "%char else c) (plusToSpace r)
  end.

(** Lenient percent-decoding of the URL standard: a [%] that does not start
    an escape is kept. *)
Fixpoint percentDecode (s : string) : string :=
  match s with
  | EmptyString => EmptyString
  | String c r =>
      if (code c =? 37)%N then
        match r with
        | String h (String l r') =>
            match hexValue h, hexValue l with
            | Some hv, Some lv => String (ascii_of_N (16 * hv + lv)) (percentDecode r')
            | _, _ => String c (percentDecode r)
            end
        | _ => String c (percentDecode r)
        end
      else String c (percentDecode r)
  end.

(** U+FFFD in UTF-8. *)
Definition replacement (rest : string) : string :=
  String (ascii_of_N 239) (String (ascii_of_N 191) (String (ascii_of_N 189) rest)).

(** The UTF-8 decoder of the Encoding standard, in replacement mode, on a
    byte string: a well-formed sequence is kept, every ill-formed part
    becomes U+FFFD.  [st] is the sequence being read, if any, with the bytes
    of it seen so far. *)
Fixpoint utf8Decode (st : option (pending * string)) (s : string) : string :=
  match s with
  | EmptyString =>
      match st with None => EmptyString | Some _ => replacement EmptyString end
  | String c r =>
      let fresh :=
        if (code c <? 128)%N then String c (utf8Decode None r)
        else match leadByte (code c) with
             | Some p => utf8Decode (Some (p, String c EmptyString)) r
             | None => replacement (utf8Decode None r)
             end in
      match st with
      | None => fresh
      | Some (p, seen) =>
          if ((lo p <=? code c) && (code c <=? hi p))%N then
            match more p with
            | S (S k) =>
                utf8Decode (Some (mkPending (S k) 128 191, seen ++ String c EmptyString)) r
            | _ => seen ++ String c (utf8Decode None r)
            end
          else replacement fresh
      end
  end.

(** One name or value of the query: [+] is a space, then the escapes, then
    the bytes read as UTF-8. *)
Definition decodeComponent (s : string) : string :=
  utf8Decode None (percentDecode (plusToSpace s)).

(** [new URLSearchParams(search)]: a leading [?] is dropped, the pairs are
    separated by [&], empty ones skipped. *)
Definition parse (search : string) : list (string * string) :=
  let input :=
    match search with
    | String c r => if (code c =? 63)%N then r else search
    | EmptyString => search
    end in
  flat_map
    (fun seq =>
       match seq with
       | EmptyString => []
       | _ => let '(n, v) := splitPair seq in [(decodeComponent n, decodeComponent v)]
       end)
    (splitOn "&" input).

(** [params.get(name)]: the value of the first pair of that name, [None] for
    [null]. *)
Fixpoint get (params : list (string * string)) (name : string) : option string :=
  match params with
  | [] => None
  | (n, v) :: rest => if String.eqb n name then Some v else get rest name
  end.

End UrlSearchParams.

(** ** Values of the JavaScript heap that [JSON.parse] produces *)

(** A number is an IEEE 754 binary64; an object is the list of its own
    properties in insertion order, its keys distinct. *)
Inductive value : Type :=
| VNull
| VBool (b : bool)
| VNumber (x : float)
| VString (s : string)
| VArray (items : list value)
| VObject (fields : list (string * value)).

(** Own property [k] of an object. *)
Fixpoint lookup (fields : list (string * value)) (k : string) : option value :=
  match fields with
  | [] => None
  | (k', v) :: rest => if String.eqb k' k then Some v else lookup rest k
  end.

(** [data.k] for a property name that no prototype defines (such as
    [resourceType] and [fhirVersion]); [None] is [undefined].  On a
    primitive or an array the access goes to the prototype and finds
    nothing. *)
Definition getProp (data : value) (k : string) : option value :=
  match data with
  | VObject fields => lookup fields k
  | _ => None
  end.

(** ToBoolean *)
Definition truthy (v : option value) : bool :=
  match v with
  | None => false
  | Some VNull => false
  | Some (VBool b) => b
  | Some (VNumber x) => negb (PrimFloat.is_zero x || PrimFloat.is_nan x)
  | Some (VString s) => negb (String.eqb s EmptyString)
  | Some (VArray _) => true
  | Some (VObject _) => true
  end.

(** [v === 'lit'] *)
Definition strictEqString (v : option value) (lit : string) : bool :=
  match v with
  | Some (VString s) => String.eqb s lit
  | _ => false
  end.

(** ** The browser *)

Record Request : Type := mkRequest {
  req_url : string;
  req_method : string;
  req_mode : option string;
  req_accept : string
}.

Record Response : Type := mkResponse {
  status : N;
  statusText : string;
  body : string
}.

(** [response.ok] *)
Definition ok (r : Response) : bool := ((200 <=? status r) && (status r <=? 299))%N.

(** How the promise of a [fetch] settles. *)
Inductive settled : Type :=
| Rejected (e : Error)
| Fulfilled (r : Response).

(** The result panels, by the element each render method fills. *)
Inductive panel : Type :=
| overview_content | resources_tab | interactions_tab | operations_tab
| search_tab | security_tab | raw_tab.

Record Platform : Type := mkPlatform {
  (** [new URL(s)] returns (does not throw) *)
  URL_parses : string -> bool;
  (** the network's answer to a request *)
  fetch : Request -> settled;
  (** [JSON.parse] on the decoded text of a body; [response.json()] is this
      on the same text *)
  JSON_parse : string -> result value;
  (** the markup a render method computes from [this.capabilityData], or the
      exception it raises on the way *)
  template : panel -> option value -> result string
}.

(** ** The application state *)

Record Panels : Type := mkPanels {
  overview_html : string;
  resources_html : string;
  interactions_html : string;
  operations_html : string;
  search_html : string;
  security_html : string;
  raw_html : string
}.

Definition setPanel (p : panel) (html : string) (ps : Panels) : Panels :=
  match p with
  | overview_content =>
      mkPanels html (resources_html ps) (interactions_html ps) (operations_html ps)
               (search_html ps) (security_html ps) (raw_html ps)
  | resources_tab =>
      mkPanels (overview_html ps) html (interactions_html ps) (operations_html ps)
               (search_html ps) (security_html ps) (raw_html ps)
  | interactions_tab =>
      mkPanels (overview_html ps) (resources_html ps) html (operations_html ps)
               (search_html ps) (security_html ps) (raw_html ps)
  | operations_tab =>
      mkPanels (overview_html ps) (resources_html ps) (interactions_html ps) html
               (search_html ps) (security_html ps) (raw_html ps)
  | search_tab =>
      mkPanels (overview_html ps) (resources_html ps) (interactions_html ps)
               (operations_html ps) html (security_html ps) (raw_html ps)
  | security_tab =>
      mkPanels (overview_html ps) (resources_html ps) (interactions_html ps)
               (operations_html ps) (search_html ps) html (raw_html ps)
  | raw_tab =>
      mkPanels (overview_html ps) (resources_html ps) (interactions_html ps)
               (operations_html ps) (search_html ps) (security_html ps) html
  end.

(** The document as the code touches it. *)
Record Dom : Type := mkDom {
  fhir_url : string;            (* #fhir-url .value *)
  loading_visible : bool;       (* #loading-section *)
  load_button_disabled : bool;  (* #load-button .disabled *)
  error_text : string;          (* #error-text .textContent *)
  error_visible : bool;         (* #error-section *)
  results_visible : bool;       (* #results-section *)
  panels : Panels
}.

(** A [FHIRCapabilityViewer] with its page; [None] is [null]. *)
Record App : Type := mkApp {
  capabilityData : option value;
  dom : Dom
}.

(** What an invocation does to the outside, in order. *)
Inductive event : Type :=
| EFetch (r : Request)
| EConsoleLog (e : Error)
| EConsoleError (e : Error)
| EShowError (msg : string)
| EShowResults.

(** ** Computations: state, exceptions, and the events performed *)

Definition M (A : Type) : Type := App -> result A * App * list event.

Definition ret {A} (a : A) : M A := fun st => (Ok a, st, []).

Definition bind {A B} (m : M A) (f : A -> M B) : M B :=
  fun st =>
    match m st with
    | (Ok a, st1, l1) => let '(r, st2, l2) := f a st1 in (r, st2, (l1 ++ l2)%list)
    | (Throw e, st1, l1) => (Throw e, st1, l1)
    end.

Definition throw {A} (e : Error) : M A := fun st => (Throw e, st, []).

(** [try { m } catch (e) { h e }] *)
Definition tryCatch {A} (m : M A) (h : Error -> M A) : M A :=
  fun st =>
    match m st with
    | (Ok a, st1, l1) => (Ok a, st1, l1)
    | (Throw e, st1, l1) => let '(r, st2, l2) := h e st1 in (r, st2, (l1 ++ l2)%list)
    end.

(** [try { m } finally { f }] *)
Definition tryFinally {A} (m : M A) (f : M unit) : M A :=
  fun st =>
    let '(r, st1, l1) := m st in
    match f st1 with
    | (Ok _, st2, l2) => (r, st2, (l1 ++ l2)%list)
    | (Throw e, st2, l2) => (Throw e, st2, (l1 ++ l2)%list)
    end.

Definition emit (ev : event) : M unit := fun st => (Ok tt, st, [ev]).
Definition modifyDom (f : Dom -> Dom) : M unit :=
  fun st => (Ok tt, mkApp (capabilityData st) (f (dom st)), []).
Definition getDom : M Dom := fun st => (Ok (dom st), st, []).
Definition getCapabilityData : M (option value) := fun st => (Ok (capabilityData st), st, []).
Definition setCapabilityData (d : option value) : M unit :=
  fun st => (Ok tt, mkApp d (dom st), []).
Definition lift {A} (r : result A) : M A := fun st => (r, st, []).

Declare Scope js_scope.
Delimit Scope js_scope with js.
Notation "x <- m ;; k" := (bind m (fun x => k))
  (at level 61, m at next level, right associativity) : js_scope.
Notation "m ;; k" := (bind m (fun _ => k))
  (at level 61, right associativity) : js_scope.
Local Open Scope js_scope.

(** ** The messages of [app.js] *)

Module Msg.

Definition enterUrl : string := "Please enter a valid FHIR CapabilityStatement URL".
Definition urlFormat : string := "Please enter a valid URL format".
Definition htmlPage : string :=
  "The server returned an HTML page instead of JSON. This might indicate the URL is incorrect or the server is not responding properly.".
Definition invalidJson : string := "Invalid JSON response from server".
Definition notCapabilityStatement : string :=
  "The response does not appear to be a valid FHIR CapabilityStatement".

(** The two advisory texts of the outer [catch]; template literals, with
    their line breaks and indentation. *)
Definition networkAdvice : string :=
  "Network error: Unable to fetch data from the FHIR server. This might be due to:
                • CORS (Cross-Origin Resource Sharing) restrictions
                • Network connectivity issues
                • Invalid URL or server not responding
                
                Try:
                • Checking if the URL is correct and accessible in a browser
                • Using a different FHIR server that allows CORS
                • Running this application from an HTTPS server instead of file://".
Definition proxyAdvice : string :=
  "Both direct connection and proxy failed. The FHIR server might be:
                • Temporarily unavailable
                • Requiring authentication
                • Behind a firewall that blocks external access
                
                Please verify the URL is correct and try again later.".

End Msg.

(** The literal of [loadStaticDemoData]. *)
Definition demoData : value :=
  VObject [
    ("resourceType", VString "CapabilityStatement");
    ("id", VString "demo");
    ("url", VString "https://fhirr4sandbox.webch.art/webchart.cgi/fhir/metadata");
    ("version", VString "4.0.1");
    ("name", VString "Sandbox_FHIR_Capability_Statement");
    ("status", VString "active");
    ("experimental", VBool false);
    ("date", VString "2025-10-15T20:10:00Z");
    ("publisher", VString "WebChart FHIR R4 Sandbox");
    ("contact", VArray [
        VObject [
          ("name", VString "FHIR Support Team");
          ("telecom", VArray [
              VObject [
                ("system", VString "url");
                ("value", VString "https://www.webchartnow.com/support") ];
              VObject [
                ("system", VString "email");
                ("value", VString "fhir-support@webchartnow.com") ] ]) ] ]);
    ("description", VString "This is a demonstration CapabilityStatement from the WebChart FHIR R4 Sandbox showing typical FHIR server capabilities.");
    ("kind", VString "instance");
    ("software", VObject [
        ("name", VString "WebChart FHIR R4 Sandbox");
        ("version", VString "1.0.0") ]);
    ("fhirVersion", VString "4.0.1");
    ("format", VArray [
        VString "application/fhir+json";
        VString "application/fhir+xml" ]);
    ("rest", VArray [
        VObject [
          ("mode", VString "server");
          ("documentation", VString "Demo FHIR server with common resource support");
          ("security", VObject [
              ("cors", VBool true);
              ("service", VArray [
                  VObject [
                    ("coding", VArray [
                        VObject [
                          ("system", VString "http://terminology.hl7.org/CodeSystem/restful-security-service");
                          ("code", VString "SMART-on-FHIR");
                          ("display", VString "SMART-on-FHIR") ] ]);
                    ("text", VString "SMART-on-FHIR OAuth2") ] ]);
              ("description", VString "OAuth2 using SMART-on-FHIR profile") ]);
          ("interaction", VArray [
              VObject [
                ("code", VString "transaction") ];
              VObject [
                ("code", VString "batch") ];
              VObject [
                ("code", VString "search-system") ];
              VObject [
                ("code", VString "history-system") ] ]);
          ("resource", VArray [
              VObject [
                ("type", VString "Patient");
                ("profile", VString "http://hl7.org/fhir/StructureDefinition/Patient");
                ("supportedProfile", VArray [
                    VString "http://hl7.org/fhir/us/core/StructureDefinition/us-core-patient" ]);
                ("interaction", VArray [
                    VObject [
                      ("code", VString "read");
                      ("documentation", VString "Read patient by ID") ];
                    VObject [
                      ("code", VString "search-type");
                      ("documentation", VString "Search for patients") ];
                    VObject [
                      ("code", VString "create");
                      ("documentation", VString "Create new patient") ];
                    VObject [
                      ("code", VString "update");
                      ("documentation", VString "Update existing patient") ] ]);
                ("versioning", VString "versioned");
                ("readHistory", VBool true);
                ("updateCreate", VBool true);
                ("conditionalCreate", VBool true);
                ("conditionalRead", VString "full-support");
                ("conditionalUpdate", VBool true);
                ("conditionalDelete", VString "single");
                ("referencePolicy", VArray [
                    VString "literal";
                    VString "logical" ]);
                ("searchParam", VArray [
                    VObject [
                      ("name", VString "_id");
                      ("definition", VString "http://hl7.org/fhir/SearchParameter/Resource-id");
                      ("type", VString "token");
                      ("documentation", VString "Logical id of this artifact") ];
                    VObject [
                      ("name", VString "identifier");
                      ("definition", VString "http://hl7.org/fhir/SearchParameter/Patient-identifier");
                      ("type", VString "token");
                      ("documentation", VString "A patient identifier") ];
                    VObject [
                      ("name", VString "name");
                      ("definition", VString "http://hl7.org/fhir/SearchParameter/Patient-name");
                      ("type", VString "string");
                      ("documentation", VString "A portion of the patient's name") ];
                    VObject [
                      ("name", VString "family");
                      ("definition", VString "http://hl7.org/fhir/SearchParameter/individual-family");
                      ("type", VString "string");
                      ("documentation", VString "A portion of the family name") ];
                    VObject [
                      ("name", VString "given");
                      ("definition", VString "http://hl7.org/fhir/SearchParameter/individual-given");
                      ("type", VString "string");
                      ("documentation", VString "A portion of the given name") ];
                    VObject [
                      ("name", VString "birthdate");
                      ("definition", VString "http://hl7.org/fhir/SearchParameter/individual-birthdate");
                      ("type", VString "date");
                      ("documentation", VString "The patient's date of birth") ];
                    VObject [
                      ("name", VString "gender");
                      ("definition", VString "http://hl7.org/fhir/SearchParameter/individual-gender");
                      ("type", VString "token");
                      ("documentation", VString "Gender of the patient") ] ]) ];
              VObject [
                ("type", VString "Observation");
                ("profile", VString "http://hl7.org/fhir/StructureDefinition/Observation");
                ("supportedProfile", VArray [
                    VString "http://hl7.org/fhir/us/core/StructureDefinition/us-core-observation-lab" ]);
                ("interaction", VArray [
                    VObject [
                      ("code", VString "read");
                      ("documentation", VString "Read observation by ID") ];
                    VObject [
                      ("code", VString "search-type");
                      ("documentation", VString "Search for observations") ] ]);
                ("referencePolicy", VArray [
                    VString "literal" ]);
                ("searchParam", VArray [
                    VObject [
                      ("name", VString "_id");
                      ("definition", VString "http://hl7.org/fhir/SearchParameter/Resource-id");
                      ("type", VString "token");
                      ("documentation", VString "Logical id of this artifact") ];
                    VObject [
                      ("name", VString "patient");
                      ("definition", VString "http://hl7.org/fhir/SearchParameter/clinical-patient");
                      ("type", VString "reference");
                      ("documentation", VString "The patient this observation is about") ];
                    VObject [
                      ("name", VString "code");
                      ("definition", VString "http://hl7.org/fhir/SearchParameter/clinical-code");
                      ("type", VString "token");
                      ("documentation", VString "The code of the observation type") ];
                    VObject [
                      ("name", VString "date");
                      ("definition", VString "http://hl7.org/fhir/SearchParameter/clinical-date");
                      ("type", VString "date");
                      ("documentation", VString "Obtained date/time") ];
                    VObject [
                      ("name", VString "category");
                      ("definition", VString "http://hl7.org/fhir/SearchParameter/Observation-category");
                      ("type", VString "token");
                      ("documentation", VString "The classification of the type of observation") ] ]) ];
              VObject [
                ("type", VString "Condition");
                ("profile", VString "http://hl7.org/fhir/StructureDefinition/Condition");
                ("interaction", VArray [
                    VObject [
                      ("code", VString "read");
                      ("documentation", VString "Read condition by ID") ];
                    VObject [
                      ("code", VString "search-type");
                      ("documentation", VString "Search for conditions") ] ]);
                ("referencePolicy", VArray [
                    VString "literal" ]);
                ("searchParam", VArray [
                    VObject [
                      ("name", VString "_id");
                      ("definition", VString "http://hl7.org/fhir/SearchParameter/Resource-id");
                      ("type", VString "token");
                      ("documentation", VString "Logical id of this artifact") ];
                    VObject [
                      ("name", VString "patient");
                      ("definition", VString "http://hl7.org/fhir/SearchParameter/clinical-patient");
                      ("type", VString "reference");
                      ("documentation", VString "Who has the condition?") ];
                    VObject [
                      ("name", VString "code");
                      ("definition", VString "http://hl7.org/fhir/SearchParameter/clinical-code");
                      ("type", VString "token");
                      ("documentation", VString "Code for the condition") ] ]) ] ]);
          ("operation", VArray [
              VObject [
                ("name", VString "validate");
                ("definition", VString "http://hl7.org/fhir/OperationDefinition/Resource-validate");
                ("documentation", VString "Validate a resource") ] ]) ] ]) ].

(** ** The viewer *)

Definition setLoading (visible disabled : bool) (d : Dom) : Dom :=
  mkDom (fhir_url d) visible disabled (error_text d) (error_visible d)
        (results_visible d) (panels d).
Definition setError (text : string) (visible : bool) (d : Dom) : Dom :=
  mkDom (fhir_url d) (loading_visible d) (load_button_disabled d) text visible
        (results_visible d) (panels d).
Definition setResults (visible : bool) (d : Dom) : Dom :=
  mkDom (fhir_url d) (loading_visible d) (load_button_disabled d) (error_text d)
        (error_visible d) visible (panels d).
Definition setFhirUrl (v : string) (d : Dom) : Dom :=
  mkDom v (loading_visible d) (load_button_disabled d) (error_text d)
        (error_visible d) (results_visible d) (panels d).
Definition setPanels (f : Panels -> Panels) (d : Dom) : Dom :=
  mkDom (fhir_url d) (loading_visible d) (load_button_disabled d) (error_text d)
        (error_visible d) (results_visible d) (f (panels d)).

Definition showLoading : M unit := modifyDom (setLoading true true).
Definition hideLoading : M unit := modifyDom (setLoading false false).
Definition showError (msg : string) : M unit :=
  modifyDom (setError msg true) ;; emit (EShowError msg).
Definition hideError : M unit := modifyDom (fun d => setError (error_text d) false d).
Definition hideResults : M unit := modifyDom (setResults false).
Definition showResults : M unit := modifyDom (setResults true) ;; emit EShowResults.

(** [isValidCapabilityStatement(data)], as the condition it is used for:
    the truth value of [data && data.resourceType === 'CapabilityStatement'
    && data.fhirVersion]. *)
Definition isValidCapabilityStatement (data : value) : bool :=
  truthy (Some data)
  && strictEqString (getProp data "resourceType") "CapabilityStatement"
  && truthy (getProp data "fhirVersion").

(** The URL of the direct request:
    [`${url}${url.includes('?') ? '&' : '?'}_format=json`] *)
Definition directUrl (url : string) : string :=
  url ++ (if includes url "?" then "&" else "?") ++ "_format=json".

Definition proxyUrl : string := "https://api.allorigins.win/raw?url=".

(** [proxyUrl + encodeURIComponent(...)] *)
Definition proxiedUrl (url : string) : string :=
  proxyUrl ++ encodeURIComponent (directUrl url).

Definition directRequest (url : string) : Request :=
  mkRequest (directUrl url) "GET" (Some "cors") "application/fhir+json, application/json".

Definition proxyRequest (url : string) : Request :=
  mkRequest (proxiedUrl url) "GET" None "application/json".

(** The advisory rewriting of the outer [catch]. *)
Definition errorMessage (error : Error) : string :=
  if includes (message error) "Failed to fetch" || includes (message error) "NetworkError"
  then Msg.networkAdvice
  else if includes (message error) "Proxy request failed"
  then Msg.proxyAdvice
  else message error.

Section Viewer.

Variable P : Platform.

(** [isValidUrl(string)] *)
Definition isValidUrl (s : string) : bool := URL_parses P s.

(** [await fetch(url, init)] *)
Definition awaitFetch (r : Request) : M Response :=
  emit (EFetch r) ;;
  match fetch P r with
  | Rejected e => throw e
  | Fulfilled resp => ret resp
  end.

(** The body of the inner [try]: the direct request. *)
Definition directStage (url : string) : M value :=
  response <- awaitFetch (directRequest url) ;;
  if negb (ok response)
  then throw (newError ("HTTP " ++ ofN (status response) ++ ": " ++ statusText response))
  else lift (JSON_parse P (body response)).

(** The body of the inner [catch]: the request through the proxy. *)
Definition proxyStage (url : string) (corsError : Error) : M value :=
  emit (EConsoleLog corsError) ;;
  response <- awaitFetch (proxyRequest url) ;;
  if negb (ok response)
  then throw (newError ("Proxy request failed: HTTP " ++ ofN (status response)
                         ++ ": " ++ statusText response))
  else
    let responseText := body response in
    match JSON_parse P responseText with
    | Ok data => ret data
    | Throw parseError =>
        if includes responseText "<html>" || includes responseText "<!DOCTYPE"
        then throw (newError Msg.htmlPage)
        else throw (newError Msg.invalidJson)
    end.

(** The inner [try]/[catch]: the value of [data] after it. *)
Definition fetchData (url : string) : M value :=
  tryCatch (directStage url) (proxyStage url).

(** One render method: the markup is computed from [this.capabilityData]
    and assigned to the panel's [innerHTML]. *)
Definition render (p : panel) : M unit :=
  data <- getCapabilityData ;;
  html <- lift (template P p data) ;;
  modifyDom (setPanels (setPanel p html)).

Definition renderOverview : M unit := render overview_content.
Definition renderResources : M unit := render resources_tab.
Definition renderInteractions : M unit := render interactions_tab.
Definition renderOperations : M unit := render operations_tab.
Definition renderSearchParameters : M unit := render search_tab.
Definition renderSecurity : M unit := render security_tab.
Definition renderRawData : M unit := render raw_tab.

Definition displayCapabilityStatement : M unit :=
  renderOverview ;;
  renderResources ;;
  renderInteractions ;;
  renderOperations ;;
  renderSearchParameters ;;
  renderSecurity ;;
  renderRawData ;;
  showResults.

(** The outer [try] up to the validity check: the document that is about
    to be stored, or the error raised before anything is stored. *)
Definition validated (url : string) : M value :=
  data <- fetchData url ;;
  if negb (isValidCapabilityStatement data)
  then throw (newError Msg.notCapabilityStatement)
  else ret data.

(** The body of the outer [try]. *)
Definition loadBody (url : string) : M unit :=
  data <- validated url ;;
  setCapabilityData (Some data) ;;
  displayCapabilityStatement.

(** The outer [catch]. *)
Definition loadCatch (error : Error) : M unit :=
  emit (EConsoleError error) ;;
  showError (errorMessage error).

Definition loadCapabilityStatement : M unit :=
  d <- getDom ;;
  let url := trim (fhir_url d) in
  if String.eqb url EmptyString then showError Msg.enterUrl
  else if negb (isValidUrl url) then showError Msg.urlFormat
  else
    showLoading ;;
    hideError ;;
    hideResults ;;
    tryFinally (tryCatch (loadBody url) loadCatch) hideLoading.

Definition sandboxUrl : string :=
  "https://fhirr4sandbox.webch.art/webchart.cgi/fhir/metadata".

Definition loadDemoData : M unit :=
  modifyDom (setFhirUrl sandboxUrl) ;;
  loadCapabilityStatement.

Definition loadStaticDemoData : M unit :=
  hideError ;;
  hideLoading ;;
  setCapabilityData (Some demoData) ;;
  displayCapabilityStatement.

(** [checkUrlParameters()], [search] being [window.location.search]. *)
Definition checkUrlParameters (search : string) : M unit :=
  let urlParams := UrlSearchParams.parse search in
  match UrlSearchParams.get urlParams "url" with
  | None => ret tt
  | Some fhirUrl =>
      if String.eqb fhirUrl EmptyString then ret tt
      else
        decodedUrl <- lift (decodeURIComponent fhirUrl) ;;
        modifyDom (setFhirUrl decodedUrl) ;;
        loadCapabilityStatement
  end.

(** [new FHIRCapabilityViewer()] on a page [page] whose address has the
    query [search]. *)
Definition constructor (search : string) (page : Dom) : result unit * App * list event :=
  (setCapabilityData None ;; checkUrlParameters search) (mkApp None page).

End Viewer.

(** [generatePermalink()]: the text copied to the clipboard, [None] when
    the alert is shown instead; [baseUrl] is
    [window.location.origin + window.location.pathname]. *)
Definition permalinkQuery (currentUrl : string) : string :=
  "?url=" ++ encodeURIComponent currentUrl.

Definition generatePermalink (baseUrl : string) (st : App) : option string :=
  let currentUrl := trim (fhir_url (dom st)) in
  if String.eqb currentUrl EmptyString then None
  else Some (baseUrl ++ permalinkQuery currentUrl).

(** ** Reading a run *)

Definition resultOf {A} (run : result A * App * list event) : result A := fst (fst run).
Definition stateOf {A} (run : result A * App * list event) : App := snd (fst run).
Definition eventsOf {A} (run : result A * App * list event) : list event := snd run.

(** The requests issued, in order. *)
Definition requests (l : list event) : list Request :=
  flat_map (fun ev => match ev with EFetch r => [r] | _ => [] end) l.

(** The outcomes presented to the user, in order. *)
Definition outcomes (l : list event) : list event :=
  filter (fun ev => match ev with EShowError _ | EShowResults => true | _ => false end) l.

(** What the console received, in order. *)
Definition consoleOf (l : list event) : list Error :=
  flat_map (fun ev => match ev with EConsoleLog e | EConsoleError e => [e] | _ => [] end) l.

(** ** Scripted platforms, for concrete runs *)

Module Scenario.

(** A stand-in for the URL parser: a scheme, then a colon. *)
Fixpoint schemeRest (s : string) : bool :=
  match s with
  | EmptyString => false
  | String c r =>
      let n := code c in
      if (n =? 58)%N then true
      else if ((65 <=? n) && (n <=? 90) || (97 <=? n) && (n <=? 122)
               || (48 <=? n) && (n <=? 57) || (n =? 43) || (n =? 45) || (n =? 46))%N
           then schemeRest r
           else false
  end.

Definition hasScheme (s : string) : bool :=
  match s with
  | EmptyString => false
  | String c r =>
      let n := code c in
      ((65 <=? n) && (n <=? 90) || (97 <=? n) && (n <=? 122))%N && schemeRest r
  end.

Definition syntaxError : Error := mkError "SyntaxError" "Unexpected token".
Definition failedToFetch : Error := mkError "TypeError" "Failed to fetch".

(** A parser given by the texts it accepts. *)
Fixpoint parseTable (table : list (string * value)) (text : string) : result value :=
  match table with
  | [] => Throw syntaxError
  | (t, v) :: rest => if String.eqb t text then Ok v else parseTable rest text
  end.

(** The direct request is the one made in [cors] mode. *)
Definition scripted (direct proxy : settled) (table : list (string * value)) : Platform :=
  mkPlatform hasScheme
             (fun r => match req_mode r with Some _ => direct | None => proxy end)
             (parseTable table)
             (fun _ _ => Ok "<p></p>").

Definition blankPanels : Panels := mkPanels "" "" "" "" "" "" "".
Definition page (url : string) : Dom := mkDom url false false "" false false blankPanels.
Definition app (url : string) : App := mkApp None (page url).

Definition dq : string := String (ascii_of_N 34) EmptyString.
Definition quoted (s : string) : string := dq ++ s ++ dq.

(** [{"resourceType":"CapabilityStatement","fhirVersion":"4.0.1"}] *)
Definition minimalBody : string :=
  "{" ++ quoted "resourceType" ++ ":" ++ quoted "CapabilityStatement" ++ ","
      ++ quoted "fhirVersion" ++ ":" ++ quoted "4.0.1" ++ "}".
Definition minimalDoc : value :=
  VObject [("resourceType", VString "CapabilityStatement"); ("fhirVersion", VString "4.0.1")].

(** [{"resourceType":"Patient"}] *)
Definition patientBody : string := "{" ++ quoted "resourceType" ++ ":" ++ quoted "Patient" ++ "}".
Definition patientDoc : value := VObject [("resourceType", VString "Patient")].

(** [{"resourceType":"CapabilityStatement","fhirVersion":4}] *)
Definition numericVersionBody : string :=
  "{" ++ quoted "resourceType" ++ ":" ++ quoted "CapabilityStatement" ++ ","
      ++ quoted "fhirVersion" ++ ":4}".
Definition numericVersionDoc : value :=
  VObject [("resourceType", VString "CapabilityStatement"); ("fhirVersion", VNumber 4%float)].

Definition table : list (string * value) :=
  [(minimalBody, minimalDoc); (patientBody, patientDoc); (numericVersionBody, numericVersionDoc)].

(** An HTML page with the doctype in lower case. *)
Definition doctypeBody : string := "<!doctype html><title>Not Found</title>".

Definition exampleUrl : string := "https://example.org/metadata".
Definition fragmentUrl : string := "https://example.org/metadata#top".
Definition escapedUrl : string := "https://example.org/metadata?_tag=a%2Fb".
Definition percentUrl : string := "https://example.org/metadata?q=100%".

Definition respond (code : N) (text body : string) : settled :=
  Fulfilled (mkResponse code text body).

(** The direct request answers with the minimal document. *)
Definition directOk : Platform :=
  scripted (respond 200 "OK" minimalBody) (Rejected failedToFetch) table.
(** The direct request answers with a numeric [fhirVersion]. *)
Definition numericVersion : Platform :=
  scripted (respond 200 "OK" numericVersionBody) (Rejected failedToFetch) table.
(** The direct request is rejected; the proxy answers with a Patient. *)
Definition proxyPatient : Platform :=
  scripted (Rejected failedToFetch) (respond 200 "OK" patientBody) table.
(** The direct request is rejected; the proxy answers with the minimal
    document. *)
Definition proxyOk : Platform :=
  scripted (Rejected failedToFetch) (respond 200 "OK" minimalBody) table.
(** The direct request is rejected; the proxy answers with an HTML page. *)
Definition proxyDoctype : Platform :=
  scripted (Rejected failedToFetch) (respond 200 "OK" doctypeBody) table.
(** Both requests are answered outside 2xx. *)
Definition bothHttpErrors : Platform :=
  scripted (respond 404 "Not Found" "") (respond 500 "Internal Server Error" "") table.

(** A viewer opened without a [url] parameter that has loaded the minimal
    document. *)
Definition loaded : App :=
  stateOf (loadCapabilityStatement directOk
             (mkApp (capabilityData (stateOf (constructor directOk "" (page ""))))
                    (setFhirUrl exampleUrl (dom (stateOf (constructor directOk "" (page ""))))))).

End Scenario.

(** ** Notions of the specification, for comparison with the code *)

Module Spec.

(** A doctype declaration: [<!DOCTYPE], matched as HTML does, without
    regard to the case of the letters. *)
Definition containsDoctypeDeclaration (text : string) : bool :=
  includes (toAsciiLower text) "<!doctype".

(** Validity as the specification words it: [resourceType] is the literal
    and [fhirVersion] is a non-empty string. *)
Definition validDocument (data : value) : bool :=
  strictEqString (getProp data "resourceType") "CapabilityStatement"
  && match getProp data "fhirVersion" with
     | Some (VString s) => negb (String.eqb s EmptyString)
     | _ => false
     end.

(** A URL reference up to its fragment, and the fragment with its [#]. *)
Fixpoint splitFragment (url : string) : string * string :=
  match url with
  | EmptyString => (EmptyString, EmptyString)
  | String c r =>
      if (code c =? 35)%N then (EmptyString, url)
      else let '(main, frag) := splitFragment r in (String c main, frag)
  end.

(** The part of a URL that a request carries to the server. *)
Definition withoutFragment (url : string) : string := fst (splitFragment url).

(** The query of a URL, if it has one: what follows the first [?] before
    the fragment. *)
Fixpoint afterQuestionMark (s : string) : option string :=
  match s with
  | EmptyString => None
  | String c r => if (code c =? 63)%N then Some r else afterQuestionMark r
  end.

Definition queryOf (url : string) : option string :=
  afterQuestionMark (withoutFragment url).

(** [_format=json] merged into the query of a URL: joined with [&] when the
    URL has a query and with [?] when it has none, ahead of the fragment. *)
Definition mergedUrl (url : string) : string :=
  let '(main, frag) := splitFragment url in
  main ++ match afterQuestionMark main with Some _ => "&" | None => "?" end
       ++ "_format=json" ++ frag.

End Spec.

(** ** The stored document over the life of the page *)



(** The page as a load leaves it before the first request:
    [showLoading(); hideError(); hideResults()]. *)
Definition prelude (d : Dom) : Dom :=
  setResults false (setError (error_text d) false (setLoading true true d)).

Definition getPanel (p : panel) (ps : Panels) : string :=
  match p with
  | overview_content => overview_html ps
  | resources_tab => resources_html ps
  | interactions_tab => interactions_html ps
  | operations_tab => operations_html ps
  | search_tab => search_html ps
  | security_tab => security_html ps
  | raw_tab => raw_html ps
  end.

(** A computation that neither reads nor writes the application state. *)
Definition stateless {A} (m : M A) : Prop :=
  forall st st0, m st = (resultOf (m st0), st, eventsOf (m st0)).

(** Stage 1 fails: the request is rejected, or answered outside 2xx, or its
    body is not JSON. *)
Definition stage1Fails (P : Platform) (url : string) : bool :=
  match fetch P (directRequest url) with
  | Rejected _ => true
  | Fulfilled r =>
      negb (ok r) || match JSON_parse P (body r) with Ok _ => false | Throw _ => true end
  end.

(** ** The tab strip: the part of the document that [switchTab] works on *)

Module Tabs.

(** An element, as far as [switchTab] can tell elements apart: its [id],
    the tokens of its [class] attribute, and its [data-tab] attribute. *)
Record Element : Type := mkElement {
  el_id : option string;
  el_classes : list string;
  el_data_tab : option string
}.

(** The elements of the page in tree order.  Class names and attribute
    values are compared exactly, as in a page in standards mode. *)
Definition Document : Type := list Element.

(** [el.classList.contains(c)] *)
Definition hasClass (c : string) (e : Element) : bool :=
  existsb (String.eqb c) (el_classes e).

(** [el.classList.remove(c)] *)
Definition classList_remove (c : string) (e : Element) : Element :=
  mkElement (el_id e) (filter (fun x => negb (String.eqb x c)) (el_classes e))
            (el_data_tab e).

(** [el.classList.add(c)] *)
Definition classList_add (c : string) (e : Element) : Element :=
  if hasClass c e then e
  else mkElement (el_id e) (el_classes e ++ [c]) (el_data_tab e).

(** [document.querySelectorAll('.' + cls).forEach(el =>
    el.classList.remove('active'))] *)
Definition deactivateAll (cls : string) (doc : Document) : Document :=
  map (fun e => if hasClass cls e then classList_remove "active" e else e) doc.

(** Position of the first element that satisfies [p]. *)
Fixpoint findIndex (p : Element -> bool) (doc : Document) : option nat :=
  match doc with
  | [] => None
  | e :: rest =>
      if p e then Some O
      else match findIndex p rest with
           | Some i => Some (S i)
           | None => None
           end
  end.

Fixpoint updateAt (i : nat) (f : Element -> Element) (doc : Document) : Document :=
  match doc, i with
  | [], _ => []
  | e :: rest, O => f e :: rest
  | e :: rest, S i' => e :: updateAt i' f rest
  end.

Definition dataTabIs (v : string) (e : Element) : bool :=
  match el_data_tab e with
  | Some t => String.eqb t v
  | None => false
  end.

Definition idIs (v : string) (e : Element) : bool :=
  match el_id e with
  | Some t => String.eqb t v
  | None => false
  end.

(** [document.getElementById(id)] for a non-empty [id]; [None] is [null]. *)
Definition getElementById (id : string) (doc : Document) : option nat :=
  findIndex (idIs id) doc.

(** A name that the selector [[data-tab="name"]] carries unchanged: no
    double quote, backslash, line feed, carriage return, form feed or NUL. *)
Fixpoint plainName (s : string) : bool :=
  match s with
  | EmptyString => true
  | String c r =>
      let n := code c in
      negb ((n =? 34) || (n =? 92) || (n =? 10) || (n =? 13) || (n =? 12) || (n =? 0))%N
      && plainName r
  end.

(** Reading [classList] of [null]; the wording is the engine's. *)
Definition nullClassList : Error :=
  mkError "TypeError" "Cannot read properties of null (reading 'classList')".

(** [`${tabName}`], [None] being [undefined] (a click target without a
    [data-tab] attribute). *)
Definition interpolate (tabName : option string) : string :=
  match tabName with
  | Some s => s
  | None => "undefined"
  end.

Section SwitchTab.

(** [document.querySelector(selector)] for the selectors of names that are
    not plain: what the selector engine makes of the text. *)
Variable otherSelector : string -> Document -> result (option nat).

(** [document.querySelector(`[data-tab="${tabName}"]`)] *)
Definition querySelectorDataTab (name : string) (doc : Document) : result (option nat) :=
  if plainName name then Ok (findIndex (dataTabIs name) doc)
  else otherSelector ("[data-tab=" ++ String (ascii_of_N 34) name
                        ++ String (ascii_of_N 34) "]") doc.

(** [switchTab(tabName)]: the exception, if any, and the document as the
    statements executed so far have left it. *)
Definition switchTab (tabName : option string) (doc : Document) : result unit * Document :=
  let name := interpolate tabName in
  let doc1 := deactivateAll "tab-button" doc in
  match querySelectorDataTab name doc1 with
  | Throw e => (Throw e, doc1)
  | Ok None => (Throw nullClassList, doc1)
  | Ok (Some i) =>
      let doc2 := updateAt i (classList_add "active") doc1 in
      let doc3 := deactivateAll "tab-panel" doc2 in
      match getElementById (name ++ "-tab") doc3 with
      | None => (Throw nullClassList, doc3)
      | Some j => (Ok tt, updateAt j (classList_add "active") doc3)
      end
  end.

End SwitchTab.

(** An element at position [k] after every statement of [switchTab] has
    run, the chosen button at [i] and its panel at [j]. *)
Definition elementAfter (i j k : nat) (e : Element) : Element :=
  let e1 := if hasClass "tab-button" e then classList_remove "active" e else e in
  let e2 := if Nat.eqb k i then classList_add "active" e1 else e1 in
  let e3 := if hasClass "tab-panel" e2 then classList_remove "active" e2 else e2 in
  if Nat.eqb k j then classList_add "active" e3 else e3.

(** A tab strip for concrete runs: three buttons and their panels. *)
Definition button (tab : string) (active : bool) : Element :=
  mkElement None (if active then ["tab-button"; "active"] else ["tab-button"]) (Some tab).
Definition tabPanel (tab : string) (active : bool) : Element :=
  mkElement (Some (tab ++ "-tab")) (if active then ["tab-panel"; "active"] else ["tab-panel"])
            None.
Definition strip : Document :=
  [button "overview" true; button "resources" false; button "raw" false;
   tabPanel "overview" true; tabPanel "resources" false; tabPanel "raw" false].
Definition noOtherSelector : string -> Document -> result (option nat) :=
  fun _ _ => Throw (mkError "SyntaxError" "not a valid selector").

End Tabs.

(** ** The values and conversions the render methods rely on *)

Module Js.

Definition typeError (msg : string) : Error := mkError "TypeError" msg.

(** The wording of the engine's errors (here V8's). *)
Definition cannotConvert : Error := typeError "Cannot convert object to primitive value".
Definition cannotRead (what key : string) : Error :=
  typeError ("Cannot read properties of " ++ what ++ " (reading '" ++ key ++ "')").
Definition notFunction (expr : string) : Error := typeError (expr ++ " is not a function").

Definition bindR {A B} (r : result A) (f : A -> result B) : result B :=
  match r with
  | Ok a => f a
  | Throw e => Throw e
  end.

Declare Scope res_scope.
Delimit Scope res_scope with res.
Notation "x <- m ;; k" := (bindR m (fun x => k))
  (at level 61, m at next level, right associativity) : res_scope.
Notation "m ;; k" := (bindR m (fun _ => k))
  (at level 61, right associativity) : res_scope.
Local Open Scope res_scope.

(** [l.map(f)], [f] running on the elements in order until one throws. *)
Fixpoint mapR {A B} (f : A -> result B) (l : list A) : result (list B) :=
  match l with
  | [] => Ok []
  | x :: rest => y <- f x ;; ys <- mapR f rest ;; Ok (y :: ys)
  end.

(** [l.filter(f)] *)
Fixpoint filterR {A} (f : A -> result bool) (l : list A) : result (list A) :=
  match l with
  | [] => Ok []
  | x :: rest =>
      b <- f x ;; ys <- filterR f rest ;; Ok (if b then x :: ys else ys)
  end.

(** [l.some(f)], which stops at the first element that satisfies [f]. *)
Fixpoint someR {A} (f : A -> result bool) (l : list A) : result bool :=
  match l with
  | [] => Ok false
  | x :: rest => b <- f x ;; if b then Ok true else someR f rest
  end.

(** Markup literals are written with a backquote for every double quote. *)
Fixpoint html (s : string) : string :=
  match s with
  | EmptyString => EmptyString
  | String c r => String (if (code c =? 96)%N then ascii_of_N 34 else c) (html r)
  end.

(** [strings.join('')] *)
Definition concatAll (l : list string) : string := String.concat EmptyString l.

Definition hasOwn (fields : list (string * value)) (k : string) : bool :=
  match lookup fields k with
  | Some _ => true
  | None => false
  end.

(** [x?.k], for the property names of a CapabilityStatement (none of them
    defined by a prototype). *)
Definition optMember (x : option value) (k : string) : option value :=
  match x with
  | None => None
  | Some VNull => None
  | Some v => getProp v k
  end.

(** [x.k]: reading a property of [undefined] or [null] throws. *)
Definition getMember (x : option value) (k : string) : result (option value) :=
  match x with
  | None => Throw (cannotRead "undefined" k)
  | Some VNull => Throw (cannotRead "null" k)
  | Some v => Ok (getProp v k)
  end.

(** The first character of a string. *)
Definition firstCharLength (c : ascii) : nat :=
  let n := code c in
  if (n <? 192)%N then 1 else if (n <? 224)%N then 2 else if (n <? 240)%N then 3 else 4.

Definition firstChar (s : string) : string :=
  match s with
  | EmptyString => EmptyString
  | String c _ => substring 0 (firstCharLength c) s
  end.

Definition afterFirstChar (s : string) : string :=
  match s with
  | EmptyString => EmptyString
  | String c _ => substring (firstCharLength c) (String.length s - firstCharLength c) s
  end.

(** [x?.[0]].  Of a string it is the first code unit, a string of length
    one: the first character stands for it (for a character outside the
    Basic Multilingual Plane the unit is a lone surrogate), the code only
    tests it for truth and reads properties it does not have. *)
Definition optIndex0 (x : option value) : option value :=
  match x with
  | Some (VArray (v :: _)) => Some v
  | Some (VString (String c r)) => Some (VString (firstChar (String c r)))
  | Some (VObject fields) => lookup fields "0"
  | _ => None
  end.

(** The length of a string in UTF-16 code units. *)
Fixpoint utf16Length (s : string) : N :=
  match s with
  | EmptyString => 0
  | String c r =>
      let n := code c in
      ((if (n <? 128) || (192 <=? n) then 1 else 0)
       + (if 240 <=? n then 1 else 0) + utf16Length r)%N
  end.

(** [x.length === 0] for [x] other than [undefined] and [null]. *)
Definition lengthIsZero (x : value) : bool :=
  match x with
  | VArray items => match items with [] => true | _ => false end
  | VString s => String.eqb s EmptyString
  | VObject fields =>
      match lookup fields "length" with
      | Some (VNumber n) => PrimFloat.eqb n 0%float
      | _ => false
      end
  | _ => false
  end.

(** [s.startsWith('http')] and [s.includes('@')] on a string. *)
Definition startsWithHttp (s : string) : bool := String.prefix "http" s.
Definition includesAt (s : string) : bool := includes s "@".

(** The members of [Object.prototype], which every object literal
    inherits. *)
Definition objectPrototypeNames : list string :=
  ["constructor"; "__defineGetter__"; "__defineSetter__"; "hasOwnProperty";
   "__lookupGetter__"; "__lookupSetter__"; "isPrototypeOf"; "propertyIsEnumerable";
   "toString"; "valueOf"; "__proto__"; "toLocaleString"].

Definition isObjectPrototypeName (k : string) : bool :=
  existsb (String.eqb k) objectPrototypeNames.

(** The value of a string of decimal digits. *)
Fixpoint digitsValue (acc : N) (s : string) : option N :=
  match s with
  | EmptyString => Some acc
  | String c r =>
      let n := code c in
      if ((48 <=? n) && (n <=? 57))%N then digitsValue (10 * acc + (n - 48)) r else None
  end.

(** An array index: the canonical decimal form of an integer below
    2^32 - 1.  Own properties with such keys are enumerated first. *)
Definition arrayIndex (k : string) : option N :=
  match k with
  | EmptyString => None
  | String c r =>
      if ((code c =? 48) && negb (String.eqb r EmptyString))%N then None
      else match digitsValue 0 k with
           | Some n => if (String.length k <=? 10)%nat && (n <? 4294967295)%N then Some n else None
           | None => None
           end
  end.

(** What the platform contributes to rendering. *)
Record Runtime : Type := mkRuntime {
  (** Number::toString *)
  numberToString : float -> string;
  (** StringToNumber *)
  stringToNumber : string -> float;
  (** [c.toUpperCase()] for a string [c] of one character *)
  toUpperCase : string -> string;
  (** [new Date(v).toLocaleDateString()] *)
  toLocaleDateString : value -> result string;
  (** [JSON.stringify(v, null, 2)] *)
  JSON_stringify : value -> string
}.

Section Conversions.

Variable R : Runtime.

(** ToString of a parsed value.  An array is joined with commas, [null]
    elements giving the empty string; an object is [[object Object]] unless
    it has an own [toString] property (never callable in parsed JSON),
    which leaves no way to a primitive. *)
Fixpoint toStr (v : value) : result string :=
  match v with
  | VNull => Ok "null"
  | VBool b => Ok (if b then "true" else "false")
  | VNumber n => Ok (numberToString R n)
  | VString s => Ok s
  | VArray items =>
      (fix join (l : list value) : result string :=
         match l with
         | [] => Ok EmptyString
         | x :: rest =>
             a <- match x with VNull => Ok EmptyString | _ => toStr x end ;;
             match rest with
             | [] => Ok a
             | _ => b <- join rest ;; Ok (a ++ "," ++ b)
             end
         end) items
  | VObject fields =>
      if hasOwn fields "toString" then Throw cannotConvert else Ok "[object Object]"
  end.

(** [`${x}`] *)
Definition toStrU (x : option value) : result string :=
  match x with
  | None => Ok "undefined"
  | Some v => toStr v
  end.

(** [x || 'lit'] inside a template *)
Definition orElse (x : option value) (lit : string) : result string :=
  if truthy x then toStrU x else Ok lit.

(** One element of [array.join(sep)]. *)
Definition joinPart (x : option value) : result string :=
  match x with
  | None => Ok EmptyString
  | Some VNull => Ok EmptyString
  | Some v => toStr v
  end.

(** [array.join(sep)] *)
Fixpoint joinValues (sep : string) (l : list (option value)) : result string :=
  match l with
  | [] => Ok EmptyString
  | x :: rest =>
      a <- joinPart x ;;
      match rest with
      | [] => Ok a
      | _ => b <- joinValues sep rest ;; Ok (a ++ sep ++ b)
      end
  end.

(** [x > 0] *)
Definition gtZero (x : option value) : result bool :=
  match x with
  | None => Ok false
  | Some VNull => Ok false
  | Some (VBool b) => Ok b
  | Some (VNumber n) => Ok (PrimFloat.ltb 0%float n)
  | Some (VString s) => Ok (PrimFloat.ltb 0%float (stringToNumber R s))
  | Some v => s <- toStr v ;; Ok (PrimFloat.ltb 0%float (stringToNumber R s))
  end.

(** [x.length > 0] for [x] other than [undefined] and [null]. *)
Definition lengthPositive (x : value) : result bool :=
  match x with
  | VArray items => Ok (match items with [] => false | _ => true end)
  | VString s => Ok (negb (String.eqb s EmptyString))
  | VObject fields => gtZero (lookup fields "length")
  | _ => Ok false
  end.

(** [x?.length > 0] *)
Definition optLengthPositive (x : option value) : result bool :=
  match x with
  | None => Ok false
  | Some VNull => Ok false
  | Some v => lengthPositive v
  end.

(** [`${x.length}`] for [x] other than [undefined] and [null]. *)
Definition lengthText (x : value) : result string :=
  match x with
  | VArray items => Ok (ofN (N.of_nat (List.length items)))
  | VString s => Ok (ofN (utf16Length s))
  | VObject fields => toStrU (lookup fields "length")
  | _ => Ok "undefined"
  end.

(** The elements of [x] when [x.method] is called as an array method:
    only an array has one. *)
Definition arrayOf (object method : string) (x : value) : result (list value) :=
  match x with
  | VArray items => Ok items
  | VNull => Throw (cannotRead "null" method)
  | _ => Throw (notFunction (object ++ "." ++ method))
  end.

(** [x?.method(...)]: [None] when the chain stops at [undefined] or
    [null]. *)
Definition optArrayOf (object method : string) (x : option value)
  : result (option (list value)) :=
  match x with
  | None => Ok None
  | Some VNull => Ok None
  | Some (VArray items) => Ok (Some items)
  | Some _ => Throw (notFunction (object ++ "?." ++ method))
  end.

(** [system.charAt(0).toUpperCase() + system.slice(1)] on a string; a
    first character outside the Basic Multilingual Plane is split between
    the two halves and comes out as it went in. *)
Definition capitalize (s : string) : string :=
  match s with
  | EmptyString => EmptyString
  | String c _ =>
      if (firstCharLength c =? 4)%nat then s
      else toUpperCase R (firstChar s) ++ afterFirstChar s
  end.

End Conversions.

End Js.

(** ** The render methods *)

Module Render.
Import Js.
Local Open Scope res_scope.

Section Methods.

Variable R : Runtime.

(** [this.capabilityData] as a value: the field holds [null] until a
    document is stored. *)
Definition thisData (capabilityData : option value) : option value :=
  match capabilityData with
  | None => Some VNull
  | Some v => Some v
  end.

(** The inner callback of [renderContactInfo]: one telecom entry. *)
Definition telecomLine (telecom : value) : result string :=
  sys <- getMember (Some telecom) "system" ;;
  let system := if truthy sys then sys else Some (VString "contact") in
  v <- getMember (Some telecom) "value" ;;
  let value := if truthy v then v else Some (VString EmptyString) in
  u <- getMember (Some telecom) "use" ;;
  use <- (if truthy u then t <- toStrU R u ;; Ok ((html " (") ++ t ++ (html ")"))
          else Ok EmptyString) ;;
  if truthy value then
    displayValue <-
      (if strictEqString system "url" then
         t1 <- toStrU R value ;; t2 <- toStrU R value ;;
         Ok ((html "<a href=`") ++ t1 ++ (html "` target=`_blank` rel=`noopener noreferrer`>") ++ t2 ++ (html "</a>"))
       else
         match value with
         | Some (VString s) =>
             if startsWithHttp s then
               Ok ((html "<a href=`") ++ s ++ (html "` target=`_blank` rel=`noopener noreferrer`>") ++ s ++ (html "</a>"))
             else if strictEqString system "email" || includesAt s then
               Ok ((html "<a href=`mailto:") ++ s ++ (html "`>") ++ s ++ (html "</a>"))
             else Ok s
         | _ => Throw (notFunction "value.startsWith")
         end) ;;
    label <- match system with
             | Some (VString s) => Ok (capitalize R s)
             | _ => Throw (notFunction "system.charAt")
             end ;;
    Ok ((html "<div class=`contact-field`><strong>") ++ label ++ (html ":</strong> ") ++ displayValue ++ use ++ (html "</div>"))
  else Ok EmptyString.

(** The callback of [contacts.forEach]: one contact card, with the
    separator unless it is the last. *)
Definition contactCard (contact : value) (last : bool) : result string :=
  name <- getMember (Some contact) "name" ;;
  nameHtml <- (if truthy name then t <- toStrU R name ;; Ok ((html "<div class=`contact-field`><strong>Name:</strong> ") ++ t ++ (html "</div>"))
               else Ok EmptyString) ;;
  telecom <- getMember (Some contact) "telecom" ;;
  telecomHtml <-
    (if truthy telecom then
       match telecom with
       | Some t =>
           positive <- lengthPositive R t ;;
           if positive then
             items <- arrayOf "contact.telecom" "forEach" t ;;
             lines <- mapR telecomLine items ;;
             Ok (concatAll lines)
           else Ok EmptyString
       | None => Ok EmptyString
       end
     else Ok EmptyString) ;;
  Ok ((html "<div class=`contact-card`>") ++ nameHtml ++ telecomHtml ++ "</div>"
        ++ (if last then EmptyString else (html "<hr class=`contact-separator`>"))).

Fixpoint contactCards (contacts : list value) : result string :=
  match contacts with
  | [] => Ok EmptyString
  | contact :: rest =>
      card <- contactCard contact (match rest with [] => true | _ => false end) ;;
      cards <- contactCards rest ;;
      Ok (card ++ cards)
  end.

(** [renderContactInfo(contacts)] *)
Definition renderContactInfo (contacts : option value) : result string :=
  match contacts with
  | None => Ok EmptyString
  | Some c =>
      if negb (truthy contacts) || lengthIsZero c then Ok EmptyString
      else
        items <- arrayOf "contacts" "forEach" c ;;
        cards <- contactCards items ;;
        Ok ((html "<div style=`margin-top: 1.5rem;`><h3>Contact Information</h3>")
              ++ cards ++ "</div>")
  end.

(** [renderOverview()]: the markup assigned to [#overview-content]. *)
Definition renderOverview (capabilityData : option value) : result string :=
  let data := thisData capabilityData in
  name <- getMember data "name" ;;
  nameText <- orElse R name "Not specified" ;;
  fhirVersion <- getMember data "fhirVersion" ;;
  versionText <- toStrU R fhirVersion ;;
  status <- getMember data "status" ;;
  statusText <- orElse R status "Unknown" ;;
  date <- getMember data "date" ;;
  dateText <- (if truthy date
               then match date with
                    | Some d => toLocaleDateString R d
                    | None => Ok "Not specified"
                    end
               else Ok "Not specified") ;;
  publisher <- getMember data "publisher" ;;
  publisherText <- orElse R publisher "Not specified" ;;
  software <- getMember data "software" ;;
  softwareText <- orElse R (optMember software "name") "Not specified" ;;
  kind <- getMember data "kind" ;;
  kindText <- orElse R kind "Not specified" ;;
  contact <- getMember data "contact" ;;
  contactHtml <- renderContactInfo contact ;;
  description <- getMember data "description" ;;
  descriptionHtml <- (if truthy description
                      then t <- toStrU R description ;; Ok ((html "<div style=`margin-top: 1rem;`><h3>Description</h3><p>") ++ t ++ (html "</p></div>"))
                      else Ok EmptyString) ;;
  Ok ((html "
            <div class=`overview-grid`>
                <div class=`overview-card`>
                    <h3>Server Name</h3>
                    <p>") ++ nameText ++ (html "</p>
                </div>
                <div class=`overview-card`>
                    <h3>FHIR Version</h3>
                    <p>") ++ versionText ++ (html "</p>
                </div>
                <div class=`overview-card`>
                    <h3>Status</h3>
                    <p>") ++ statusText
        ++ (html "</p>
                </div>
                <div class=`overview-card`>
                    <h3>Date</h3>
                    <p>") ++ dateText ++ (html "</p>
                </div>
                <div class=`overview-card`>
                    <h3>Publisher</h3>
                    <p>") ++ publisherText ++ (html "</p>
                </div>
                <div class=`overview-card`>
                    <h3>Software/Name</h3>
                    <p>")
        ++ softwareText ++ (html "</p>
                </div>
                <div class=`overview-card`>
                    <h3>Kind</h3>
                    <p>") ++ kindText ++ (html "</p>
                </div>
            </div>
            ") ++ contactHtml
        ++ (html "
            ") ++ descriptionHtml ++ (html "
        ")).

(** [this.capabilityData.rest?.[0]] *)
Definition firstRest (capabilityData : option value) : result (option value) :=
  rest <- getMember (thisData capabilityData) "rest" ;;
  Ok (optIndex0 rest).

(** [this.capabilityData.rest?.[0]?.resource || []] *)
Definition resourcesOf (capabilityData : option value) : result value :=
  rest <- firstRest capabilityData ;;
  let resource := optMember rest "resource" in
  Ok (match resource with
      | Some v => if truthy resource then v else VArray []
      | None => VArray []
      end).

(** [x?.map(i => i.k).join(', ')], evaluated for its exceptions. *)
Definition joinedMembers (object method : string) (x : option value) (k : string)
  : result unit :=
  items <- optArrayOf object method x ;;
  match items with
  | None => Ok tt
  | Some l =>
      members <- mapR (fun i => getMember (Some i) k) l ;;
      _ <- joinValues R ", " members ;;
      Ok tt
  end.

(** [x?.map(i => `<span class="interaction-tag">${i.code}</span>`).join('')
    || fallback] *)
Definition interactionTags (object method : string) (x : option value) (fallback : string)
  : result string :=
  items <- optArrayOf object method x ;;
  match items with
  | None => Ok fallback
  | Some l =>
      tags <- mapR (fun i => code <- getMember (Some i) "code" ;;
                             t <- toStrU R code ;;
                             Ok ((html "<span class=`interaction-tag`>") ++ t ++ (html "</span>"))) l ;;
      let joined := concatAll tags in
      Ok (if String.eqb joined EmptyString then fallback else joined)
  end.

(** [x ? `<div><strong>Label:</strong> ${x}</div>` : ''] *)
Definition ifTruthy (x : option value) (before after : string) : result string :=
  if truthy x then t <- toStrU R x ;; Ok (before ++ t ++ after) else Ok EmptyString.

(** [x !== undefined ? `<div><strong>Label:</strong> ${x}</div>` : ''] *)
Definition ifDefined (x : option value) (before after : string) : result string :=
  match x with
  | None => Ok EmptyString
  | Some v => t <- toStr R v ;; Ok (before ++ t ++ after)
  end.

(** The callback of [resource.searchParam.map] in [renderResources]. *)
Definition resourceSearchParam (p : value) : result string :=
  name <- getMember (Some p) "name" ;;
  nameText <- toStrU R name ;;
  type <- getMember (Some p) "type" ;;
  typeText <- toStrU R type ;;
  documentation <- getMember (Some p) "documentation" ;;
  documentationText <- orElse R documentation "No documentation" ;;
  Ok ((html "
                                    <div class=`search-param`>
                                        <strong>") ++ nameText ++ (html "</strong> (") ++ typeText ++ (html ") - ")
        ++ documentationText ++ (html "
                                    </div>
                                ")).

(** The callback of [resources.map] in [renderResources]. *)
Definition resourceCard (resource : value) : result string :=
  interaction <- getMember (Some resource) "interaction" ;;
  _ <- joinedMembers "resource.interaction" "map" interaction "code" ;;
  searchParam <- getMember (Some resource) "searchParam" ;;
  _ <- joinedMembers "resource.searchParam" "map" searchParam "name" ;;
  type <- getMember (Some resource) "type" ;;
  typeText <- toStrU R type ;;
  profile <- getMember (Some resource) "profile" ;;
  profileText <- orElse R profile "Not specified" ;;
  tags <- interactionTags "resource.interaction" "map" interaction "<span>None</span>" ;;
  searchHtml <-
    (if truthy searchParam then
       match searchParam with
       | Some sp =>
           items <- arrayOf "resource.searchParam" "map" sp ;;
           entries <- mapR resourceSearchParam items ;;
           Ok ((html "
                            <div class=`search-params`>
                                <strong>Search Parameters:</strong>
                                ") ++ concatAll entries ++ (html "
                            </div>
                        "))
       | None => Ok EmptyString
       end
     else Ok EmptyString) ;;
  versioning <- getMember (Some resource) "versioning" ;;
  versioningHtml <- ifTruthy versioning (html "<div><strong>Versioning:</strong> ") (html "</div>") ;;
  readHistory <- getMember (Some resource) "readHistory" ;;
  readHistoryHtml <- ifDefined readHistory (html "<div><strong>Read History:</strong> ") (html "</div>") ;;
  updateCreate <- getMember (Some resource) "updateCreate" ;;
  updateCreateHtml <- ifDefined updateCreate (html "<div><strong>Update Create:</strong> ") (html "</div>") ;;
  conditionalCreate <- getMember (Some resource) "conditionalCreate" ;;
  conditionalCreateHtml <- ifDefined conditionalCreate (html "<div><strong>Conditional Create:</strong> ") (html "</div>") ;;
  conditionalRead <- getMember (Some resource) "conditionalRead" ;;
  conditionalReadHtml <- ifTruthy conditionalRead (html "<div><strong>Conditional Read:</strong> ") (html "</div>") ;;
  conditionalUpdate <- getMember (Some resource) "conditionalUpdate" ;;
  conditionalUpdateHtml <- ifDefined conditionalUpdate (html "<div><strong>Conditional Update:</strong> ") (html "</div>") ;;
  conditionalDelete <- getMember (Some resource) "conditionalDelete" ;;
  conditionalDeleteHtml <- ifTruthy conditionalDelete (html "<div><strong>Conditional Delete:</strong> ") (html "</div>") ;;
  Ok ((html "
                <div class=`resource-card`>
                    <div class=`resource-header` onclick=`this.parentElement.querySelector('.resource-content').classList.toggle('active'); this.querySelector('.toggle').textContent = this.querySelector('.toggle').textContent === '+' ? '−' : '+';`>
                        <h3>") ++ typeText ++ (html "</h3>
                        <span class=`toggle`>+</span>
                    </div>
                    <div class=`resource-content`>
                        <div><strong>Profile:</strong> ") ++ profileText ++ (html "</div>
                        <div><strong>Supported Interactions:</strong></div>
                        <div class=`interaction-list`>
                            ") ++ tags
        ++ (html "
                        </div>
                        ") ++ searchHtml ++ (html "
                        ") ++ versioningHtml ++ (html "
                        ")
        ++ readHistoryHtml ++ (html "
                        ") ++ updateCreateHtml ++ (html "
                        ")
        ++ conditionalCreateHtml ++ (html "
                        ") ++ conditionalReadHtml ++ (html "
                        ")
        ++ conditionalUpdateHtml ++ (html "
                        ") ++ conditionalDeleteHtml ++ (html "
                    </div>
                </div>
            ")).

(** [renderResources()]: the markup assigned to [#resources-tab]. *)
Definition renderResources (capabilityData : option value) : result string :=
  resources <- resourcesOf capabilityData ;;
  if lengthIsZero resources
  then Ok "<p>No resources found in this CapabilityStatement.</p>"
  else
    items <- arrayOf "resources" "map" resources ;;
    cards <- mapR resourceCard items ;;
    count <- lengthText R resources ;;
    Ok ((html "
            <h3>Supported Resources (") ++ count ++ (html ")</h3>
            <div class=`resource-grid`>
                ") ++ concatAll cards ++ (html "
            </div>
        ")).

(** *** Interactions *)

(** The object [resourceInteractions]: its own properties in creation
    order, each an array of the values pushed. *)
Definition groups : Type := list (string * list (option value)).

Fixpoint lookupGroup (g : groups) (key : string) : option (list (option value)) :=
  match g with
  | [] => None
  | (k, types) :: rest => if String.eqb k key then Some types else lookupGroup rest key
  end.

(** [resourceInteractions[key].push(type)] on an own property. *)
Fixpoint pushGroup (g : groups) (key : string) (type : option value) : groups :=
  match g with
  | [] => []
  | (k, types) :: rest =>
      if String.eqb k key then (k, (types ++ [type])%list) :: rest
      else (k, types) :: pushGroup rest key type
  end.

(** The body of the inner [forEach]: a key that the object does not own is
    looked up on [Object.prototype]; what is found there is truthy and has
    no [push]. *)
Definition addInteraction (type : option value) (g : groups) (interaction : value)
  : result groups :=
  code <- getMember (Some interaction) "code" ;;
  key <- toStrU R code ;;
  match lookupGroup g key with
  | Some _ => Ok (pushGroup g key type)
  | None =>
      if isObjectPrototypeName key
      then Throw (notFunction "resourceInteractions[interaction.code].push")
      else Ok (g ++ [(key, [type])])%list
  end.

Fixpoint addInteractions (type : option value) (g : groups) (interactions : list value)
  : result groups :=
  match interactions with
  | [] => Ok g
  | i :: rest => g' <- addInteraction type g i ;; addInteractions type g' rest
  end.

(** The body of the outer [forEach]. *)
Definition addResource (g : groups) (resource : value) : result groups :=
  interaction <- getMember (Some resource) "interaction" ;;
  items <- optArrayOf "resource.interaction" "forEach" interaction ;;
  match items with
  | None => Ok g
  | Some l => addInteractions (getProp resource "type") g l
  end.

Fixpoint addResources (g : groups) (resources : list value) : result groups :=
  match resources with
  | [] => Ok g
  | r :: rest => g' <- addResource g r ;; addResources g' rest
  end.

(** Insertion of an entry among entries sorted by array index. *)
Fixpoint insertIndexed (n : N) (entry : string * list (option value))
         (l : list (N * (string * list (option value))))
  : list (N * (string * list (option value))) :=
  match l with
  | [] => [(n, entry)]
  | (m, e) :: rest =>
      if (n <? m)%N then (n, entry) :: l else (m, e) :: insertIndexed n entry rest
  end.

Fixpoint indexedEntries (g : groups) : list (N * (string * list (option value))) :=
  match g with
  | [] => []
  | (k, types) :: rest =>
      match arrayIndex k with
      | Some n => insertIndexed n (k, types) (indexedEntries rest)
      | None => indexedEntries rest
      end
  end.

(** [Object.entries(resourceInteractions)]: the keys that are array indices
    in ascending order, then the others in creation order. *)
Definition entries (g : groups) : groups :=
  (map snd (indexedEntries g)
   ++ filter (fun e => match arrayIndex (fst e) with Some _ => false | None => true end) g)%list.

(** The callback of [Object.entries(...).map]. *)
Definition groupRow (entry : string * list (option value)) : result string :=
  joined <- joinValues R ", " (snd entry) ;;
  Ok ((html "
                    <div style=`margin: 1rem 0;`>
                        <strong>") ++ fst entry ++ (html ":</strong> ") ++ joined ++ (html "
                    </div>
                ")).

(** [renderInteractions()]: the markup assigned to [#interactions-tab]. *)
Definition renderInteractions (capabilityData : option value) : result string :=
  rest <- firstRest capabilityData ;;
  if negb (truthy rest) then Ok "<p>No REST interface information found.</p>"
  else
    interaction <- getMember rest "interaction" ;;
    tags <- interactionTags "rest.interaction" "map" interaction "<span>None specified</span>" ;;
    mode <- getMember rest "mode" ;;
    modeHtml <- ifTruthy mode (html "<div style=`margin-top: 1rem;`><strong>Mode:</strong> ") (html "</div>") ;;
    documentation <- getMember rest "documentation" ;;
    documentationHtml <- ifTruthy documentation (html "<div style=`margin-top: 1rem;`><strong>Documentation:</strong> ") (html "</div>") ;;
    resource <- getMember rest "resource" ;;
    resources <- optArrayOf "rest.resource" "forEach" resource ;;
    resourceInteractions <- match resources with
                            | None => Ok []
                            | Some l => addResources [] l
                            end ;;
    groupsHtml <- match resourceInteractions with
                  | [] => Ok EmptyString
                  | _ => rows <- mapR groupRow (entries resourceInteractions) ;;
                         Ok ((html "
                <h3 style=`margin-top: 2rem;`>Resource-Level Interactions</h3>
                ") ++ concatAll rows ++ (html "
            "))
                  end ;;
    Ok ((html "
            <h3>System-Level Interactions</h3>
            <div class=`interaction-list`>
                ") ++ tags ++ (html "
            </div>
        ") ++ modeHtml ++ documentationHtml ++ groupsHtml).

(** *** Operations *)

(** [op.documentation ? `<div>...${op.documentation}</div>` : ''] and the
    rest of the markup of one operation. *)
Definition operationFields (op : value) : result (string * string * string) :=
  name <- getMember (Some op) "name" ;;
  nameText <- toStrU R name ;;
  definition <- getMember (Some op) "definition" ;;
  definitionText <- toStrU R definition ;;
  documentation <- getMember (Some op) "documentation" ;;
  documentationHtml <- ifTruthy documentation (html "<div><strong>Documentation:</strong> ") (html "</div>") ;;
  Ok (nameText, definitionText, documentationHtml).

(** The callback of [rest.operation.map]. *)
Definition systemOperation (op : value) : result string :=
  f <- operationFields op ;;
  let '(nameText, definitionText, documentationHtml) := f in
  Ok ((html "
                        <div class=`resource-card`>
                            <div class=`resource-header`>
                                <h3>$") ++ nameText ++ (html "</h3>
                            </div>
                            <div class=`resource-content active`>
                                <div><strong>Definition:</strong> ") ++ definitionText ++ (html "</div>
                                ")
        ++ documentationHtml ++ (html "
                            </div>
                        </div>
                    ")).

(** The callback of [resource.operation.map]. *)
Definition resourceOperation (op : value) : result string :=
  f <- operationFields op ;;
  let '(nameText, definitionText, documentationHtml) := f in
  Ok ((html "
                                    <div style=`margin: 1rem 0; padding: 1rem; background: #f8f9fa; border-radius: 8px;`>
                                        <strong>$") ++ nameText ++ (html "</strong><br>
                                        <div><strong>Definition:</strong> ") ++ definitionText ++ (html "</div>
                                        ")
        ++ documentationHtml ++ (html "
                                    </div>
                                ")).

(** The callback of [resourceOps.map]. *)
Definition resourceOperations (resource : value) : result string :=
  type <- getMember (Some resource) "type" ;;
  typeText <- toStrU R type ;;
  operation <- getMember (Some resource) "operation" ;;
  items <- match operation with
           | Some o => arrayOf "resource.operation" "map" o
           | None => Throw (cannotRead "undefined" "map")
           end ;;
  ops <- mapR resourceOperation items ;;
  Ok ((html "
                        <div class=`resource-card`>
                            <div class=`resource-header` onclick=`this.parentElement.querySelector('.resource-content').classList.toggle('active'); this.querySelector('.toggle').textContent = this.querySelector('.toggle').textContent === '+' ? '−' : '+';`>
                                <h3>") ++ typeText ++ (html " Operations</h3>
                                <span class=`toggle`>+</span>
                            </div>
                            <div class=`resource-content`>
                                ") ++ concatAll ops ++ (html "
                            </div>
                        </div>
                    ")).

(** [r => r.operation?.length > 0] *)
Definition hasOperations (r : value) : result bool :=
  operation <- getMember (Some r) "operation" ;;
  optLengthPositive R operation.

(** [renderOperations()]: the markup assigned to [#operations-tab]. *)
Definition renderOperations (capabilityData : option value) : result string :=
  rest <- firstRest capabilityData ;;
  none <-
    (if truthy (optMember rest "operation") then Ok false
     else
       items <- optArrayOf "rest?.resource" "some" (optMember rest "resource") ;;
       match items with
       | None => Ok true
       | Some l =>
           found <- someR (fun r => operation <- getMember (Some r) "operation" ;;
                                    Ok (truthy operation)) l ;;
           Ok (negb found)
       end) ;;
  if (none : bool) then Ok "<p>No operations found in this CapabilityStatement.</p>"
  else
    operation <- getMember rest "operation" ;;
    systemLevel <- optLengthPositive R operation ;;
    systemHtml <-
      (if (systemLevel : bool) then
         items <- match operation with
                  | Some o => arrayOf "rest.operation" "map" o
                  | None => Throw (cannotRead "undefined" "map")
                  end ;;
         ops <- mapR systemOperation items ;;
         Ok ((html "
                <h3>System-Level Operations</h3>
                <div class=`resource-grid`>
                    ") ++ concatAll ops ++ (html "
                </div>
            "))
       else Ok EmptyString) ;;
    resource <- getMember rest "resource" ;;
    filtered <- optArrayOf "rest.resource" "filter" resource ;;
    resourceOps <- match filtered with
                   | None => Ok []
                   | Some l => filterR hasOperations l
                   end ;;
    resourceHtml <-
      match resourceOps with
      | [] => Ok EmptyString
      | _ => cards <- mapR resourceOperations resourceOps ;;
             Ok ((html "
                <h3>Resource-Level Operations</h3>
                <div class=`resource-grid`>
                    ") ++ concatAll cards ++ (html "
                </div>
            "))
      end ;;
    let operationsHtml := systemHtml ++ resourceHtml in
    Ok (if String.eqb operationsHtml EmptyString then "<p>No operations found.</p>"
        else operationsHtml).

(** *** Search parameters *)

(** The callback of [resource.searchParam.map] in
    [renderSearchParameters]. *)
Definition searchParamEntry (param : value) : result string :=
  name <- getMember (Some param) "name" ;;
  nameText <- toStrU R name ;;
  type <- getMember (Some param) "type" ;;
  typeText <- toStrU R type ;;
  documentation <- getMember (Some param) "documentation" ;;
  documentationHtml <- ifTruthy documentation (html "<br><small>") (html "</small>") ;;
  definition <- getMember (Some param) "definition" ;;
  definitionHtml <- ifTruthy definition (html "<br><small>Definition: ") (html "</small>") ;;
  Ok ((html "
                            <div class=`search-param`>
                                <strong>") ++ nameText ++ (html "</strong> 
                                <span style=`color: #666;`>(") ++ typeText ++ (html ")</span>
                                ")
        ++ documentationHtml ++ (html "
                                ") ++ definitionHtml ++ (html "
                            </div>
                        ")).

(** The callback of [resourcesWithSearch.map]. *)
Definition searchCard (resource : value) : result string :=
  type <- getMember (Some resource) "type" ;;
  typeText <- toStrU R type ;;
  searchParam <- getMember (Some resource) "searchParam" ;;
  match searchParam with
  | Some sp =>
      count <- lengthText R sp ;;
      items <- arrayOf "resource.searchParam" "map" sp ;;
      params <- mapR searchParamEntry items ;;
      Ok ((html "
            <div class=`resource-card`>
                <div class=`resource-header` onclick=`this.parentElement.querySelector('.resource-content').classList.toggle('active'); this.querySelector('.toggle').textContent = this.querySelector('.toggle').textContent === '+' ? '−' : '+';`>
                    <h3>") ++ typeText ++ (html " (") ++ count ++ (html " parameters)</h3>
                    <span class=`toggle`>+</span>
                </div>
                <div class=`resource-content`>
                    <div class=`search-params`>
                        ")
            ++ concatAll params ++ (html "
                    </div>
                </div>
            </div>
        "))
  | None => Throw (cannotRead "undefined" "length")
  end.

(** [r => r.searchParam?.length > 0] *)
Definition hasSearchParams (r : value) : result bool :=
  searchParam <- getMember (Some r) "searchParam" ;;
  optLengthPositive R searchParam.

(** [renderSearchParameters()]: the markup assigned to [#search-tab]. *)
Definition renderSearchParameters (capabilityData : option value) : result string :=
  resources <- resourcesOf capabilityData ;;
  items <- arrayOf "resources" "filter" resources ;;
  resourcesWithSearch <- filterR hasSearchParams items ;;
  match resourcesWithSearch with
  | [] => Ok "<p>No search parameters found in this CapabilityStatement.</p>"
  | _ =>
      cards <- mapR searchCard resourcesWithSearch ;;
      Ok ((html "
            <h3>Search Parameters by Resource</h3>
            <div class=`resource-grid`>
                ") ++ concatAll cards ++ (html "
            </div>
        "))
  end.

(** *** Security *)

(** The callback of [security.service.map]. *)
Definition serviceTag (service : value) : result string :=
  coding <- getMember (Some service) "coding" ;;
  let display := optMember (optIndex0 coding) "display" in
  label <- (if truthy display then toStrU R display
            else
              text <- getMember (Some service) "text" ;;
              orElse R text "Unknown") ;;
  Ok ((html "<span class=`interaction-tag`>") ++ label ++ (html "</span>")).

(** [renderSecurity()]: the markup assigned to [#security-tab]. *)
Definition renderSecurity (capabilityData : option value) : result string :=
  rest <- firstRest capabilityData ;;
  let security := optMember rest "security" in
  if negb (truthy security)
  then Ok "<p>No security information found in this CapabilityStatement.</p>"
  else
    cors <- getMember security "cors" ;;
    corsHtml <- ifDefined cors (html "<div><strong>CORS:</strong> ") (html "</div>") ;;
    service <- getMember security "service" ;;
    listed <- optLengthPositive R service ;;
    servicesHtml <-
      (if (listed : bool) then
         items <- match service with
                  | Some s => arrayOf "security.service" "map" s
                  | None => Throw (cannotRead "undefined" "map")
                  end ;;
         tags <- mapR serviceTag items ;;
         Ok ((html "
                <div style=`margin-top: 1rem;`>
                    <strong>Security Services:</strong>
                    <div class=`interaction-list`>
                        ") ++ concatAll tags ++ (html "
                    </div>
                </div>
            "))
       else Ok EmptyString) ;;
    description <- getMember security "description" ;;
    descriptionHtml <- ifTruthy description (html "<div style=`margin-top: 1rem;`><strong>Description:</strong> ") (html "</div>") ;;
    let securityHtml := corsHtml ++ servicesHtml ++ descriptionHtml in
    Ok (if String.eqb securityHtml EmptyString
        then "<p>No detailed security information available.</p>"
        else securityHtml).

(** *** Raw data *)

(** [renderRawData()]: the markup assigned to [#raw-tab]. *)
Definition renderRawData (capabilityData : option value) : result string :=
  Ok ((html "
            <h3>Raw CapabilityStatement JSON</h3>
            <div class=`json-container`>
                <pre>")
        ++ JSON_stringify R (match capabilityData with None => VNull | Some v => v end)
        ++ (html "</pre>
            </div>
        ")).

(** The render methods as the templates of a platform. *)
Definition template (p : panel) (capabilityData : option value) : result string :=
  match p with
  | overview_content => renderOverview capabilityData
  | resources_tab => renderResources capabilityData
  | interactions_tab => renderInteractions capabilityData
  | operations_tab => renderOperations capabilityData
  | search_tab => renderSearchParameters capabilityData
  | security_tab => renderSecurity capabilityData
  | raw_tab => renderRawData capabilityData
  end.

End Methods.

End Render.

(** ** Notions used to state the properties of rendering *)

(** The order in which [displayCapabilityStatement] fills the panels. *)
Definition renderOrder : list panel :=
  [overview_content; resources_tab; interactions_tab; operations_tab;
   search_tab; security_tab; raw_tab].

(** The render methods of a list of panels, one after the other, then
    [showResults()]. *)
Definition renderAll (P : Platform) (ps : list panel) : M unit :=
  fold_right (fun p k => render P p ;; k) showResults ps.

Definition panel_eq_dec (p q : panel) : {p = q} + {p <> q}.
Proof. decide equality. Defined.

(** The panels that are computed from the first entry of [rest]. *)
Definition restPanels : list panel :=
  [resources_tab; interactions_tab; operations_tab; search_tab; security_tab].

(** What each of them shows when there is nothing to show. *)
Definition emptyMessage (p : panel) : string :=
  match p with
  | resources_tab => "<p>No resources found in this CapabilityStatement.</p>"
  | interactions_tab => "<p>No REST interface information found.</p>"
  | operations_tab => "<p>No operations found in this CapabilityStatement.</p>"
  | search_tab => "<p>No search parameters found in this CapabilityStatement.</p>"
  | security_tab => "<p>No security information found in this CapabilityStatement.</p>"
  | _ => EmptyString
  end.

(** The descriptive elements that [renderOverview] inserts as text. *)
Definition overviewTexts : list string :=
  ["name"; "fhirVersion"; "status"; "publisher"; "kind"; "description"].

(** A document with nothing but text to show: the descriptive elements are
    absent or strings, and there is no [date], [software], [contact] or
    [rest]. *)
Definition plainDocument (data : value) : Prop :=
  (forall k, In k overviewTexts ->
             getProp data k = None \/ exists s, getProp data k = Some (VString s))
  /\ (forall k, In k ["date"; "software"; "contact"; "rest"] -> getProp data k = None).

(** An interaction with a string for its [code] that is not the name of a
    member of [Object.prototype]. *)
Definition plainCode (interaction : value) : Prop :=
  exists c, getProp interaction "code" = Some (VString c)
            /\ Js.isObjectPrototypeName c = false.

(** A resource whose interactions can be grouped: [interaction] is absent,
    [null], or an array of interactions with plain codes. *)
Definition groupable (resource : value) : Prop :=
  resource <> VNull
  /\ match getProp resource "interaction" with
     | None | Some VNull => True
     | Some (VArray interactions) => Forall plainCode interactions
     | Some _ => False
     end.

(** The interaction codes a resource declares. *)
Definition codesOf (resource : value) : list string :=
  match getProp resource "interaction" with
  | Some (VArray interactions) =>
      flat_map (fun i => match getProp i "code" with
                         | Some (VString c) => [c]
                         | _ => []
                         end) interactions
  | _ => []
  end.

(** The [type] of a resource, once for each time it declares [key]. *)
Definition declarations (key : string) (resource : value) : list (option value) :=
  flat_map (fun c => if String.eqb c key then [getProp resource "type"] else [])
           (codesOf resource).

(** The [type]s of the resources that declare the code [key], one for each
    declaration, in document order. *)
Definition declaring (key : string) (resources : list value) : list (option value) :=
  flat_map (declarations key) resources.

(** A group, extended by the values pushed to it. *)
Definition extend (old : option (list (option value))) (new : list (option value))
  : option (list (option value)) :=
  match new with
  | [] => old
  | _ => Some (match old with Some o => (o ++ new)%list | None => new end)
  end.

(** A platform for concrete runs of the render methods. *)
Module RenderScenario.

Import Scenario.

Definition asciiUpper (c : ascii) : ascii :=
  let n := code c in
  if ((97 <=? n) && (n <=? 122))%N then ascii_of_N (n - 32) else c.

(** Stand-ins for the primitives of the engine, enough for the runs below:
    upper case is that of ASCII letters, and the documents of the runs show
    no number and no date. *)
Definition runtime : Js.Runtime :=
  Js.mkRuntime (fun _ => "0") (fun _ => PrimFloat.nan)
               (fun c => string_of_list_ascii (map asciiUpper (list_ascii_of_string c)))
               (fun _ => Ok "1/1/2025") (fun _ => "{}").

Definition preamble : string :=
  "{" ++ quoted "resourceType" ++ ":" ++ quoted "CapabilityStatement" ++ ","
      ++ quoted "fhirVersion" ++ ":" ++ quoted "4.0.1".

(** A document whose [name] carries markup. *)
Definition markupBody : string :=
  preamble ++ "," ++ quoted "name" ++ ":" ++ quoted "<img src=x onerror=alert(1)>" ++ "}".
Definition markupDoc : value :=
  VObject [("resourceType", VString "CapabilityStatement"); ("fhirVersion", VString "4.0.1");
           ("name", VString "<img src=x onerror=alert(1)>")].

(** A document whose [contact] is an object, not a list. *)
Definition contactObjectBody : string :=
  preamble ++ "," ++ quoted "contact" ++ ":{" ++ quoted "name" ++ ":" ++ quoted "Support"
           ++ "}}".
Definition contactObjectDoc : value :=
  VObject [("resourceType", VString "CapabilityStatement"); ("fhirVersion", VString "4.0.1");
           ("contact", VObject [("name", VString "Support")])].

(** A document whose first [rest] entry has an object for [resource]. *)
Definition resourceObjectBody : string :=
  preamble ++ "," ++ quoted "rest" ++ ":[{" ++ quoted "resource" ++ ":{" ++ quoted "type"
           ++ ":" ++ quoted "Patient" ++ "}}]}".
Definition resourceObjectDoc : value :=
  VObject [("resourceType", VString "CapabilityStatement"); ("fhirVersion", VString "4.0.1");
           ("rest", VArray [VObject [("resource", VObject [("type", VString "Patient")])]])].

Definition table : list (string * value) :=
  [(minimalBody, minimalDoc); (markupBody, markupDoc);
   (contactObjectBody, contactObjectDoc); (resourceObjectBody, resourceObjectDoc)].

(** The direct request answers 200 with [body]; the panels are rendered by
    the render methods. *)
Definition serving (body : string) : Platform :=
  mkPlatform hasScheme
             (fun r => match req_mode r with
                       | Some _ => respond 200 "OK" body
                       | None => Rejected failedToFetch
                       end)
             (parseTable table)
             (Render.template runtime).

Definition interactionOf (code : string) : value := VObject [("code", VString code)].

(** Two resources that share an interaction. *)
Definition twoResources : list value :=
  [VObject [("type", VString "Patient");
            ("interaction", VArray [interactionOf "read"; interactionOf "create"])];
   VObject [("type", VString "Observation");
            ("interaction", VArray [interactionOf "read"])]].

(** A second resource with an interaction called [constructor]. *)
Definition constructorResources : list value :=
  [VObject [("type", VString "Patient");
            ("interaction", VArray [interactionOf "read"])];
   VObject [("type", VString "Observation");
            ("interaction", VArray [interactionOf "read"; interactionOf "constructor"])]].

Definition withRest (rest : list value) : value :=
  VObject [("resourceType", VString "CapabilityStatement"); ("fhirVersion", VString "4.0.1");
           ("rest", VArray rest)].

(** A first [rest] entry with empty lists of operations and of security
    services. *)
Definition emptyLists : value :=
  VObject [("operation", VArray []);
           ("security", VObject [("service", VArray [])])].

(** A second [rest] entry, with a resource. *)
Definition secondEntry : value :=
  VObject [("resource", VArray [VObject [("type", VString "Patient")]])].

End RenderScenario.

(** ** [JSON.parse]

    The text is read by the JSON grammar into its members as written
    ([read]); the object that the engine builds from them ([internalize])
    keeps one property per key and enumerates its keys in the order of
    [OrdinaryOwnPropertyKeys]. *)

Module Json.
Import Js.

(** *** The grammar *)

Inductive token : Type :=
| TLBrace | TRBrace | TLBracket | TRBracket | TColon | TComma
| TString (raw : string)   (* what stands between the quotes, escapes as written *)
| TWord (w : string).      (* a run of the characters of numbers and literals *)

Inductive lexing : Type :=
| Between
| InWord (w : string)
| InString (raw : string)
| InEscape (raw : string).  (* after a backslash in a string *)

Inductive step : Type :=
| Skip
| Emit (t : token)
| Enter (st : lexing)
| Bad.

(** Space, tab, line feed, carriage return. *)
Definition isWhitespace (c : ascii) : bool :=
  let n := code c in ((n =? 32) || (n =? 9) || (n =? 10) || (n =? 13))%N.

Definition isDigit (c : ascii) : bool :=
  let n := code c in ((48 <=? n) && (n <=? 57))%N.

(** The characters of [true], [false], [null] and of numbers. *)
Definition isWordChar (c : ascii) : bool :=
  let n := code c in
  (isDigit c || (97 <=? n) && (n <=? 122) || (n =? 69) || (n =? 43) || (n =? 45)
   || (n =? 46))%N.

Definition single (c : ascii) : string := String c EmptyString.

(** A character between tokens. *)
Definition start (c : ascii) : step :=
  let n := code c in
  if isWhitespace c then Skip
  else if (n =? 123)%N then Emit TLBrace
  else if (n =? 125)%N then Emit TRBrace
  else if (n =? 91)%N then Emit TLBracket
  else if (n =? 93)%N then Emit TRBracket
  else if (n =? 58)%N then Emit TColon
  else if (n =? 44)%N then Emit TComma
  else if (n =? 34)%N then Enter (InString EmptyString)
  else if isWordChar c then Enter (InWord (single c))
  else Bad.

Definition emit (t : token) (rest : option (list token)) : option (list token) :=
  match rest with
  | Some ts => Some (t :: ts)
  | None => None
  end.

(** The tokens of a text.  A string ends at the first quote that no
    backslash precedes and holds no control character; a word is a maximal
    run (what may follow a number or a literal is no word character). *)
Fixpoint lex (s : string) (st : lexing) : option (list token) :=
  match s with
  | EmptyString =>
      match st with
      | Between => Some []
      | InWord w => Some [TWord w]
      | InString _ | InEscape _ => None
      end
  | String c r =>
      match st with
      | Between =>
          match start c with
          | Skip => lex r Between
          | Emit t => emit t (lex r Between)
          | Enter st' => lex r st'
          | Bad => None
          end
      | InWord w =>
          if isWordChar c then lex r (InWord (w ++ single c))
          else match start c with
               | Skip => emit (TWord w) (lex r Between)
               | Emit t => emit (TWord w) (emit t (lex r Between))
               | Enter st' => emit (TWord w) (lex r st')
               | Bad => None
               end
      | InString raw =>
          if (code c =? 34)%N then emit (TString raw) (lex r Between)
          else if (code c =? 92)%N then lex r (InEscape (raw ++ single c))
          else if (code c <? 32)%N then None
          else lex r (InString (raw ++ single c))
      | InEscape raw => lex r (InString (raw ++ single c))
      end
  end.

(** Numbers: an optional minus; a zero, or a digit from 1 to 9 and then
    digits; optionally a point and digits; optionally [e] or [E], an
    optional sign and digits. *)
Inductive numeral : Type :=
| NStart | NMinus | NZero | NInt | NDot | NFrac | NExp | NExpSign | NExpDigits.

Definition numeralStep (st : numeral) (c : ascii) : option numeral :=
  let n := code c in
  let exponent := ((n =? 101) || (n =? 69))%N in
  match st with
  | NStart =>
      if (n =? 45)%N then Some NMinus
      else if (n =? 48)%N then Some NZero
      else if isDigit c then Some NInt else None
  | NMinus =>
      if (n =? 48)%N then Some NZero
      else if isDigit c then Some NInt else None
  | NZero =>
      if (n =? 46)%N then Some NDot
      else if exponent then Some NExp else None
  | NInt =>
      if isDigit c then Some NInt
      else if (n =? 46)%N then Some NDot
      else if exponent then Some NExp else None
  | NDot => if isDigit c then Some NFrac else None
  | NFrac =>
      if isDigit c then Some NFrac
      else if exponent then Some NExp else None
  | NExp =>
      if ((n =? 43) || (n =? 45))%N then Some NExpSign
      else if isDigit c then Some NExpDigits else None
  | NExpSign => if isDigit c then Some NExpDigits else None
  | NExpDigits => if isDigit c then Some NExpDigits else None
  end.

Fixpoint isNumeral (s : string) (st : numeral) : bool :=
  match s with
  | EmptyString =>
      match st with
      | NZero | NInt | NFrac | NExpDigits => true
      | _ => false
      end
  | String c r =>
      match numeralStep st c with
      | Some st' => isNumeral r st'
      | None => false
      end
  end.

(** The UTF-8 encoding of a code point. *)
Definition utf8 (n : N) : string :=
  (if n <? 128 then single (ascii_of_N n)
   else if n <? 2048 then
     String (ascii_of_N (192 + n / 64)) (single (ascii_of_N (128 + n mod 64)))
   else if n <? 65536 then
     String (ascii_of_N (224 + n / 4096))
       (String (ascii_of_N (128 + (n / 64) mod 64)) (single (ascii_of_N (128 + n mod 64))))
   else
     String (ascii_of_N (240 + n / 262144))
       (String (ascii_of_N (128 + (n / 4096) mod 64))
          (String (ascii_of_N (128 + (n / 64) mod 64))
             (single (ascii_of_N (128 + n mod 64))))))%N.

Definition hex4 (a b c d : ascii) : option N :=
  match hexValue a, hexValue b, hexValue c, hexValue d with
  | Some x, Some y, Some z, Some w => Some (4096 * x + 256 * y + 16 * z + w)%N
  | _, _, _, _ => None
  end.

(** The character of a one-letter escape. *)
Definition simpleEscape (c : ascii) : option ascii :=
  let n := code c in
  (if (n =? 34) || (n =? 92) || (n =? 47) then Some c
   else if n =? 98 then Some (ascii_of_N 8)
   else if n =? 102 then Some (ascii_of_N 12)
   else if n =? 110 then Some (ascii_of_N 10)
   else if n =? 114 then Some (ascii_of_N 13)
   else if n =? 116 then Some (ascii_of_N 9)
   else None)%N.

Definition prepend (s : string) (rest : option string) : option string :=
  match rest with
  | Some r => Some (s ++ r)
  | None => None
  end.

(** The value of a string token.  A [\u] escape of a high surrogate must be
    followed by one of a low surrogate, the two standing for one code
    point; a surrogate on its own has no UTF-8 encoding. *)
Fixpoint unescape (raw : string) : option string :=
  match raw with
  | EmptyString => Some EmptyString
  | String c r =>
      if negb (code c =? 92)%N then prepend (single c) (unescape r)
      else
        match r with
        | EmptyString => None
        | String e r1 =>
            if negb (code e =? 117)%N then
              match simpleEscape e with
              | Some ch => prepend (single ch) (unescape r1)
              | None => None
              end
            else
              match r1 with
              | String h1 (String h2 (String h3 (String h4 r2))) =>
                  match hex4 h1 h2 h3 h4 with
                  | None => None
                  | Some u =>
                      if ((55296 <=? u) && (u <=? 56319))%N then
                        match r2 with
                        | String b (String v (String l1 (String l2 (String l3 (String l4 r3))))) =>
                            if ((code b =? 92) && (code v =? 117))%N then
                              match hex4 l1 l2 l3 l4 with
                              | Some l =>
                                  if ((56320 <=? l) && (l <=? 57343))%N
                                  then prepend (utf8 (65536 + (u - 55296) * 1024 + (l - 56320))%N)
                                               (unescape r3)
                                  else None
                              | None => None
                              end
                            else None
                        | _ => None
                        end
                      else if ((56320 <=? u) && (u <=? 57343))%N then None
                      else prepend (utf8 u) (unescape r2)
                  end
              | _ => None
              end
        end
  end.

Section Reading.

Variable R : Runtime.

(** The value of a word: a literal or a number. *)
Definition word (w : string) : option value :=
  if String.eqb w "true" then Some (VBool true)
  else if String.eqb w "false" then Some (VBool false)
  else if String.eqb w "null" then Some VNull
  else if isNumeral w NStart then Some (VNumber (stringToNumber R w))
  else None.

(** The containers that are open. *)
Inductive frame : Type :=
| FArray (items : list value)
| FObject (members : list (string * value))
| FMember (members : list (string * value)) (key : string).  (* a key awaits its value *)

Inductive mode : Type :=
| MValue      (* a value *)
| MFirst      (* after [: a value or ] *)
| MKey        (* after a comma in an object: a key *)
| MFirstKey   (* after {: a key or } *)
| MColon
| MAfter      (* after a value in a container: a comma or the end of it *)
| MDone (v : value).

(** A value is complete: it is the text, an element or the value of the
    pending key. *)
Definition complete (v : value) (stack : list frame) : option (list frame * mode) :=
  match stack with
  | [] => Some ([], MDone v)
  | FArray items :: rest => Some (FArray (items ++ [v])%list :: rest, MAfter)
  | FMember members key :: rest =>
      Some (FObject (members ++ [(key, v)])%list :: rest, MAfter)
  | FObject _ :: _ => None
  end.

Fixpoint parseTokens (ts : list token) (stack : list frame) (m : mode) : option value :=
  match ts with
  | [] =>
      match m with
      | MDone v => Some v
      | _ => None
      end
  | t :: r =>
      let continue (next : option (list frame * mode)) :=
        match next with
        | Some (stack', m') => parseTokens r stack' m'
        | None => None
        end in
      let scalar (v : option value) :=
        match v with
        | Some x => continue (complete x stack)
        | None => None
        end in
      let text (raw : string) :=
        match unescape raw with
        | Some s => Some (VString s)
        | None => None
        end in
      match m with
      | MValue =>
          match t with
          | TLBrace => parseTokens r (FObject [] :: stack) MFirstKey
          | TLBracket => parseTokens r (FArray [] :: stack) MFirst
          | TString raw => scalar (text raw)
          | TWord w => scalar (word w)
          | _ => None
          end
      | MFirst =>
          match t with
          | TLBrace => parseTokens r (FObject [] :: stack) MFirstKey
          | TLBracket => parseTokens r (FArray [] :: stack) MFirst
          | TString raw => scalar (text raw)
          | TWord w => scalar (word w)
          | TRBracket =>
              match stack with
              | FArray items :: rest => continue (complete (VArray items) rest)
              | _ => None
              end
          | _ => None
          end
      | MKey =>
          match t, stack with
          | TString raw, FObject members :: rest =>
              match unescape raw with
              | Some key => parseTokens r (FMember members key :: rest) MColon
              | None => None
              end
          | _, _ => None
          end
      | MFirstKey =>
          match t, stack with
          | TString raw, FObject members :: rest =>
              match unescape raw with
              | Some key => parseTokens r (FMember members key :: rest) MColon
              | None => None
              end
          | TRBrace, FObject members :: rest => continue (complete (VObject members) rest)
          | _, _ => None
          end
      | MColon =>
          match t with
          | TColon => parseTokens r stack MValue
          | _ => None
          end
      | MAfter =>
          match t, stack with
          | TComma, FArray _ :: _ => parseTokens r stack MValue
          | TComma, FObject _ :: _ => parseTokens r stack MKey
          | TRBracket, FArray items :: rest => continue (complete (VArray items) rest)
          | TRBrace, FObject members :: rest => continue (complete (VObject members) rest)
          | _, _ => None
          end
      | MDone _ => None
      end
  end.

(** The text as written: every member of every object, in the order of
    the text; [None] for what is not JSON. *)
Definition read (text : string) : option value :=
  match lex text Between with
  | Some ts => parseTokens ts [] MValue
  | None => None
  end.

End Reading.

(** *** The object that is built *)

(** [CreateDataProperty]: a key that is there keeps its place and takes
    the new value. *)
Fixpoint assign (fields : list (string * value)) (k : string) (v : value)
  : list (string * value) :=
  match fields with
  | [] => [(k, v)]
  | (k', v') :: rest =>
      if String.eqb k' k then (k', v) :: rest else (k', v') :: assign rest k v
  end.

(** The properties that the members define, in the order of creation. *)
Definition define (members : list (string * value)) : list (string * value) :=
  fold_left (fun fields m => assign fields (fst m) (snd m)) members [].

Fixpoint insertIndexed (n : N) (field : string * value)
         (l : list (N * (string * value))) : list (N * (string * value)) :=
  match l with
  | [] => [(n, field)]
  | (m, f) :: rest =>
      if (n <? m)%N then (n, field) :: l else (m, f) :: insertIndexed n field rest
  end.

Fixpoint indexed (fields : list (string * value)) : list (N * (string * value)) :=
  match fields with
  | [] => []
  | (k, v) :: rest =>
      match arrayIndex k with
      | Some n => insertIndexed n (k, v) (indexed rest)
      | None => indexed rest
      end
  end.

Definition isIndex (k : string) : bool :=
  match arrayIndex k with
  | Some _ => true
  | None => false
  end.

(** The order in which the properties are enumerated: the keys that are
    array indices in ascending order, then the others in the order of
    creation. *)
Definition enumerate (fields : list (string * value)) : list (string * value) :=
  (map snd (indexed fields) ++ filter (fun f => negb (isIndex (fst f))) fields)%list.

(** The value that [JSON.parse] returns for a text read as [v]. *)
Fixpoint internalize (v : value) : value :=
  match v with
  | VArray items => VArray (map internalize items)
  | VObject members =>
      VObject (enumerate (define (map (fun m => (fst m, internalize (snd m))) members)))
  | _ => v
  end.

(** [JSON.parse(text)] *)
Definition parse (R : Runtime) (text : string) : result value :=
  match read R text with
  | Some v => Ok (internalize v)
  | None => Throw (mkError "SyntaxError" "Unexpected token")
  end.

(** *** Texts that are stored as written *)



End Json.


(** Concrete runs with that parser and the render methods. *)
Module JsonScenario.

Import Scenario.

(** The direct request answers 200 with [body]. *)
Definition serving (body : string) : Platform :=
  mkPlatform hasScheme
             (fun r => match req_mode r with
                       | Some _ => respond 200 "OK" body
                       | None => Rejected failedToFetch
                       end)
             (Json.parse RenderScenario.runtime)
             (Render.template RenderScenario.runtime).


End JsonScenario.

(** * Properties *)

(** ** The monad *)

Lemma stateless_ret {A} (a : A) : stateless (ret a).
Proof. intros st st0; reflexivity. Qed.

Lemma stateless_throw {A} (e : Error) : stateless (@throw A e).
Proof. intros st st0; reflexivity. Qed.

Lemma stateless_emit (ev : event) : stateless (emit ev).
Proof. intros st st0; reflexivity. Qed.

Lemma stateless_lift {A} (r : result A) : stateless (lift r).
Proof. intros st st0; reflexivity. Qed.

Lemma stateless_bind {A B} (m : M A) (f : A -> M B) :
  stateless m -> (forall a, stateless (f a)) -> stateless (bind m f).
Proof.
  intros Hm Hf st st0. unfold bind.
  rewrite (Hm st st0).
  destruct (m st0) as [[[a|e] s1] l1]; cbn [resultOf eventsOf fst snd].
  - rewrite (Hf a st s1). destruct (f a s1) as [[r s2] l2]; reflexivity.
  - reflexivity.
Qed.

Lemma stateless_tryCatch {A} (m : M A) (h : Error -> M A) :
  stateless m -> (forall e, stateless (h e)) -> stateless (tryCatch m h).
Proof.
  intros Hm Hh st st0. unfold tryCatch.
  rewrite (Hm st st0).
  destruct (m st0) as [[[a|e] s1] l1]; cbn [resultOf eventsOf fst snd].
  - reflexivity.
  - rewrite (Hh e st s1). destruct (h e s1) as [[r s2] l2]; reflexivity.
Qed.

(** ** The two stages *)

Section Loader.

Variable P : Platform.

Lemma stateless_awaitFetch (r : Request) : stateless (awaitFetch P r).
Proof.
  unfold awaitFetch. apply stateless_bind; [apply stateless_emit|].
  intros _. destruct (fetch P r); [apply stateless_throw | apply stateless_ret].
Qed.

Lemma stateless_directStage (url : string) : stateless (directStage P url).
Proof.
  unfold directStage. apply stateless_bind; [apply stateless_awaitFetch|].
  intros r. destruct (negb (ok r)); [apply stateless_throw | apply stateless_lift].
Qed.

Lemma stateless_proxyStage (url : string) (e : Error) : stateless (proxyStage P url e).
Proof.
  unfold proxyStage. apply stateless_bind; [apply stateless_emit|].
  intros _. apply stateless_bind; [apply stateless_awaitFetch|].
  intros r. destruct (negb (ok r)); [apply stateless_throw|].
  destruct (JSON_parse P (body r)); [apply stateless_ret|].
  destruct (_ || _); apply stateless_throw.
Qed.

Lemma stateless_fetchData (url : string) : stateless (fetchData P url).
Proof.
  apply stateless_tryCatch;
    [apply stateless_directStage | apply stateless_proxyStage].
Qed.

Lemma stateless_validated (url : string) : stateless (validated P url).
Proof.
  unfold validated. apply stateless_bind; [apply stateless_fetchData|].
  intros d. destruct (negb _); [apply stateless_throw | apply stateless_ret].
Qed.

(** The direct stage, by the way its request settles. *)
Lemma directStage_run (url : string) (st : App) :
  directStage P url st =
  (match fetch P (directRequest url) with
   | Rejected e => Throw e
   | Fulfilled r =>
       if ok r then JSON_parse P (body r)
       else Throw (newError ("HTTP " ++ ofN (status r) ++ ": " ++ statusText r))
   end, st, [EFetch (directRequest url)]).
Proof.
  unfold directStage, awaitFetch, bind, emit, throw, ret, lift.
  destruct (fetch P (directRequest url)) as [e|r]; [reflexivity|].
  destruct (ok r); reflexivity.
Qed.

(** The proxy stage, by the way its request settles. *)
Lemma proxyStage_run (url : string) (corsError : Error) (st : App) :
  proxyStage P url corsError st =
  (match fetch P (proxyRequest url) with
   | Rejected e => Throw e
   | Fulfilled r =>
       if ok r then
         match JSON_parse P (body r) with
         | Ok data => Ok data
         | Throw _ =>
             if includes (body r) "<html>" || includes (body r) "<!DOCTYPE"
             then Throw (newError Msg.htmlPage)
             else Throw (newError Msg.invalidJson)
         end
       else Throw (newError ("Proxy request failed: HTTP " ++ ofN (status r)
                              ++ ": " ++ statusText r))
   end, st, [EConsoleLog corsError; EFetch (proxyRequest url)]).
Proof.
  unfold proxyStage, awaitFetch, bind, emit, throw, ret, lift.
  destruct (fetch P (proxyRequest url)) as [e|r]; [reflexivity|].
  destruct (ok r); [|reflexivity].
  cbn [negb]. destruct (JSON_parse P (body r)); [reflexivity|].
  destruct (_ || _); reflexivity.
Qed.

(** The inner [try]/[catch]: the proxy stage runs exactly when the direct
    stage throws. *)
Lemma fetchData_run (url : string) (st : App) :
  fetchData P url st =
  match resultOf (directStage P url st) with
  | Ok data => (Ok data, st, [EFetch (directRequest url)])
  | Throw e =>
      (resultOf (proxyStage P url e st), st,
       [EFetch (directRequest url); EConsoleLog e; EFetch (proxyRequest url)])
  end.
Proof.
  unfold fetchData, tryCatch. rewrite directStage_run. cbn [resultOf fst].
  destruct (match fetch P (directRequest url) with Rejected _ => _ | Fulfilled _ => _ end)
    as [d|e]; [reflexivity|].
  rewrite proxyStage_run. reflexivity.
Qed.

(** The direct stage throws exactly when stage 1 fails. *)
Lemma directStage_throws_iff (url : string) (st : App) :
  stage1Fails P url = true <-> exists e, resultOf (directStage P url st) = Throw e.
Proof.
  rewrite directStage_run. unfold stage1Fails. cbn [resultOf fst].
  destruct (fetch P (directRequest url)) as [e|r].
  - split; [eauto | reflexivity].
  - destruct (ok r); cbn [negb orb].
    + destruct (JSON_parse P (body r)) as [d|e]; split; intros H;
        try discriminate; eauto. destruct H; discriminate.
    + split; [eauto | reflexivity].
Qed.

Lemma fetchData_requests (url : string) (st : App) :
  requests (eventsOf (fetchData P url st)) =
  directRequest url :: (if stage1Fails P url then [proxyRequest url] else []).
Proof.
  rewrite fetchData_run.
  destruct (stage1Fails P url) eqn:F.
  - apply (directStage_throws_iff url st) in F. destruct F as [e ->]. reflexivity.
  - destruct (resultOf (directStage P url st)) as [d|e] eqn:D; [reflexivity|].
    assert (stage1Fails P url = true) by (apply (directStage_throws_iff url st); eauto).
    congruence.
Qed.

End Loader.

(** ** Rendering and the outer [try] *)

Section Load.

Variable P : Platform.

Lemma bind_render (p : panel) (k : M unit) (st : App) :
  bind (render P p) (fun _ => k) st =
  match template P p (capabilityData st) with
  | Ok html => k (mkApp (capabilityData st) (setPanels (setPanel p html) (dom st)))
  | Throw e => (Throw e, st, [])
  end.
Proof.
  unfold render, bind, getCapabilityData, lift, modifyDom.
  destruct (template P p (capabilityData st)); [|reflexivity].
  destruct (k _) as [[r s] l]; reflexivity.
Qed.

(** [displayCapabilityStatement]: all seven panels are filled and the results
    shown, or a render method throws and the results stay as they were. *)
Lemma display_run (st : App) :
  exists ps : Panels,
    (displayCapabilityStatement P st
     = (Ok tt, mkApp (capabilityData st) (setResults true (setPanels (fun _ => ps) (dom st))),
        [EShowResults])
     /\ forall p, template P p (capabilityData st) = Ok (getPanel p ps))
    \/ (exists e, displayCapabilityStatement P st
                  = (Throw e, mkApp (capabilityData st) (setPanels (fun _ => ps) (dom st)), [])).
Proof.
  destruct st as [cd d].
  unfold displayCapabilityStatement, renderOverview, renderResources, renderInteractions,
    renderOperations, renderSearchParameters, renderSecurity, renderRawData.
  rewrite bind_render; cbn [capabilityData dom].
  destruct (template P overview_content cd) as [h1|e] eqn:T1;
    [|exists (panels d); right; exists e; destruct d; reflexivity].
  rewrite bind_render; cbn [capabilityData dom].
  destruct (template P resources_tab cd) as [h2|e] eqn:T2;
    [|eexists; right; exists e; destruct d; reflexivity].
  rewrite bind_render; cbn [capabilityData dom].
  destruct (template P interactions_tab cd) as [h3|e] eqn:T3;
    [|eexists; right; exists e; destruct d; reflexivity].
  rewrite bind_render; cbn [capabilityData dom].
  destruct (template P operations_tab cd) as [h4|e] eqn:T4;
    [|eexists; right; exists e; destruct d; reflexivity].
  rewrite bind_render; cbn [capabilityData dom].
  destruct (template P search_tab cd) as [h5|e] eqn:T5;
    [|eexists; right; exists e; destruct d; reflexivity].
  rewrite bind_render; cbn [capabilityData dom].
  destruct (template P security_tab cd) as [h6|e] eqn:T6;
    [|eexists; right; exists e; destruct d; reflexivity].
  rewrite bind_render; cbn [capabilityData dom].
  destruct (template P raw_tab cd) as [h7|e] eqn:T7;
    [|eexists; right; exists e; destruct d; reflexivity].
  exists (mkPanels h1 h2 h3 h4 h5 h6 h7). left. split.
  - destruct d as [u lv lb et ev rv [p1 p2 p3 p4 p5 p6 p7]]. reflexivity.
  - intros []; assumption.
Qed.

Lemma validated_run (url : string) (st st0 : App) :
  validated P url st = (resultOf (validated P url st0), st, eventsOf (validated P url st0)).
Proof. apply stateless_validated. Qed.

(** Input that is rejected before the outer [try]. *)
Lemma load_invalid (st : App) :
  let url := trim (fhir_url (dom st)) in
  url = EmptyString \/ isValidUrl P url = false ->
  exists m, (m = Msg.enterUrl \/ m = Msg.urlFormat)
            /\ loadCapabilityStatement P st
               = (Ok tt, mkApp (capabilityData st) (setError m true (dom st)), [EShowError m]).
Proof.
  intros url H. unfold loadCapabilityStatement.
  unfold bind at 1. unfold getDom. fold url.
  destruct (String.eqb url EmptyString) eqn:E.
  - exists Msg.enterUrl. split; [now left | reflexivity].
  - destruct H as [H|H]; [apply String.eqb_neq in E; contradiction|].
    rewrite H. exists Msg.urlFormat. split; [now right | reflexivity].
Qed.

(** Input that passes the two checks enters the outer [try]. *)
Lemma load_valid (st : App) :
  let url := trim (fhir_url (dom st)) in
  url <> EmptyString -> isValidUrl P url = true ->
  loadCapabilityStatement P st
  = tryFinally (tryCatch (loadBody P url) (loadCatch)) hideLoading
               (mkApp (capabilityData st) (prelude (dom st))).
Proof.
  intros url Hne Hok. unfold loadCapabilityStatement.
  unfold bind at 1. unfold getDom. fold url.
  apply String.eqb_neq in Hne. rewrite Hne, Hok. cbn [negb].
  unfold showLoading, hideError, hideResults, bind, modifyDom.
  cbn [capabilityData dom].
  destruct (tryFinally _ _ _) as [[r s] l]. reflexivity.
Qed.

(** An error raised before the assignment: nothing is stored, the message
    goes through [errorMessage]. *)
Lemma load_failure (st : App) (e : Error) :
  let url := trim (fhir_url (dom st)) in
  url <> EmptyString -> isValidUrl P url = true ->
  resultOf (validated P url st) = Throw e ->
  loadCapabilityStatement P st
  = (Ok tt,
     mkApp (capabilityData st)
           (setLoading false false (setError (errorMessage e) true (prelude (dom st)))),
     (eventsOf (validated P url st) ++ [EConsoleError e; EShowError (errorMessage e)])%list).
Proof.
  intros url Hne Hok Hv. rewrite load_valid by assumption. fold url.
  unfold tryFinally, tryCatch, loadBody. unfold bind at 1.
  rewrite (validated_run url _ st), Hv.
  unfold loadCatch, showError, hideLoading, bind, emit, modifyDom.
  cbn [capabilityData dom app]. rewrite ?app_nil_r. reflexivity.
Qed.

(** A validated document is stored, then rendered. *)
Lemma load_stored (st : App) (data : value) :
  let url := trim (fhir_url (dom st)) in
  url <> EmptyString -> isValidUrl P url = true ->
  resultOf (validated P url st) = Ok data ->
  exists ps : Panels,
    (loadCapabilityStatement P st
     = (Ok tt,
        mkApp (Some data)
              (setLoading false false
                 (setResults true (setPanels (fun _ => ps) (prelude (dom st))))),
        (eventsOf (validated P url st) ++ [EShowResults])%list)
     /\ forall p, template P p (Some data) = Ok (getPanel p ps))
    \/ (exists e,
          loadCapabilityStatement P st
          = (Ok tt,
             mkApp (Some data)
                   (setLoading false false
                      (setError (errorMessage e) true
                         (setPanels (fun _ => ps) (prelude (dom st))))),
             (eventsOf (validated P url st)
                ++ [EConsoleError e; EShowError (errorMessage e)])%list)).
Proof.
  intros url Hne Hok Hv.
  assert (R : loadCapabilityStatement P st
              = tryFinally
                  (tryCatch (fun s => let '(r, s', l) := displayCapabilityStatement P s in
                                      (r, s', (eventsOf (validated P url st) ++ l)%list))
                            loadCatch)
                  hideLoading (mkApp (Some data) (prelude (dom st)))).
  { rewrite load_valid by assumption. fold url.
    unfold tryFinally, tryCatch, loadBody. unfold bind at 1.
    rewrite (validated_run url _ st), Hv.
    unfold bind at 1. unfold setCapabilityData at 1. cbn [dom app].
    destruct (displayCapabilityStatement P _) as [[r s] l]. reflexivity. }
  rewrite R. clear R. unfold tryFinally, tryCatch.
  destruct (display_run (mkApp (Some data) (prelude (dom st)))) as [ps [[E T]|[e E]]];
    exists ps; [left; split; [|exact T] | right; exists e]; rewrite E;
    unfold loadCatch, showError, hideLoading, bind, emit, modifyDom;
    cbn [capabilityData dom app]; rewrite ?app_nil_r; reflexivity.
Qed.

End Load.

(** ** Events of a load *)

Lemma requests_app (l1 l2 : list event) :
  requests (l1 ++ l2) = (requests l1 ++ requests l2)%list.
Proof. apply flat_map_app. Qed.

Lemma outcomes_app (l1 l2 : list event) :
  outcomes (l1 ++ l2) = (outcomes l1 ++ outcomes l2)%list.
Proof. apply filter_app. Qed.

(** The fixed messages pass the outer [catch] unchanged. *)
Lemma errorMessage_notCapabilityStatement :
  errorMessage (newError Msg.notCapabilityStatement) = Msg.notCapabilityStatement.
Proof. vm_compute. reflexivity. Qed.

Lemma errorMessage_htmlPage : errorMessage (newError Msg.htmlPage) = Msg.htmlPage.
Proof. vm_compute. reflexivity. Qed.

Lemma errorMessage_invalidJson : errorMessage (newError Msg.invalidJson) = Msg.invalidJson.
Proof. vm_compute. reflexivity. Qed.

Lemma prefix_app (pre s : string) : String.prefix pre (pre ++ s) = true.
Proof.
  induction pre as [|c pre IH]; cbn.
  - destruct s; reflexivity.
  - destruct (ascii_dec c c) as [_|N]; [exact IH | contradiction].
Qed.

Lemma includes_prefix (t pat : string) :
  String.prefix pat t = true -> includes t pat = true.
Proof. intros H. destruct t; cbn [includes]; rewrite H; reflexivity. Qed.

Lemma includes_app (pre s : string) : includes (pre ++ s) pre = true.
Proof. apply includes_prefix, prefix_app. Qed.

(** The message of a failed proxy request is always rewritten to one of the
    two advisory texts. *)
Lemma errorMessage_proxy (rest : string) :
  let e := newError ("Proxy request failed" ++ rest) in
  errorMessage e
  = if includes (message e) "Failed to fetch" || includes (message e) "NetworkError"
    then Msg.networkAdvice else Msg.proxyAdvice.
Proof.
  intros e. unfold errorMessage.
  destruct (_ || _); [reflexivity|].
  unfold e, newError. cbn [message]. rewrite includes_app. reflexivity.
Qed.

Section LoadEvents.

Variable P : Platform.

Lemma validated_result (url : string) (st : App) :
  resultOf (validated P url st)
  = match resultOf (fetchData P url st) with
    | Ok data =>
        if isValidCapabilityStatement data then Ok data
        else Throw (newError Msg.notCapabilityStatement)
    | Throw e => Throw e
    end.
Proof.
  unfold validated, bind.
  destruct (fetchData P url st) as [[[d|e] s] l]; cbn [resultOf fst]; [|reflexivity].
  destruct (isValidCapabilityStatement d); reflexivity.
Qed.

Lemma validated_events (url : string) (st : App) :
  eventsOf (validated P url st) = eventsOf (fetchData P url st).
Proof.
  unfold validated, bind.
  destruct (fetchData P url st) as [[[d|e] s] l]; cbn [eventsOf snd]; [|reflexivity].
  destruct (isValidCapabilityStatement d); cbn; apply app_nil_r.
Qed.

Lemma validated_valid (url : string) (st : App) (data : value) :
  resultOf (validated P url st) = Ok data -> isValidCapabilityStatement data = true.
Proof.
  rewrite validated_result.
  destruct (resultOf (fetchData P url st)) as [d|e]; [|discriminate].
  destruct (isValidCapabilityStatement d) eqn:V; [|discriminate].
  intros [= <-]. exact V.
Qed.

Lemma fetchData_outcomes (url : string) (st : App) :
  outcomes (eventsOf (fetchData P url st)) = [].
Proof.
  rewrite fetchData_run.
  destruct (resultOf (directStage P url st)); reflexivity.
Qed.

Lemma validated_outcomes (url : string) (st : App) :
  outcomes (eventsOf (validated P url st)) = [].
Proof. rewrite validated_events. apply fetchData_outcomes. Qed.

Lemma validated_requests (url : string) (st : App) :
  requests (eventsOf (validated P url st))
  = directRequest url :: (if stage1Fails P url then [proxyRequest url] else []).
Proof. rewrite validated_events. apply fetchData_requests. Qed.

(** The requests of a load are those of its two stages. *)
Lemma load_requests (st : App) :
  let url := trim (fhir_url (dom st)) in
  url <> EmptyString -> isValidUrl P url = true ->
  requests (eventsOf (loadCapabilityStatement P st))
  = requests (eventsOf (validated P url st)).
Proof.
  intros url Hne Hok.
  destruct (resultOf (validated P url st)) as [d|e] eqn:V.
  - destruct (load_stored P st d Hne Hok V) as [ps [[E _]|[e E]]]; rewrite E;
      cbn [eventsOf snd]; rewrite requests_app; cbn; apply app_nil_r.
  - rewrite (load_failure P st e Hne Hok V).
    cbn [eventsOf snd]. rewrite requests_app. cbn. apply app_nil_r.
Qed.

(** A load leaves the URL field as it found it. *)
Lemma load_keeps_url (st : App) :
  fhir_url (dom (stateOf (loadCapabilityStatement P st))) = fhir_url (dom st).
Proof.
  destruct (String.eqb (trim (fhir_url (dom st))) EmptyString) eqn:E.
  - apply String.eqb_eq in E.
    destruct (load_invalid P st (or_introl E)) as [m [_ ->]]. reflexivity.
  - apply String.eqb_neq in E.
    destruct (isValidUrl P (trim (fhir_url (dom st)))) eqn:U.
    + destruct (resultOf (validated P (trim (fhir_url (dom st))) st)) as [d|e] eqn:V.
      * destruct (load_stored P st d E U V) as [ps [[-> _]|[e ->]]]; reflexivity.
      * rewrite (load_failure P st e E U V). reflexivity.
    + destruct (load_invalid P st (or_intror U)) as [m [_ ->]]. reflexivity.
Qed.


End LoadEvents.

(** ** The scenarios of the specification *)

(** The direct request answers 200 with the minimal document: it is stored
    and shown, and the proxy is not asked. *)
Example scenario_direct_success :
  let run := loadCapabilityStatement Scenario.directOk (Scenario.app Scenario.exampleUrl) in
  resultOf run = Ok tt
  /\ capabilityData (stateOf run) = Some Scenario.minimalDoc
  /\ eventsOf run = [EFetch (directRequest Scenario.exampleUrl); EShowResults].
Proof. vm_compute. repeat split. Qed.

(** The direct request is rejected and the proxy answers 200 with a
    Patient: the load fails on validation. *)
Example scenario_proxy_patient :
  let run := loadCapabilityStatement Scenario.proxyPatient (Scenario.app Scenario.exampleUrl) in
  resultOf run = Ok tt
  /\ capabilityData (stateOf run) = None
  /\ requests (eventsOf run)
     = [directRequest Scenario.exampleUrl; proxyRequest Scenario.exampleUrl]
  /\ outcomes (eventsOf run) = [EShowError Msg.notCapabilityStatement].
Proof. vm_compute. repeat split. Qed.

(** [not-a-url] is rejected without a request. *)
Example scenario_not_a_url :
  loadCapabilityStatement Scenario.directOk (Scenario.app "not-a-url")
  = (Ok tt, mkApp None (setError Msg.urlFormat true (Scenario.page "not-a-url")),
     [EShowError Msg.urlFormat]).
Proof. vm_compute. reflexivity. Qed.

(** A URL that already has a query is extended with [&], and the proxy is
    given the whole of it, percent-encoded. *)
Example proxiedUrl_with_query :
  proxiedUrl "https://example.org/metadata?x=1"
  = "https://api.allorigins.win/raw?url=https%3A%2F%2Fexample.org%2Fmetadata%3Fx%3D1%26_format%3Djson".
Proof. vm_compute. reflexivity. Qed.

(** ** Percent-encoding *)

Ltac each_byte c := destruct c as [[] [] [] [] [] [] [] []].

(** What [encodeURIComponent] returns holds unreserved characters and
    percent signs only (the digits of an escape are unreserved). *)
Lemma encodeURIComponent_safe (s : string) :
  forallb (fun c => isUnreserved c || (code c =? 37)%N)
          (list_ascii_of_string (encodeURIComponent s)) = true.
Proof.
  induction s as [|c r IH]; [reflexivity|].
  each_byte c; cbn; exact IH.
Qed.

Lemma plusToSpace_encoded (s : string) :
  UrlSearchParams.plusToSpace (encodeURIComponent s) = encodeURIComponent s.
Proof.
  induction s as [|c r IH]; [reflexivity|].
  each_byte c; cbn; rewrite IH; reflexivity.
Qed.

Lemma percentDecode_encoded (s : string) :
  UrlSearchParams.percentDecode (encodeURIComponent s) = s.
Proof.
  induction s as [|c r IH]; [reflexivity|].
  each_byte c; cbn; rewrite IH; reflexivity.
Qed.

Lemma splitOn_encoded (s : string) :
  UrlSearchParams.splitOn "&" (encodeURIComponent s) = [encodeURIComponent s].
Proof.
  induction s as [|c r IH]; [reflexivity|].
  each_byte c; cbn; rewrite IH; reflexivity.
Qed.

(** [URLSearchParams] alone undoes [encodeURIComponent]: what it returns
    for the query of a permalink is the URL the permalink was made for
    (read as UTF-8, which leaves a well-formed string as it is). *)
Lemma searchParams_read_back (s : string) :
  UrlSearchParams.get (UrlSearchParams.parse (permalinkQuery s)) "url"
  = Some (UrlSearchParams.utf8Decode None s).
Proof.
  unfold permalinkQuery, UrlSearchParams.parse. cbn.
  rewrite splitOn_encoded. cbn.
  unfold UrlSearchParams.decodeComponent.
  rewrite plusToSpace_encoded, percentDecode_encoded.
  reflexivity.
Qed.

(** * The claims *)

(** ** Fallback *)

(** C1: on input that passes the URL check, the requests of a load are the
    direct request and, exactly when stage 1 fails (the request is rejected,
    answered outside 2xx, or its body is not JSON), one request to the
    proxy; a 2xx answer with a JSON body leaves the direct request alone.
    The direct request goes to the text of the field with [_format=json]
    appended after [?] or [&].  The proxy request goes to the proxy endpoint
    with a [url] parameter that is percent-encoded: it consists of
    unreserved characters and [%] escapes only, percent-decoding gives back
    the URL of the direct request byte for byte, and a query parser reads
    that URL from it. *)
Theorem fallback_iff_stage1_fails (P : Platform) (st : App) :
  let url := trim (fhir_url (dom st)) in
  url <> EmptyString -> isValidUrl P url = true ->
  requests (eventsOf (loadCapabilityStatement P st))
  = directRequest url :: (if stage1Fails P url then [proxyRequest url] else [])
  /\ req_url (directRequest url)
     = url ++ (if includes url "?" then "&" else "?") ++ "_format=json"
  /\ (exists encoded,
        req_url (proxyRequest url) = "https://api.allorigins.win/raw?url=" ++ encoded
        /\ forallb (fun c => isUnreserved c || (code c =? 37)%N)
                   (list_ascii_of_string encoded) = true
        /\ UrlSearchParams.percentDecode encoded = req_url (directRequest url)
        /\ UrlSearchParams.get (UrlSearchParams.parse ("?url=" ++ encoded)) "url"
           = Some (UrlSearchParams.utf8Decode None (req_url (directRequest url))))
  /\ (stage1Fails P url = true <->
      (exists e, fetch P (directRequest url) = Rejected e)
      \/ (exists r, fetch P (directRequest url) = Fulfilled r /\ ok r = false)
      \/ (exists r e, fetch P (directRequest url) = Fulfilled r /\ ok r = true
                      /\ JSON_parse P (body r) = Throw e))
  /\ (forall r data,
        fetch P (directRequest url) = Fulfilled r -> ok r = true ->
        JSON_parse P (body r) = Ok data ->
        requests (eventsOf (loadCapabilityStatement P st)) = [directRequest url]).
Proof.
  intros url Hne Hok.
  assert (R : requests (eventsOf (loadCapabilityStatement P st))
              = directRequest url :: (if stage1Fails P url then [proxyRequest url] else [])).
  { rewrite load_requests by assumption. apply validated_requests. }
  split; [exact R|]. split; [reflexivity|]. split.
  { exists (encodeURIComponent (directUrl url)).
    split; [reflexivity|]. split; [apply encodeURIComponent_safe|].
    split; [apply percentDecode_encoded|].
    apply (searchParams_read_back (directUrl url)). }
  split.
  - unfold stage1Fails.
    destruct (fetch P (directRequest url)) as [e|r].
    + split; [intros _; left; eauto | reflexivity].
    + destruct (ok r) eqn:K; cbn [negb orb].
      * destruct (JSON_parse P (body r)) as [d|e] eqn:J; split; intros H.
        -- discriminate.
        -- destruct H as [[e H]|[[r' [H K']]|[r' [e [H [_ J']]]]]];
             try discriminate; injection H as <-; congruence.
        -- right; right. exists r, e. auto.
        -- reflexivity.
      * split; [intros _; right; left; eauto | reflexivity].
  - intros r data F K J. rewrite R. unfold stage1Fails. rewrite F, K, J. reflexivity.
Qed.

Lemma fallback_iff_stage1_fails_witness :
  requests (eventsOf (loadCapabilityStatement Scenario.proxyPatient
                        (Scenario.app Scenario.exampleUrl)))
  = [directRequest Scenario.exampleUrl; proxyRequest Scenario.exampleUrl]
  /\ map req_url [directRequest Scenario.exampleUrl; proxyRequest Scenario.exampleUrl]
     = ["https://example.org/metadata?_format=json";
        "https://api.allorigins.win/raw?url=https%3A%2F%2Fexample.org%2Fmetadata%3F_format%3Djson"].
Proof.
  destruct (fallback_iff_stage1_fails Scenario.proxyPatient
              (Scenario.app Scenario.exampleUrl)) as [R _].
  - vm_compute. discriminate.
  - vm_compute. reflexivity.
  - split; [exact R | vm_compute; reflexivity].
Defined.

(** ** Input validation *)

(** C4: input that is empty after trimming, or that [new URL] rejects, ends
    the load with one of the two input messages shown, no request issued
    and nothing else changed. *)
Theorem invalid_input_no_request (P : Platform) (st : App) :
  let url := trim (fhir_url (dom st)) in
  url = EmptyString \/ isValidUrl P url = false ->
  exists m,
    (m = Msg.enterUrl \/ m = Msg.urlFormat)
    /\ loadCapabilityStatement P st
       = (Ok tt, mkApp (capabilityData st) (setError m true (dom st)), [EShowError m])
    /\ requests (eventsOf (loadCapabilityStatement P st)) = [].
Proof.
  intros url H.
  destruct (load_invalid P st H) as [m [Hm E]].
  exists m. split; [exact Hm|]. split; [exact E|].
  rewrite E. reflexivity.
Qed.

Lemma invalid_input_no_request_witness :
  exists m,
    (m = Msg.enterUrl \/ m = Msg.urlFormat)
    /\ loadCapabilityStatement Scenario.directOk (Scenario.app "not-a-url")
       = (Ok tt, mkApp None (setError m true (Scenario.page "not-a-url")), [EShowError m])
    /\ requests (eventsOf (loadCapabilityStatement Scenario.directOk
                             (Scenario.app "not-a-url"))) = [].
Proof.
  apply (invalid_input_no_request Scenario.directOk (Scenario.app "not-a-url")).
  right. vm_compute. reflexivity.
Defined.

(** ** Termination with one outcome *)

(** C3: a load never throws: it returns, having presented exactly one
    outcome, an error message (then shown in the error section) or the
    results (then the stored document passes the validity check and the
    error section is hidden). *)
Theorem load_settles_with_one_outcome (P : Platform) (st : App) :
  exists st' evs,
    loadCapabilityStatement P st = (Ok tt, st', evs)
    /\ ((exists m, outcomes evs = [EShowError m]
                   /\ error_text (dom st') = m /\ error_visible (dom st') = true)
        \/ (outcomes evs = [EShowResults]
            /\ results_visible (dom st') = true /\ error_visible (dom st') = false
            /\ exists data, capabilityData st' = Some data
                            /\ isValidCapabilityStatement data = true)).
Proof.
  destruct (String.eqb (trim (fhir_url (dom st))) EmptyString) eqn:E.
  - apply String.eqb_eq in E.
    destruct (load_invalid P st (or_introl E)) as [m [_ R]].
    rewrite R. do 2 eexists. split; [reflexivity|]. left. exists m. auto.
  - apply String.eqb_neq in E.
    destruct (isValidUrl P (trim (fhir_url (dom st)))) eqn:U.
    + destruct (resultOf (validated P (trim (fhir_url (dom st))) st)) as [d|e] eqn:V.
      * pose proof (validated_valid _ _ _ _ V) as Hd.
        destruct (load_stored P st d E U V) as [ps [[R _]|[e R]]];
          rewrite R; do 2 eexists; (split; [reflexivity|]);
          rewrite outcomes_app, validated_outcomes.
        -- right. repeat split. exists d. auto.
        -- left. exists (errorMessage e). auto.
      * rewrite (load_failure P st e E U V). do 2 eexists. split; [reflexivity|].
        rewrite outcomes_app, validated_outcomes.
        left. exists (errorMessage e). auto.
    + destruct (load_invalid P st (or_intror U)) as [m [_ R]].
      rewrite R. do 2 eexists. split; [reflexivity|]. left. exists m. auto.
Qed.

(** ** Schema validation *)

(** C2, as the specification words it, fails on a document whose
    [fhirVersion] is the number 4: the specification calls it invalid, the
    load stores it and shows the results. *)
Lemma numeric_fhirVersion_is_accepted :
  JSON_parse Scenario.numericVersion Scenario.numericVersionBody
  = Ok Scenario.numericVersionDoc
  /\ Spec.validDocument Scenario.numericVersionDoc = false
  /\ capabilityData (stateOf (loadCapabilityStatement Scenario.numericVersion
                                (Scenario.app Scenario.exampleUrl)))
     = Some Scenario.numericVersionDoc
  /\ outcomes (eventsOf (loadCapabilityStatement Scenario.numericVersion
                           (Scenario.app Scenario.exampleUrl)))
     = [EShowResults].
Proof. vm_compute. repeat split. Qed.

(** C2, amended: once a body has been parsed, the load fails with the
    not-a-CapabilityStatement message exactly when the document fails the
    check of the code, which is: the document is truthy, its [resourceType]
    is the literal, and its [fhirVersion] is truthy (any value but
    [undefined], [null], [false], zero, NaN and the empty string).  Then
    nothing is stored; otherwise the document is stored. *)
Theorem schema_mismatch_iff_check_fails (P : Platform) (st : App) (data : value) :
  let url := trim (fhir_url (dom st)) in
  url <> EmptyString -> isValidUrl P url = true ->
  resultOf (fetchData P url st) = Ok data ->
  (isValidCapabilityStatement data = true <->
     truthy (Some data) = true
     /\ strictEqString (getProp data "resourceType") "CapabilityStatement" = true
     /\ truthy (getProp data "fhirVersion") = true)
  /\ (resultOf (validated P url st) = Throw (newError Msg.notCapabilityStatement)
      <-> isValidCapabilityStatement data = false)
  /\ (isValidCapabilityStatement data = false ->
      outcomes (eventsOf (loadCapabilityStatement P st))
      = [EShowError Msg.notCapabilityStatement]
      /\ capabilityData (stateOf (loadCapabilityStatement P st)) = capabilityData st)
  /\ (isValidCapabilityStatement data = true ->
      resultOf (validated P url st) = Ok data
      /\ capabilityData (stateOf (loadCapabilityStatement P st)) = Some data).
Proof.
  intros url Hne Hok F.
  assert (V : resultOf (validated P url st)
              = if isValidCapabilityStatement data then Ok data
                else Throw (newError Msg.notCapabilityStatement)).
  { rewrite validated_result, F. reflexivity. }
  split; [|split; [|split]].
  - unfold isValidCapabilityStatement. rewrite !andb_true_iff. tauto.
  - rewrite V. destruct (isValidCapabilityStatement data); split; intros H;
      try discriminate; reflexivity.
  - intros I. rewrite I in V.
    rewrite (load_failure P st _ Hne Hok V). cbn [eventsOf stateOf fst snd capabilityData].
    rewrite outcomes_app, validated_outcomes, errorMessage_notCapabilityStatement.
    split; reflexivity.
  - intros I. rewrite I in V. split; [exact V|].
    destruct (load_stored P st data Hne Hok V) as [ps [[-> _]|[e ->]]]; reflexivity.
Qed.

Lemma schema_mismatch_iff_check_fails_witness :
  outcomes (eventsOf (loadCapabilityStatement Scenario.proxyPatient
                        (Scenario.app Scenario.exampleUrl)))
  = [EShowError Msg.notCapabilityStatement]
  /\ capabilityData (stateOf (loadCapabilityStatement Scenario.proxyPatient
                                (Scenario.app Scenario.exampleUrl))) = None.
Proof.
  destruct (schema_mismatch_iff_check_fails Scenario.proxyPatient
              (Scenario.app Scenario.exampleUrl) Scenario.patientDoc)
    as [_ [_ [H _]]].
  - vm_compute. discriminate.
  - vm_compute. reflexivity.
  - vm_compute. reflexivity.
  - apply H. vm_compute. reflexivity.
Defined.

(** ** Classification of a body that is not JSON *)

Section ProxyFailures.

Variable P : Platform.

(** When stage 1 fails, the value of the inner [try]/[catch] is that of the
    proxy stage. *)
Lemma fetchData_via_proxy (url : string) (st : App) (e0 : Error) :
  stage1Fails P url = true ->
  resultOf (fetchData P url st) = resultOf (proxyStage P url e0 st).
Proof.
  intros F. apply (directStage_throws_iff P url st) in F. destruct F as [e D].
  rewrite fetchData_run, D, !proxyStage_run. reflexivity.
Qed.

Lemma load_events_prefix (st : App) :
  let url := trim (fhir_url (dom st)) in
  url <> EmptyString -> isValidUrl P url = true ->
  exists rest,
    eventsOf (loadCapabilityStatement P st) = (eventsOf (fetchData P url st) ++ rest)%list.
Proof.
  intros url Hne Hok. rewrite <- validated_events.
  destruct (resultOf (validated P url st)) as [d|e] eqn:V.
  - destruct (load_stored P st d Hne Hok V) as [ps [[-> _]|[e ->]]]; eexists; reflexivity.
  - rewrite (load_failure P st e Hne Hok V). eexists; reflexivity.
Qed.

End ProxyFailures.

(** C5, as stated, fails on a page that opens with the doctype in lower
    case: it contains a doctype declaration, yet the load reports invalid
    JSON. *)
Lemma lowercase_doctype_is_invalid_json :
  Spec.containsDoctypeDeclaration Scenario.doctypeBody = true
  /\ JSON_parse Scenario.proxyDoctype Scenario.doctypeBody = Throw Scenario.syntaxError
  /\ outcomes (eventsOf (loadCapabilityStatement Scenario.proxyDoctype
                           (Scenario.app Scenario.exampleUrl)))
     = [EShowError Msg.invalidJson].
Proof. vm_compute. repeat split. Qed.

(** C5, amended: when the proxy answers 2xx with a body that is not JSON,
    the load fails with the HTML-page message if the text contains [<html>]
    or [<!DOCTYPE], both matched exactly, letter case included, and with
    the invalid-JSON message if it contains neither. *)
Theorem proxy_body_not_json_classified (P : Platform) (st : App) (r : Response) (e : Error) :
  let url := trim (fhir_url (dom st)) in
  url <> EmptyString -> isValidUrl P url = true ->
  stage1Fails P url = true ->
  fetch P (proxyRequest url) = Fulfilled r -> ok r = true ->
  JSON_parse P (body r) = Throw e ->
  outcomes (eventsOf (loadCapabilityStatement P st))
  = [EShowError (if includes (body r) "<html>" || includes (body r) "<!DOCTYPE"
                 then Msg.htmlPage else Msg.invalidJson)]
  /\ capabilityData (stateOf (loadCapabilityStatement P st)) = capabilityData st.
Proof.
  intros url Hne Hok S1 F K J.
  assert (V : resultOf (validated P url st)
              = Throw (newError (if includes (body r) "<html>" || includes (body r) "<!DOCTYPE"
                                 then Msg.htmlPage else Msg.invalidJson))).
  { rewrite validated_result, (fetchData_via_proxy P url st URIError S1), proxyStage_run.
    cbn [resultOf fst]. rewrite F, K, J.
    destruct (_ || _); reflexivity. }
  rewrite (load_failure P st _ Hne Hok V). cbn [eventsOf stateOf fst snd capabilityData].
  rewrite outcomes_app, validated_outcomes.
  destruct (_ || _);
    [rewrite errorMessage_htmlPage | rewrite errorMessage_invalidJson];
    split; reflexivity.
Qed.

Lemma proxy_body_not_json_classified_witness :
  outcomes (eventsOf (loadCapabilityStatement Scenario.proxyDoctype
                        (Scenario.app Scenario.exampleUrl)))
  = [EShowError Msg.invalidJson].
Proof.
  destruct (proxy_body_not_json_classified Scenario.proxyDoctype
              (Scenario.app Scenario.exampleUrl)
              (mkResponse 200 "OK" Scenario.doctypeBody) Scenario.syntaxError)
    as [H _].
  - vm_compute. discriminate.
  - vm_compute. reflexivity.
  - vm_compute. reflexivity.
  - vm_compute. reflexivity.
  - vm_compute. reflexivity.
  - vm_compute. reflexivity.
  - exact H.
Defined.

(** ** HTTP status *)

(** C8, as stated, fails when both requests are answered outside 2xx
    (404 Not Found, then 500 Internal Server Error): the message shown is
    the fixed advice about the proxy, which names neither status. *)
Lemma http_status_is_not_shown :
  outcomes (eventsOf (loadCapabilityStatement Scenario.bothHttpErrors
                        (Scenario.app Scenario.exampleUrl)))
  = [EShowError Msg.proxyAdvice]
  /\ includes Msg.proxyAdvice "500" = false
  /\ includes Msg.proxyAdvice "Internal Server Error" = false
  /\ includes Msg.proxyAdvice "404" = false
  /\ includes Msg.proxyAdvice "Not Found" = false.
Proof. vm_compute. repeat split. Qed.

(** C8, amended: a status outside 2xx of the direct request is written to
    the console as [HTTP <status>: <text>] and followed by the request to
    the proxy; a status outside 2xx of the proxy request ends the load with
    the error [Proxy request failed: HTTP <status>: <text>] written to the
    console, while the message shown is one of the two fixed advisory
    texts (the network one if the error message contains [Failed to fetch]
    or [NetworkError], else the proxy one), and nothing is stored. *)
Theorem http_status_goes_to_console (P : Platform) (st : App) :
  let url := trim (fhir_url (dom st)) in
  url <> EmptyString -> isValidUrl P url = true ->
  (forall r,
      fetch P (directRequest url) = Fulfilled r -> ok r = false ->
      exists rest,
        eventsOf (loadCapabilityStatement P st)
        = EFetch (directRequest url)
            :: EConsoleLog (newError ("HTTP " ++ ofN (status r) ++ ": " ++ statusText r))
            :: EFetch (proxyRequest url) :: rest)
  /\ (forall r,
        stage1Fails P url = true ->
        fetch P (proxyRequest url) = Fulfilled r -> ok r = false ->
        let e := newError ("Proxy request failed: HTTP " ++ ofN (status r)
                            ++ ": " ++ statusText r) in
        let shown := if includes (message e) "Failed to fetch"
                        || includes (message e) "NetworkError"
                     then Msg.networkAdvice else Msg.proxyAdvice in
        eventsOf (loadCapabilityStatement P st)
        = (eventsOf (fetchData P url st) ++ [EConsoleError e; EShowError shown])%list
        /\ outcomes (eventsOf (loadCapabilityStatement P st)) = [EShowError shown]
        /\ capabilityData (stateOf (loadCapabilityStatement P st)) = capabilityData st).
Proof.
  intros url Hne Hok. split.
  - intros r F K.
    destruct (load_events_prefix P st Hne Hok) as [rest ->]. fold url.
    rewrite fetchData_run, directStage_run. cbn [resultOf fst]. rewrite F, K.
    exists rest. reflexivity.
  - intros r S1 F K e shown.
    assert (V : resultOf (validated P url st) = Throw e).
    { rewrite validated_result, (fetchData_via_proxy P url st URIError S1), proxyStage_run.
      cbn [resultOf fst]. rewrite F, K. reflexivity. }
    assert (M : errorMessage e = shown).
    { exact (errorMessage_proxy (": HTTP " ++ ofN (status r) ++ ": " ++ statusText r)). }
    rewrite (load_failure P st e Hne Hok V). cbn [eventsOf stateOf fst snd capabilityData].
    rewrite outcomes_app, validated_outcomes, validated_events, M.
    repeat split.
Qed.

Lemma http_status_goes_to_console_witness :
  outcomes (eventsOf (loadCapabilityStatement Scenario.bothHttpErrors
                        (Scenario.app Scenario.exampleUrl)))
  = [EShowError Msg.proxyAdvice]
  /\ consoleOf (eventsOf (loadCapabilityStatement Scenario.bothHttpErrors
                            (Scenario.app Scenario.exampleUrl)))
     = [newError "HTTP 404: Not Found";
        newError "Proxy request failed: HTTP 500: Internal Server Error"].
Proof.
  destruct (http_status_goes_to_console Scenario.bothHttpErrors
              (Scenario.app Scenario.exampleUrl)) as [_ H].
  - vm_compute. discriminate.
  - vm_compute. reflexivity.
  - destruct (H (mkResponse 500 "Internal Server Error" "")) as [E [O _]].
    + vm_compute. reflexivity.
    + vm_compute. reflexivity.
    + vm_compute. reflexivity.
    + split; [exact O|]. rewrite E. vm_compute. reflexivity.
Defined.

(** ** The stored document *)

Section Stored.

Variable P : Platform.



End Stored.

(** ** [JSON.parse] and the members of the text *)

Module JsonFacts.
Import Json.







End JsonFacts.





(** ** The URL of the direct request *)

Lemma code_inj (a b : ascii) : code a = code b -> a = b.
Proof.
  unfold code. intros H.
  rewrite <- (ascii_N_embedding a), <- (ascii_N_embedding b), H. reflexivity.
Qed.

Lemma includes_char (x c : ascii) (r : string) :
  includes (String c r) (String x EmptyString)
  = (code c =? code x)%N || includes r (String x EmptyString).
Proof.
  cbn [includes String.prefix].
  destruct (ascii_dec x c) as [->|N].
  - rewrite N.eqb_refl. destruct r; reflexivity.
  - destruct (N.eqb_spec (code c) (code x)) as [E|_]; [|reflexivity].
    apply code_inj in E. congruence.
Qed.

Lemma splitFragment_no_hash (url : string) :
  includes url "#" = false -> Spec.splitFragment url = (url, EmptyString).
Proof.
  induction url as [|c r IH]; [reflexivity|].
  rewrite includes_char. intros H. apply orb_false_iff in H. destruct H as [Hc Hr].
  cbn [Spec.splitFragment]. change (code "#"%char) with 35%N in Hc.
  rewrite Hc, (IH Hr). reflexivity.
Qed.

Lemma afterQuestionMark_includes (url : string) :
  includes url "?"
  = match Spec.afterQuestionMark url with Some _ => true | None => false end.
Proof.
  induction url as [|c r IH]; [reflexivity|].
  rewrite includes_char. cbn [Spec.afterQuestionMark].
  change (code "?"%char) with 63%N.
  destruct (code c =? 63)%N; [reflexivity | exact IH].
Qed.

(** On a URL without a fragment the code merges the parameter as the
    specification describes. *)
Lemma directUrl_merged_without_fragment (url : string) :
  includes url "#" = false -> directUrl url = Spec.mergedUrl url.
Proof.
  intros H. unfold directUrl, Spec.mergedUrl.
  rewrite (splitFragment_no_hash url H), afterQuestionMark_includes.
  destruct (Spec.afterQuestionMark url); reflexivity.
Qed.

(** C7 at [https://example.org/metadata#top]: the code appends
    [?_format=json] after the fragment, so the URL of the direct request
    has no query and the request carries no [_format] parameter; merged
    into the query, the parameter would stand before [#top]. *)
Theorem format_parameter_lands_in_fragment :
  req_url (directRequest Scenario.fragmentUrl)
  = "https://example.org/metadata#top?_format=json"
  /\ Spec.queryOf (req_url (directRequest Scenario.fragmentUrl)) = None
  /\ Spec.withoutFragment (req_url (directRequest Scenario.fragmentUrl))
     = "https://example.org/metadata"
  /\ Spec.mergedUrl Scenario.fragmentUrl
     = "https://example.org/metadata?_format=json#top"
  /\ Spec.queryOf (Spec.mergedUrl Scenario.fragmentUrl) = Some "_format=json"
  /\ req_url (proxyRequest Scenario.fragmentUrl)
     = proxyUrl ++ encodeURIComponent "https://example.org/metadata#top?_format=json".
Proof. vm_compute. repeat split. Qed.

(** ** The permalink *)

(** C9 at [https://example.org/metadata?_tag=a%2Fb]: the query that
    [generatePermalink] builds for it is read back by [URLSearchParams] as
    the URL itself, and [decodeURIComponent] then decodes it a second time,
    so the URL field receives [...?_tag=a/b]; at
    [https://example.org/metadata?q=100%] the second decoding throws out of
    the constructor. *)
Theorem permalink_is_decoded_twice (P : Platform) (page : Dom) :
  generatePermalink "https://viewer.example/index.html"
                    (mkApp None (setFhirUrl Scenario.escapedUrl page))
  = Some ("https://viewer.example/index.html" ++ permalinkQuery Scenario.escapedUrl)
  /\ UrlSearchParams.get (UrlSearchParams.parse (permalinkQuery Scenario.escapedUrl)) "url"
     = Some Scenario.escapedUrl
  /\ fhir_url (dom (stateOf (constructor P (permalinkQuery Scenario.escapedUrl) page)))
     = "https://example.org/metadata?_tag=a/b"
  /\ UrlSearchParams.get (UrlSearchParams.parse (permalinkQuery Scenario.percentUrl)) "url"
     = Some Scenario.percentUrl
  /\ resultOf (constructor P (permalinkQuery Scenario.percentUrl) page) = Throw URIError.
Proof.
  assert (G1 : UrlSearchParams.get (UrlSearchParams.parse (permalinkQuery Scenario.escapedUrl))
                 "url" = Some Scenario.escapedUrl) by (vm_compute; reflexivity).
  assert (G2 : UrlSearchParams.get (UrlSearchParams.parse (permalinkQuery Scenario.percentUrl))
                 "url" = Some Scenario.percentUrl) by (vm_compute; reflexivity).
  assert (D1 : decodeURIComponent Scenario.escapedUrl
               = Ok "https://example.org/metadata?_tag=a/b") by (vm_compute; reflexivity).
  assert (D2 : decodeURIComponent Scenario.percentUrl = Throw URIError)
    by (vm_compute; reflexivity).
  split; [|split; [exact G1|split; [|split; [exact G2|]]]].
  - destruct page. vm_compute. reflexivity.
  - unfold constructor, checkUrlParameters. rewrite G1.
    change (String.eqb Scenario.escapedUrl EmptyString) with false. cbv iota.
    rewrite D1.
    unfold bind at 1. unfold setCapabilityData at 1.
    unfold bind at 1. unfold lift at 1.
    unfold bind at 1. unfold modifyDom at 1. cbn [capabilityData dom].
    destruct (loadCapabilityStatement P _) as [[r s] l] eqn:L.
    cbn [stateOf fst snd].
    change s with (stateOf (r, s, l)). rewrite <- L, load_keeps_url. reflexivity.
  - unfold constructor, checkUrlParameters. rewrite G2.
    change (String.eqb Scenario.percentUrl EmptyString) with false. cbv iota.
    rewrite D2. reflexivity.
Qed.

(** ** The stored document over the life of the page *)

Section Invariant.

Variable P : Platform.






End Invariant.





(** * Further properties of the loader *)

(** ** What a load leaves on the page *)

(** X1: a load that passed the input checks ends with the loading section
    hidden and the load button enabled, whether it stored a document,
    failed, or failed while rendering ([finally]); a load rejected at the
    input checks does not touch either. *)
Theorem loading_indicator_released (P : Platform) (st : App) :
  let url := trim (fhir_url (dom st)) in
  (url <> EmptyString -> isValidUrl P url = true ->
   loading_visible (dom (stateOf (loadCapabilityStatement P st))) = false
   /\ load_button_disabled (dom (stateOf (loadCapabilityStatement P st))) = false)
  /\ (url = EmptyString \/ isValidUrl P url = false ->
      loading_visible (dom (stateOf (loadCapabilityStatement P st)))
      = loading_visible (dom st)
      /\ load_button_disabled (dom (stateOf (loadCapabilityStatement P st)))
         = load_button_disabled (dom st)).
Proof.
  intros url. split.
  - intros Hne Hok.
    destruct (resultOf (validated P url st)) as [d|e] eqn:V.
    + destruct (load_stored P st d Hne Hok V) as [ps [[-> _]|[e ->]]];
        split; reflexivity.
    + rewrite (load_failure P st e Hne Hok V). split; reflexivity.
  - intros H. destruct (load_invalid P st H) as [m [_ ->]]. split; reflexivity.
Qed.

Lemma loading_indicator_released_witness :
  loading_visible (dom (stateOf (loadCapabilityStatement Scenario.bothHttpErrors
                                   (Scenario.app Scenario.exampleUrl)))) = false
  /\ load_button_disabled (dom (stateOf (loadCapabilityStatement Scenario.bothHttpErrors
                                           (Scenario.app Scenario.exampleUrl)))) = false.
Proof.
  destruct (loading_indicator_released Scenario.bothHttpErrors
              (Scenario.app Scenario.exampleUrl)) as [H _].
  apply H.
  - vm_compute. discriminate.
  - vm_compute. reflexivity.
Defined.



(** ** Requests *)

(** X3: no load issues more than two requests; what it issues is nothing,
    or the direct request alone, or the direct request followed by the
    proxy request, and every request is a GET. *)
Theorem at_most_two_requests (P : Platform) (st : App) :
  let url := trim (fhir_url (dom st)) in
  let sent := requests (eventsOf (loadCapabilityStatement P st)) in
  (sent = [] \/ sent = [directRequest url]
   \/ sent = [directRequest url; proxyRequest url])
  /\ (length sent <= 2)%nat
  /\ (forall r, In r sent -> req_method r = "GET").
Proof.
  intros url sent.
  assert (H : sent = [] \/ sent = [directRequest url]
              \/ sent = [directRequest url; proxyRequest url]).
  { unfold sent.
    destruct (String.eqb url EmptyString) eqn:E.
    - apply String.eqb_eq in E.
      destruct (load_invalid P st (or_introl E)) as [m [_ ->]]. left. reflexivity.
    - apply String.eqb_neq in E.
      destruct (isValidUrl P url) eqn:U.
      + rewrite (load_requests P st E U), validated_requests. fold url.
        destruct (stage1Fails P url); auto.
      + destruct (load_invalid P st (or_intror U)) as [m [_ ->]]. left. reflexivity. }
  split; [exact H|].
  destruct H as [H | [H | H]]; rewrite H; (split; [cbn; lia|]);
    intros r Hr; cbn in Hr; intuition (subst; reflexivity).
Qed.

(** X4: when both requests are rejected, the rejection of the direct
    request only reaches the console; the load ends with the rejection of
    the proxy request, shown through the advisory rewriting, which gives
    the network advice when its message contains [Failed to fetch] or
    [NetworkError]; nothing is stored. *)
Theorem both_requests_rejected (P : Platform) (st : App) (e1 e2 : Error) :
  let url := trim (fhir_url (dom st)) in
  url <> EmptyString -> isValidUrl P url = true ->
  fetch P (directRequest url) = Rejected e1 ->
  fetch P (proxyRequest url) = Rejected e2 ->
  eventsOf (loadCapabilityStatement P st)
  = [EFetch (directRequest url); EConsoleLog e1; EFetch (proxyRequest url);
     EConsoleError e2; EShowError (errorMessage e2)]
  /\ capabilityData (stateOf (loadCapabilityStatement P st)) = capabilityData st
  /\ (includes (message e2) "Failed to fetch" || includes (message e2) "NetworkError" = true ->
      errorMessage e2 = Msg.networkAdvice).
Proof.
  intros url Hne Hok F1 F2.
  assert (R : fetchData P url st
              = (Throw e2, st,
                 [EFetch (directRequest url); EConsoleLog e1; EFetch (proxyRequest url)])).
  { rewrite fetchData_run, directStage_run. cbn [resultOf fst]. rewrite F1.
    rewrite proxyStage_run. cbn [resultOf fst]. rewrite F2. reflexivity. }
  assert (V : resultOf (validated P url st) = Throw e2).
  { rewrite validated_result, R. reflexivity. }
  assert (Ev : eventsOf (validated P url st)
               = [EFetch (directRequest url); EConsoleLog e1; EFetch (proxyRequest url)]).
  { rewrite validated_events, R. reflexivity. }
  rewrite (load_failure P st e2 Hne Hok V). cbn [eventsOf stateOf fst snd capabilityData].
  fold url. rewrite Ev.
  repeat split. intros H. unfold errorMessage. rewrite H. reflexivity.
Qed.

Lemma both_requests_rejected_witness :
  outcomes (eventsOf (loadCapabilityStatement
                        (Scenario.scripted (Rejected Scenario.failedToFetch)
                                           (Rejected Scenario.failedToFetch) Scenario.table)
                        (Scenario.app Scenario.exampleUrl)))
  = [EShowError Msg.networkAdvice].
Proof.
  destruct (both_requests_rejected
              (Scenario.scripted (Rejected Scenario.failedToFetch)
                                 (Rejected Scenario.failedToFetch) Scenario.table)
              (Scenario.app Scenario.exampleUrl)
              Scenario.failedToFetch Scenario.failedToFetch) as [E [_ M]].
  - vm_compute. discriminate.
  - vm_compute. reflexivity.
  - vm_compute. reflexivity.
  - vm_compute. reflexivity.
  - rewrite E, M; [reflexivity | vm_compute; reflexivity].
Defined.

(** ** The validity check *)

(** X5: only an object passes [isValidCapabilityStatement]: [null], a
    boolean, a number, a string and an array are rejected whatever they
    hold, and an object passes exactly when its own [resourceType] is the
    string [CapabilityStatement] and its own [fhirVersion] is truthy. *)
Theorem only_objects_are_valid (data : value) :
  isValidCapabilityStatement data = true <->
  exists fields,
    data = VObject fields
    /\ lookup fields "resourceType" = Some (VString "CapabilityStatement")
    /\ truthy (lookup fields "fhirVersion") = true.
Proof.
  unfold isValidCapabilityStatement. split.
  - intros H. apply andb_true_iff in H. destruct H as [H V].
    apply andb_true_iff in H. destruct H as [_ R].
    destruct data as [| b | x | s | items | fields]; try discriminate R.
    cbn [getProp] in R, V. exists fields. split; [reflexivity|]. split; [|exact V].
    unfold strictEqString in R.
    destruct (lookup fields "resourceType") as [[| b | x | s | items | fs]|];
      try discriminate R.
    apply String.eqb_eq in R. subst s. reflexivity.
  - intros [fields [-> [R V]]]. cbn [getProp truthy]. rewrite R, V. reflexivity.
Qed.

(** ** Permalinks *)

Lemma decodeTokens_literal (s : string) :
  includes s "%" = false ->
  scanEscapes s = Ok (map Lit (list_ascii_of_string s))
  /\ decodeTokens None (map Lit (list_ascii_of_string s)) = Ok s.
Proof.
  induction s as [|c s IH]; [split; reflexivity|].
  rewrite includes_char. intros H. apply orb_false_iff in H. destruct H as [Hc Hs].
  change (code "%"%char) with 37%N in Hc.
  destruct (IH Hs) as [S D]. split.
  - cbn [scanEscapes list_ascii_of_string map]. rewrite Hc, S. reflexivity.
  - cbn [decodeTokens list_ascii_of_string map]. rewrite D. reflexivity.
Qed.

(** A string without a percent sign is its own decoding. *)
Lemma decodeURIComponent_plain (s : string) :
  includes s "%" = false -> decodeURIComponent s = Ok s.
Proof.
  intros H. unfold decodeURIComponent.
  destruct (decodeTokens_literal s H) as [-> D]. exact D.
Qed.

(** X6: for a URL without a percent sign (well-formed UTF-8, not empty),
    opening the page on the permalink that [generatePermalink] makes for
    it runs exactly the load that a fresh viewer runs with that URL in the
    field, and leaves the URL in the field. *)
Theorem permalink_round_trip_without_percent
        (P : Platform) (base : string) (st : App) (page : Dom) :
  let url := trim (fhir_url (dom st)) in
  url <> EmptyString ->
  includes url "%" = false ->
  UrlSearchParams.utf8Decode None url = url ->
  generatePermalink base st = Some (base ++ permalinkQuery url)
  /\ constructor P (permalinkQuery url) page
     = loadCapabilityStatement P (mkApp None (setFhirUrl url page))
  /\ fhir_url (dom (stateOf (constructor P (permalinkQuery url) page))) = url.
Proof.
  intros url Hne Hp Hu.
  assert (C : constructor P (permalinkQuery url) page
              = loadCapabilityStatement P (mkApp None (setFhirUrl url page))).
  { unfold constructor, checkUrlParameters.
    rewrite searchParams_read_back, Hu.
    apply String.eqb_neq in Hne. rewrite Hne.
    rewrite (decodeURIComponent_plain url Hp).
    unfold bind at 1. unfold setCapabilityData at 1.
    unfold bind at 1. unfold lift at 1.
    unfold bind at 1. unfold modifyDom at 1. cbn [capabilityData dom app].
    destruct (loadCapabilityStatement P _) as [[r s] l]. reflexivity. }
  split; [|split; [exact C|]].
  - unfold generatePermalink. fold url.
    apply String.eqb_neq in Hne. rewrite Hne. reflexivity.
  - rewrite C, load_keeps_url. reflexivity.
Qed.

Lemma permalink_round_trip_without_percent_witness :
  constructor Scenario.directOk (permalinkQuery Scenario.exampleUrl) (Scenario.page "")
  = loadCapabilityStatement Scenario.directOk (Scenario.app Scenario.exampleUrl).
Proof.
  destruct (permalink_round_trip_without_percent Scenario.directOk "https://viewer.example/"
              (Scenario.app Scenario.exampleUrl) (Scenario.page "")) as [_ [C _]].
  - vm_compute. discriminate.
  - vm_compute. reflexivity.
  - vm_compute. reflexivity.
  - exact C.
Defined.

(** ** The demo loads *)

(** X7: the demo button loads the sandbox server whatever the URL field
    held: if the URL parser accepts the sandbox URL, the field holds it
    afterwards and the first request is the direct request for
    [.../fhir/metadata?_format=json]. *)
Theorem loadDemoData_requests_sandbox (P : Platform) (st : App) :
  isValidUrl P sandboxUrl = true ->
  fhir_url (dom (stateOf (loadDemoData P st))) = sandboxUrl
  /\ exists rest,
       requests (eventsOf (loadDemoData P st)) = directRequest sandboxUrl :: rest
       /\ req_url (directRequest sandboxUrl)
          = "https://fhirr4sandbox.webch.art/webchart.cgi/fhir/metadata?_format=json".
Proof.
  intros Hok.
  assert (T : trim sandboxUrl = sandboxUrl) by (vm_compute; reflexivity).
  assert (D : loadDemoData P st
              = loadCapabilityStatement P (mkApp (capabilityData st)
                                                 (setFhirUrl sandboxUrl (dom st)))).
  { unfold loadDemoData. unfold bind at 1. unfold modifyDom at 1. cbn [app].
    destruct (loadCapabilityStatement P _) as [[r s] l]. reflexivity. }
  rewrite D. split; [apply load_keeps_url|].
  assert (Hne : trim (fhir_url (dom (mkApp (capabilityData st)
                                           (setFhirUrl sandboxUrl (dom st))))) <> EmptyString).
  { cbn [dom setFhirUrl fhir_url]. rewrite T. discriminate. }
  assert (Hv : isValidUrl P (trim (fhir_url (dom (mkApp (capabilityData st)
                                           (setFhirUrl sandboxUrl (dom st)))))) = true).
  { cbn [dom setFhirUrl fhir_url]. rewrite T. exact Hok. }
  rewrite (load_requests P _ Hne Hv), validated_requests.
  cbn [dom setFhirUrl fhir_url]. rewrite T.
  eexists. split; [reflexivity|]. vm_compute. reflexivity.
Qed.

Lemma loadDemoData_requests_sandbox_witness :
  fhir_url (dom (stateOf (loadDemoData Scenario.directOk (Scenario.app "not-a-url"))))
  = sandboxUrl.
Proof.
  destruct (loadDemoData_requests_sandbox Scenario.directOk (Scenario.app "not-a-url"))
    as [H _].
  - vm_compute. reflexivity.
  - exact H.
Defined.

(** X8: [loadStaticDemoData] issues no request, hides the error and loading
    sections, and stores the built-in document, which passes the validity
    check; the results are shown unless a render method throws, and then
    the exception leaves the function, nothing catching it. *)
Theorem loadStaticDemoData_is_offline (P : Platform) (st : App) :
  let run := loadStaticDemoData P st in
  requests (eventsOf run) = []
  /\ capabilityData (stateOf run) = Some demoData
  /\ isValidCapabilityStatement demoData = true
  /\ error_visible (dom (stateOf run)) = false
  /\ loading_visible (dom (stateOf run)) = false
  /\ ((resultOf run = Ok tt /\ eventsOf run = [EShowResults]
       /\ results_visible (dom (stateOf run)) = true)
      \/ (exists e, resultOf run = Throw e /\ eventsOf run = []
                    /\ results_visible (dom (stateOf run)) = results_visible (dom st))).
Proof.
  cbv zeta.
  assert (D : loadStaticDemoData P st
              = displayCapabilityStatement P
                  (mkApp (Some demoData)
                         (setLoading false false (setError (error_text (dom st)) false (dom st))))).
  { unfold loadStaticDemoData, hideError, hideLoading.
    unfold bind at 1. unfold modifyDom at 1.
    unfold bind at 1. unfold modifyDom at 1.
    unfold bind at 1. unfold setCapabilityData at 1. cbn [capabilityData dom app].
    destruct (displayCapabilityStatement P _) as [[r s] l]. reflexivity. }
  rewrite D.
  destruct (display_run P (mkApp (Some demoData)
              (setLoading false false (setError (error_text (dom st)) false (dom st)))))
    as [ps [[-> _]|[e ->]]]; cbn [eventsOf stateOf resultOf fst snd capabilityData dom].
  - repeat split; try (vm_compute; reflexivity). left. repeat split.
  - repeat split; try (vm_compute; reflexivity). right. exists e. repeat split.
Qed.

(** * The tab strip *)

Module TabsFacts.
Import Tabs.

Lemma hasClass_remove_same (c : string) (e : Element) :
  hasClass c (classList_remove c e) = false.
Proof.
  unfold hasClass, classList_remove. cbn [el_classes].
  induction (el_classes e) as [|x l IH]; [reflexivity|].
  cbn [filter]. destruct (String.eqb x c) eqn:E; cbn [negb]; [exact IH|].
  cbn [existsb]. rewrite String.eqb_sym, E. exact IH.
Qed.

Lemma hasClass_remove_other (c d : string) (e : Element) :
  c <> d -> hasClass c (classList_remove d e) = hasClass c e.
Proof.
  intros N. unfold hasClass, classList_remove. cbn [el_classes].
  induction (el_classes e) as [|x l IH]; [reflexivity|].
  cbn [filter existsb]. destruct (String.eqb x d) eqn:E; cbn [negb].
  - apply String.eqb_eq in E. subst x.
    apply String.eqb_neq in N. rewrite N. exact IH.
  - cbn [existsb]. rewrite IH. reflexivity.
Qed.

Lemma hasClass_add_same (c : string) (e : Element) :
  hasClass c (classList_add c e) = true.
Proof.
  unfold classList_add. destruct (hasClass c e) eqn:H; [exact H|].
  unfold hasClass. cbn [el_classes]. rewrite existsb_app. cbn.
  rewrite String.eqb_refl. apply orb_true_r.
Qed.

Lemma hasClass_add_other (c d : string) (e : Element) :
  c <> d -> hasClass c (classList_add d e) = hasClass c e.
Proof.
  intros N. unfold classList_add. destruct (hasClass d e); [reflexivity|].
  unfold hasClass. cbn [el_classes]. rewrite existsb_app. cbn.
  apply String.eqb_neq in N. rewrite N. rewrite !orb_false_r. reflexivity.
Qed.

Lemma nth_error_updateAt (i k : nat) (f : Element -> Element) (doc : Document) :
  nth_error (updateAt i f doc) k
  = option_map (fun e => if Nat.eqb k i then f e else e) (nth_error doc k).
Proof.
  revert i k. induction doc as [|e rest IH]; intros i k.
  - destruct i, k; reflexivity.
  - destruct i as [|i], k as [|k]; cbn; try reflexivity.
    + destruct (nth_error rest k); reflexivity.
    + apply IH.
Qed.

Lemma length_updateAt (i : nat) (f : Element -> Element) (doc : Document) :
  length (updateAt i f doc) = length doc.
Proof.
  revert i. induction doc as [|e rest IH]; intros [|i]; cbn; try reflexivity.
  rewrite IH. reflexivity.
Qed.

Lemma findIndex_ext (p q : Element -> bool) (doc doc' : Document) :
  length doc = length doc' ->
  (forall k e e', nth_error doc k = Some e -> nth_error doc' k = Some e' -> p e = q e') ->
  findIndex p doc = findIndex q doc'.
Proof.
  revert doc'. induction doc as [|e rest IH]; intros [|e' rest'] L H;
    try discriminate; [reflexivity|].
  cbn [findIndex]. rewrite (H O e e' eq_refl eq_refl).
  rewrite (IH rest'); [reflexivity | now injection L |].
  intros k a a' Ha Ha'. exact (H (S k) a a' Ha Ha').
Qed.

Lemma findIndex_None (p : Element -> bool) (doc : Document) :
  findIndex p doc = None <-> forall e, In e doc -> p e = false.
Proof.
  induction doc as [|e rest IH]; cbn [findIndex In].
  - split; [intros _ e [] | reflexivity].
  - destruct (p e) eqn:E.
    + split; [discriminate|]. intros H. rewrite (H e (or_introl eq_refl)) in E. discriminate.
    + destruct (findIndex p rest) as [i|].
      * split; [discriminate|]. intros H.
        assert (X : Some i = None)
          by (apply IH; intros a Ha; apply H; right; exact Ha).
        discriminate X.
      * split; [|reflexivity]. intros _ a [<-|Ha]; [exact E|].
        apply (proj1 IH eq_refl a Ha).
Qed.

Lemma active_neq (c : string) :
  c = "tab-button" \/ c = "tab-panel" -> c <> "active".
Proof. intros [->| ->]; discriminate. Qed.

Lemma keeps_attributes (e : Element) (c : string) :
  el_id (classList_remove c e) = el_id e
  /\ el_data_tab (classList_remove c e) = el_data_tab e
  /\ el_id (classList_add c e) = el_id e
  /\ el_data_tab (classList_add c e) = el_data_tab e.
Proof.
  unfold classList_add. destruct (hasClass c e); repeat split.
Qed.

(** What [elementAfter] does to an element. *)
Lemma elementAfter_spec (i j k : nat) (e : Element) :
  el_id (elementAfter i j k e) = el_id e
  /\ el_data_tab (elementAfter i j k e) = el_data_tab e
  /\ (forall c, c <> "active" -> hasClass c (elementAfter i j k e) = hasClass c e)
  /\ hasClass "active" (elementAfter i j k e)
     = Nat.eqb k j
       || negb (hasClass "tab-panel" e)
          && (Nat.eqb k i || negb (hasClass "tab-button" e) && hasClass "active" e).
Proof.
  unfold elementAfter.
  set (e1 := if hasClass "tab-button" e then classList_remove "active" e else e).
  set (e2 := if Nat.eqb k i then classList_add "active" e1 else e1).
  set (e3 := if hasClass "tab-panel" e2 then classList_remove "active" e2 else e2).
  assert (C1 : forall c, c <> "active" -> hasClass c e1 = hasClass c e).
  { intros c N. unfold e1. destruct (hasClass "tab-button" e); [|reflexivity].
    apply hasClass_remove_other, N. }
  assert (C2 : forall c, c <> "active" -> hasClass c e2 = hasClass c e).
  { intros c N. unfold e2. destruct (Nat.eqb k i); [|apply C1, N].
    rewrite hasClass_add_other by exact N. apply C1, N. }
  assert (C3 : forall c, c <> "active" -> hasClass c e3 = hasClass c e).
  { intros c N. unfold e3. destruct (hasClass "tab-panel" e2); [|apply C2, N].
    rewrite hasClass_remove_other by exact N. apply C2, N. }
  assert (A1 : hasClass "active" e1 = negb (hasClass "tab-button" e) && hasClass "active" e).
  { unfold e1. destruct (hasClass "tab-button" e); [apply hasClass_remove_same | reflexivity]. }
  assert (A2 : hasClass "active" e2
               = Nat.eqb k i || negb (hasClass "tab-button" e) && hasClass "active" e).
  { unfold e2. destruct (Nat.eqb k i); [apply hasClass_add_same | exact A1]. }
  assert (A3 : hasClass "active" e3
               = negb (hasClass "tab-panel" e)
                 && (Nat.eqb k i || negb (hasClass "tab-button" e) && hasClass "active" e)).
  { unfold e3. rewrite (C2 "tab-panel") by discriminate.
    destruct (hasClass "tab-panel" e); [apply hasClass_remove_same | exact A2]. }
  assert (I : el_id e3 = el_id e /\ el_data_tab e3 = el_data_tab e).
  { unfold e3, e2, e1.
    destruct (hasClass "tab-panel" _), (Nat.eqb k i), (hasClass "tab-button" e);
      repeat match goal with
             | |- context [el_id (classList_remove ?c ?x)] =>
                 rewrite (proj1 (keeps_attributes x c))
             | |- context [el_data_tab (classList_remove ?c ?x)] =>
                 rewrite (proj1 (proj2 (keeps_attributes x c)))
             | |- context [el_id (classList_add ?c ?x)] =>
                 rewrite (proj1 (proj2 (proj2 (keeps_attributes x c))))
             | |- context [el_data_tab (classList_add ?c ?x)] =>
                 rewrite (proj2 (proj2 (proj2 (keeps_attributes x c))))
             end; split; reflexivity. }
  destruct I as [I1 I2].
  destruct (Nat.eqb k j).
  - rewrite (proj1 (proj2 (proj2 (keeps_attributes e3 "active")))),
            (proj2 (proj2 (proj2 (keeps_attributes e3 "active")))).
    repeat split; try assumption.
    + intros c N. rewrite hasClass_add_other by exact N. apply C3, N.
    + apply hasClass_add_same.
  - repeat split; try assumption.
Qed.

Section SwitchTabFacts.

Variable otherSelector : string -> Document -> result (option nat).

Lemma deactivateAll_findIndex_dataTab (cls v : string) (doc : Document) :
  findIndex (dataTabIs v) (deactivateAll cls doc) = findIndex (dataTabIs v) doc.
Proof.
  unfold deactivateAll. induction doc as [|e rest IH]; [reflexivity|].
  cbn [map findIndex]. rewrite IH.
  replace (dataTabIs v (if hasClass cls e then classList_remove "active" e else e))
    with (dataTabIs v e); [reflexivity|].
  destruct (hasClass cls e); reflexivity.
Qed.

Lemma deactivateAll_findIndex_id (cls v : string) (doc : Document) :
  findIndex (idIs v) (deactivateAll cls doc) = findIndex (idIs v) doc.
Proof.
  unfold deactivateAll. induction doc as [|e rest IH]; [reflexivity|].
  cbn [map findIndex]. rewrite IH.
  replace (idIs v (if hasClass cls e then classList_remove "active" e else e))
    with (idIs v e); [reflexivity|].
  destruct (hasClass cls e); reflexivity.
Qed.

Lemma updateAt_findIndex_id (i : nat) (v : string) (doc : Document) :
  findIndex (idIs v) (updateAt i (classList_add "active") doc) = findIndex (idIs v) doc.
Proof.
  revert i. induction doc as [|e rest IH]; intros [|i]; cbn [updateAt findIndex];
    try reflexivity.
  - replace (idIs v (classList_add "active" e)) with (idIs v e); [reflexivity|].
    unfold idIs. rewrite (proj1 (proj2 (proj2 (keeps_attributes e "active")))). reflexivity.
  - rewrite IH. reflexivity.
Qed.

(** A switch to a tab that has its button and its panel. *)
Lemma switchTab_run (name : string) (doc : Document) (i j : nat) :
  plainName name = true ->
  findIndex (dataTabIs name) doc = Some i ->
  getElementById (name ++ "-tab") doc = Some j ->
  exists doc',
    switchTab otherSelector (Some name) doc = (Ok tt, doc')
    /\ length doc' = length doc
    /\ forall k, nth_error doc' k = option_map (elementAfter i j k) (nth_error doc k).
Proof.
  intros Hp Hi Hj. unfold switchTab, querySelectorDataTab. cbn [interpolate].
  rewrite Hp, deactivateAll_findIndex_dataTab, Hi.
  unfold getElementById in *.
  rewrite deactivateAll_findIndex_id, updateAt_findIndex_id, deactivateAll_findIndex_id, Hj.
  eexists. split; [reflexivity|]. split.
  - unfold deactivateAll.
    rewrite length_updateAt, length_map, length_updateAt, length_map. reflexivity.
  - intros k. rewrite nth_error_updateAt. unfold deactivateAll.
    rewrite nth_error_map, nth_error_updateAt, nth_error_map.
    destruct (nth_error doc k) as [e|]; reflexivity.
Qed.

Lemma deactivateAll_inactive (cls : string) (doc : Document) (e' : Element) :
  cls <> "active" ->
  In e' (deactivateAll cls doc) -> hasClass cls e' = true -> hasClass "active" e' = false.
Proof.
  intros N H C. unfold deactivateAll in H. apply in_map_iff in H.
  destruct H as [e [<- _]].
  destruct (hasClass cls e) eqn:B; [apply hasClass_remove_same|].
  rewrite B in C. discriminate.
Qed.

End SwitchTabFacts.

End TabsFacts.

(** X9: a switch to a tab that has a button (the first element with that
    [data-tab], not itself a panel) and a panel (the first element with id
    [<tab>-tab], not itself a button) succeeds; afterwards a tab button is
    active exactly if it is that button and a tab panel exactly if it is
    that panel, and nothing else about any element has changed: ids,
    [data-tab] values, the other classes, and the [active] class of
    elements that are neither button nor panel. *)
Theorem switchTab_selects_tab_and_panel
        (other : string -> Tabs.Document -> result (option nat))
        (name : string) (doc : Tabs.Document) (i j : nat) (b p : Tabs.Element) :
  Tabs.plainName name = true ->
  Tabs.findIndex (Tabs.dataTabIs name) doc = Some i ->
  nth_error doc i = Some b -> Tabs.hasClass "tab-panel" b = false ->
  Tabs.getElementById (name ++ "-tab") doc = Some j ->
  nth_error doc j = Some p -> Tabs.hasClass "tab-button" p = false ->
  exists doc',
    Tabs.switchTab other (Some name) doc = (Ok tt, doc')
    /\ length doc' = length doc
    /\ forall k e,
         nth_error doc k = Some e ->
         exists e',
           nth_error doc' k = Some e'
           /\ Tabs.el_id e' = Tabs.el_id e
           /\ Tabs.el_data_tab e' = Tabs.el_data_tab e
           /\ (forall c, c <> "active" -> Tabs.hasClass c e' = Tabs.hasClass c e)
           /\ (Tabs.hasClass "tab-button" e = true ->
               Tabs.hasClass "active" e' = Nat.eqb k i)
           /\ (Tabs.hasClass "tab-panel" e = true ->
               Tabs.hasClass "active" e' = Nat.eqb k j)
           /\ (Tabs.hasClass "tab-button" e = false -> Tabs.hasClass "tab-panel" e = false ->
               k <> i -> k <> j ->
               Tabs.hasClass "active" e' = Tabs.hasClass "active" e).
Proof.
  intros Hp Hi Hb Hbp Hj Hpn Hpb.
  destruct (TabsFacts.switchTab_run other name doc i j Hp Hi Hj) as [doc' [R [L N]]].
  exists doc'. split; [exact R|]. split; [exact L|].
  intros k e He. exists (Tabs.elementAfter i j k e).
  split; [rewrite N, He; reflexivity|].
  destruct (TabsFacts.elementAfter_spec i j k e) as [I [D [C A]]].
  split; [exact I|]. split; [exact D|]. split; [exact C|].
  rewrite A. repeat split.
  - intros B. rewrite B.
    destruct (Nat.eqb_spec k j) as [->|_].
    + rewrite Hpn in He. injection He as <-. congruence.
    + destruct (Nat.eqb_spec k i) as [->|_].
      * rewrite Hb in He. injection He as <-. rewrite Hbp. reflexivity.
      * cbn. apply andb_false_r.
  - intros B. rewrite B. cbn. apply orb_false_r.
  - intros B1 B2 Ni Nj. rewrite B1, B2.
    apply Nat.eqb_neq in Ni, Nj. rewrite Ni, Nj. reflexivity.
Qed.

Lemma switchTab_selects_tab_and_panel_witness :
  exists doc',
    Tabs.switchTab Tabs.noOtherSelector (Some "resources") Tabs.strip = (Ok tt, doc')
    /\ map (Tabs.hasClass "active") doc' = [false; true; false; false; true; false].
Proof.
  destruct (switchTab_selects_tab_and_panel Tabs.noOtherSelector "resources" Tabs.strip 1 4
              (Tabs.button "resources" false) (Tabs.tabPanel "resources" false))
    as [doc' [R _]]; try (vm_compute; reflexivity).
  exists doc'. split; [exact R|].
  vm_compute in R. injection R as <-. vm_compute. reflexivity.
Defined.

(** X10: a switch to a tab without a button, or without a panel, throws a
    [TypeError] and is not undone: without a button, every tab button is
    left without [active] and nothing else is touched; with a button but
    without a panel, every tab panel is left without [active]. *)
Theorem switchTab_unknown_tab
        (other : string -> Tabs.Document -> result (option nat))
        (name : string) (doc : Tabs.Document) :
  Tabs.plainName name = true ->
  (Tabs.findIndex (Tabs.dataTabIs name) doc = None ->
   Tabs.switchTab other (Some name) doc
   = (Throw Tabs.nullClassList, Tabs.deactivateAll "tab-button" doc)
   /\ forall e', In e' (Tabs.deactivateAll "tab-button" doc) ->
                 Tabs.hasClass "tab-button" e' = true -> Tabs.hasClass "active" e' = false)
  /\ (forall i,
        Tabs.findIndex (Tabs.dataTabIs name) doc = Some i ->
        Tabs.getElementById (name ++ "-tab") doc = None ->
        exists doc',
          Tabs.switchTab other (Some name) doc = (Throw Tabs.nullClassList, doc')
          /\ forall e', In e' doc' ->
                        Tabs.hasClass "tab-panel" e' = true -> Tabs.hasClass "active" e' = false).
Proof.
  intros Hp. split.
  - intros Hn. split.
    + unfold Tabs.switchTab, Tabs.querySelectorDataTab. cbn [Tabs.interpolate].
      rewrite Hp, TabsFacts.deactivateAll_findIndex_dataTab, Hn. reflexivity.
    + intros e'. apply TabsFacts.deactivateAll_inactive. discriminate.
  - intros i Hi Hn.
    unfold Tabs.switchTab, Tabs.querySelectorDataTab. cbn [Tabs.interpolate].
    rewrite Hp, TabsFacts.deactivateAll_findIndex_dataTab, Hi.
    unfold Tabs.getElementById in *.
    rewrite TabsFacts.deactivateAll_findIndex_id, TabsFacts.updateAt_findIndex_id,
      TabsFacts.deactivateAll_findIndex_id, Hn.
    eexists. split; [reflexivity|].
    intros e'. apply TabsFacts.deactivateAll_inactive. discriminate.
Qed.

Lemma switchTab_unknown_tab_witness :
  Tabs.switchTab Tabs.noOtherSelector (Some "security") Tabs.strip
  = (Throw Tabs.nullClassList, Tabs.deactivateAll "tab-button" Tabs.strip)
  /\ map (Tabs.hasClass "active") (Tabs.deactivateAll "tab-button" Tabs.strip)
     = [false; false; false; true; false; false].
Proof.
  destruct (switchTab_unknown_tab Tabs.noOtherSelector "security" Tabs.strip) as [H _].
  - vm_compute. reflexivity.
  - destruct H as [R _]; [vm_compute; reflexivity|].
    split; [exact R | vm_compute; reflexivity].
Defined.

(** ** Rendering *)

Module RenderFacts.
Import Js Render.
Local Open Scope res_scope.

Lemma prefix_append (p a b : string) :
  String.prefix p a = true -> String.prefix p (a ++ b) = true.
Proof.
  revert a. induction p as [|c p IH]; intros a H; [destruct (a ++ b); reflexivity|].
  destruct a as [|d a]; [discriminate|]. cbn in *.
  destruct (ascii_dec c d); [apply IH, H | discriminate].
Qed.

Lemma includes_append_l (a b p : string) :
  includes a p = true -> includes (a ++ b) p = true.
Proof.
  induction a as [|c a IH]; cbn [includes]; intros H.
  - destruct (String.prefix p "") eqn:E; [|discriminate].
    apply includes_prefix. apply (prefix_append p "" b E).
  - destruct (String.prefix p (String c a)) eqn:E.
    + apply includes_prefix. apply (prefix_append p (String c a) b E).
    + cbn [append includes]. rewrite (IH H).
      destruct (String.prefix p (String c (a ++ b))); reflexivity.
Qed.

Lemma includes_append_r (a b p : string) :
  includes b p = true -> includes (a ++ b) p = true.
Proof.
  intros H. induction a as [|c a IH]; [exact H|].
  cbn [append includes]. rewrite IH.
  destruct (String.prefix p (String c (a ++ b))); reflexivity.
Qed.

Lemma includes_self (s : string) : includes s s = true.
Proof.
  apply includes_prefix. rewrite <- (prefix_app s ""). f_equal.
  induction s as [|c s IH]; [reflexivity|]. cbn. rewrite <- IH. reflexivity.
Qed.

(** A string that stands between two others is included in the whole. *)
Lemma includes_between (a s b : string) : includes (a ++ s ++ b) s = true.
Proof. apply includes_append_r, includes_append_l, includes_self. Qed.


(** A successful [bindR] splits into its two steps. *)
Lemma bindR_Ok {A B} (m : result A) (f : A -> result B) (b : B) :
  bindR m f = Ok b -> exists a, m = Ok a /\ f a = Ok b.
Proof. destruct m as [a|e]; [eauto | discriminate]. Qed.

Lemma orElse_string (R : Runtime) (s lit : string) :
  s <> EmptyString -> orElse R (Some (VString s)) lit = Ok s.
Proof.
  intros N. unfold orElse. cbn [truthy]. apply String.eqb_neq in N. rewrite N. reflexivity.
Qed.

Lemma Ok_inj {A} (a b : A) : Ok a = Ok b -> a = b.
Proof. intros H. injection H as ->. reflexivity. Qed.

Lemma toStrU_string (R : Runtime) (s : string) : toStrU R (Some (VString s)) = Ok s.
Proof. reflexivity. Qed.

Ltac split_bind H :=
  let a := fresh "v" in
  let E := fresh "E" in
  apply bindR_Ok in H; destruct H as [a [E H]].

Ltac find_included :=
  solve [ apply includes_self
        | apply includes_between
        | apply includes_append_r; find_included
        | apply includes_append_l; find_included ].

End RenderFacts.

(** X11: [renderOverview] performs no escaping: each of [name],
    [fhirVersion], [status], [publisher], [kind] and [description] that is
    a non-empty string stands in the markup of the overview exactly as
    the server sent it, markup of its own included. *)
Theorem overview_inserts_strings_unescaped
        (R : Js.Runtime) (data : value) (k s h : string) :
  In k overviewTexts ->
  getProp data k = Some (VString s) -> s <> EmptyString ->
  Render.renderOverview R (Some data) = Ok h ->
  includes h s = true.
Proof.
  intros Hk Hs Hne H.
  destruct data as [| b | x | t | items | fields]; try discriminate Hs.
  cbn [getProp] in Hs.
  unfold Render.renderOverview in H. cbn [Render.thisData Js.getMember getProp] in H.
  cbn [Js.bindR] in H.
  do 9 RenderFacts.split_bind H.
  apply RenderFacts.Ok_inj in H. subst h.
  unfold overviewTexts in Hk. cbn [In] in Hk.
  destruct Hk as [<-|[<-|[<-|[<-|[<-|[<-|[]]]]]]]; rewrite Hs in *.
  - rewrite (RenderFacts.orElse_string R s _ Hne) in E.
    apply RenderFacts.Ok_inj in E. subst v. RenderFacts.find_included.
  - rewrite RenderFacts.toStrU_string in E0.
    apply RenderFacts.Ok_inj in E0. subst v0. RenderFacts.find_included.
  - rewrite (RenderFacts.orElse_string R s _ Hne) in E1.
    apply RenderFacts.Ok_inj in E1. subst v1. RenderFacts.find_included.
  - rewrite (RenderFacts.orElse_string R s _ Hne) in E3.
    apply RenderFacts.Ok_inj in E3. subst v3. RenderFacts.find_included.
  - rewrite (RenderFacts.orElse_string R s _ Hne) in E5.
    apply RenderFacts.Ok_inj in E5. subst v5. RenderFacts.find_included.
  - cbn [truthy] in E7. apply String.eqb_neq in Hne. rewrite Hne in E7. cbn [negb] in E7.
    rewrite RenderFacts.toStrU_string in E7. cbn [Js.bindR] in E7.
    apply RenderFacts.Ok_inj in E7. subst v7. RenderFacts.find_included.
Qed.

Lemma overview_inserts_strings_unescaped_witness :
  exists h,
    Render.renderOverview RenderScenario.runtime (Some RenderScenario.markupDoc) = Ok h
    /\ includes h "<img src=x onerror=alert(1)>" = true.
Proof.
  eexists. split; [vm_compute; reflexivity|].
  apply (overview_inserts_strings_unescaped RenderScenario.runtime RenderScenario.markupDoc
           "name" "<img src=x onerror=alert(1)>").
  - left. reflexivity.
  - reflexivity.
  - discriminate.
  - vm_compute. reflexivity.
Defined.

(** ** Failures while rendering *)

Section Partial.

Variable P : Platform.

(** A load whose document passed the check, in terms of the rendering. *)
Lemma load_display (st : App) (data : value) :
  let url := trim (fhir_url (dom st)) in
  url <> EmptyString -> isValidUrl P url = true ->
  resultOf (validated P url st) = Ok data ->
  loadCapabilityStatement P st
  = match displayCapabilityStatement P (mkApp (Some data) (prelude (dom st))) with
    | (Ok _, s, l) =>
        (Ok tt, mkApp (capabilityData s) (setLoading false false (dom s)),
         (eventsOf (validated P url st) ++ l)%list)
    | (Throw e, s, l) =>
        (Ok tt,
         mkApp (capabilityData s)
               (setLoading false false (setError (errorMessage e) true (dom s))),
         (eventsOf (validated P url st) ++ l
            ++ [EConsoleError e; EShowError (errorMessage e)])%list)
    end.
Proof.
  intros url Hne Hok Hv.
  rewrite load_valid by assumption. fold url.
  unfold tryFinally, tryCatch, loadBody. unfold bind at 1.
  rewrite (validated_run P url _ st), Hv.
  unfold bind at 1. unfold setCapabilityData at 1. cbn [dom app].
  destruct (displayCapabilityStatement P _) as [[[[]|e] s] l];
    unfold loadCatch, showError, hideLoading, bind, emit, modifyDom;
    cbn [capabilityData dom app]; rewrite ?app_nil_r, ?app_assoc; reflexivity.
Qed.

Lemma display_renderAll : displayCapabilityStatement P = renderAll P renderOrder.
Proof. reflexivity. Qed.

Lemma getPanel_setPanel_same (p : panel) (h : string) (ps : Panels) :
  getPanel p (setPanel p h ps) = h.
Proof. destruct p; reflexivity. Qed.

Lemma getPanel_setPanel_other (p q : panel) (h : string) (ps : Panels) :
  p <> q -> getPanel q (setPanel p h ps) = getPanel q ps.
Proof. destruct p, q; intros N; try reflexivity; contradiction. Qed.

Lemma setPanels_const (ps : Panels) (f : Panels -> Panels) (d : Dom) :
  setPanels (fun _ => ps) (setPanels f d) = setPanels (fun _ => ps) d.
Proof. reflexivity. Qed.

Lemma setPanels_same (d : Dom) : setPanels (fun _ => panels d) d = d.
Proof. destruct d; reflexivity. Qed.

(** The render methods run in order; the first one that throws ends the
    rendering, with the panels before it rebuilt and the others as they
    were. *)
Lemma renderAll_partial (l : list panel) (p : panel) (e : Error) (cd : option value) :
  forall (n : nat) (d : Dom),
    nth_error l n = Some p ->
    (forall q, In q (firstn n l) -> exists h, template P q cd = Ok h) ->
    template P p cd = Throw e ->
    exists ps : Panels,
      renderAll P l (mkApp cd d) = (Throw e, mkApp cd (setPanels (fun _ => ps) d), [])
      /\ (forall q, In q (firstn n l) -> template P q cd = Ok (getPanel q ps))
      /\ (forall q, ~ In q (firstn n l) -> getPanel q ps = getPanel q (panels d)).
Proof.
  induction l as [|q0 l IH]; intros n d N Hpre Hp.
  - destruct n; discriminate N.
  - destruct n as [|n]; cbn [nth_error firstn] in *.
    + injection N as ->. exists (panels d).
      cbn [renderAll fold_right]. rewrite bind_render. cbn [capabilityData dom].
      rewrite Hp, setPanels_same. split; [reflexivity|]. split; [intros q []|reflexivity].
    + destruct (Hpre q0 (or_introl eq_refl)) as [h0 E0].
      cbn [renderAll fold_right]. rewrite bind_render. cbn [capabilityData dom].
      rewrite E0. fold (renderAll P l).
      destruct (IH n (setPanels (setPanel q0 h0) d) N) as [ps [R [A B]]];
        [intros q Hq; apply Hpre; now right | exact Hp |].
      exists ps. rewrite R, setPanels_const. split; [reflexivity|]. split.
      * intros q Hq. destruct (in_dec panel_eq_dec q (firstn n l)) as [I|I]; [now apply A|].
        destruct Hq as [<-|Hq]; [|contradiction].
        rewrite (B q0 I). cbn [panels setPanels]. rewrite getPanel_setPanel_same. exact E0.
      * intros q Hq. rewrite B by (intros I; apply Hq; now right).
        cbn [panels setPanels]. apply getPanel_setPanel_other.
        intros ->. apply Hq. now left.
Qed.

End Partial.

(** X12: when a render method throws, the load ends with the document stored,
    the panels of the methods that ran before it rebuilt from the new
    document, the panel of the failing method and all later ones with the
    content they had, the results hidden and the error shown. *)
Theorem render_failure_is_partial
        (P : Platform) (st : App) (data : value) (n : nat) (p : panel) (e : Error) :
  let url := trim (fhir_url (dom st)) in
  url <> EmptyString -> isValidUrl P url = true ->
  resultOf (validated P url st) = Ok data ->
  nth_error renderOrder n = Some p ->
  (forall q, In q (firstn n renderOrder) -> exists h, template P q (Some data) = Ok h) ->
  template P p (Some data) = Throw e ->
  let st' := stateOf (loadCapabilityStatement P st) in
  capabilityData st' = Some data
  /\ (forall q, In q (firstn n renderOrder) ->
                template P q (Some data) = Ok (getPanel q (panels (dom st'))))
  /\ (forall q, In q (skipn n renderOrder) ->
                getPanel q (panels (dom st')) = getPanel q (panels (dom st)))
  /\ results_visible (dom st') = false
  /\ error_visible (dom st') = true
  /\ error_text (dom st') = errorMessage e
  /\ outcomes (eventsOf (loadCapabilityStatement P st)) = [EShowError (errorMessage e)].
Proof.
  intros url Hne Hok Hv N Hpre Hp st'. subst st'.
  rewrite (load_display P st data Hne Hok Hv). fold url.
  rewrite display_renderAll.
  destruct (renderAll_partial P renderOrder p e (Some data) n (prelude (dom st)) N Hpre Hp)
    as [ps [R [A B]]].
  rewrite R. cbn [stateOf eventsOf fst snd capabilityData dom].
  split; [reflexivity|]. split; [exact A|]. split.
  - intros q Hq. cbn [panels setLoading setError setPanels prelude setResults].
    apply B. intros I.
    assert (ND : NoDup renderOrder) by (repeat constructor; cbn; intuition discriminate).
    rewrite <- (firstn_skipn n renderOrder) in ND.
    apply NoDup_app_remove_l in ND as ND2.
    clear - ND I Hq.
    induction (firstn n renderOrder) as [|a l IH]; [contradiction|].
    cbn in ND. inversion ND as [|? ? X Y]; subst.
    destruct I as [->|I]; [apply X, in_or_app; now right | now apply IH].
  - repeat split.
    rewrite outcomes_app, validated_outcomes. reflexivity.
Qed.

Lemma render_failure_is_partial_witness :
  let st' := stateOf (loadCapabilityStatement
                        (RenderScenario.serving RenderScenario.resourceObjectBody)
                        Scenario.loaded) in
  capabilityData st' = Some RenderScenario.resourceObjectDoc
  /\ resources_html (panels (dom st')) = resources_html (panels (dom Scenario.loaded))
  /\ error_text (dom st') = "resources.map is not a function".
Proof.
  destruct (render_failure_is_partial
              (RenderScenario.serving RenderScenario.resourceObjectBody)
              Scenario.loaded RenderScenario.resourceObjectDoc 1 resources_tab
              (Js.notFunction "resources.map"))
    as (A & _ & C & _ & _ & F & _).
  - vm_compute. discriminate.
  - vm_compute. reflexivity.
  - vm_compute. reflexivity.
  - reflexivity.
  - intros q [<-|[]]. eexists. vm_compute. reflexivity.
  - vm_compute. reflexivity.
  - split; [exact A|]. split; [|exact F].
    apply (C resources_tab). left. reflexivity.
Defined.

(** [renderContactInfo] on what is not a list: nothing for a falsy value or
    one whose [length] is zero, an exception otherwise. *)
Lemma renderContactInfo_not_a_list (R : Js.Runtime) (c : value) :
  (forall items, c <> VArray items) ->
  Render.renderContactInfo R (Some c)
  = if negb (truthy (Some c)) || Js.lengthIsZero c then Ok EmptyString
    else Throw (Js.notFunction "contacts.forEach").
Proof.
  intros N. unfold Render.renderContactInfo.
  destruct (negb (truthy (Some c)) || Js.lengthIsZero c) eqn:E; [reflexivity|].
  destruct c as [| b | x | t | items | fields]; try reflexivity.
  - discriminate E.
  - exfalso. apply (N items). reflexivity.
Qed.

(** X13: a document that passes the validity check but whose [contact] is
    not a list (an object, a number, a non-empty string) and has no zero
    [length] is stored and then fails in [renderOverview]: no panel is
    rebuilt, the results stay hidden and an error is shown. *)
Theorem contact_that_is_not_a_list_fails_the_load
        (R : Js.Runtime) (P : Platform) (st : App) (data c : value) :
  let url := trim (fhir_url (dom st)) in
  (forall p d, template P p d = Render.template R p d) ->
  url <> EmptyString -> isValidUrl P url = true ->
  resultOf (validated P url st) = Ok data ->
  getProp data "contact" = Some c ->
  (forall items, c <> VArray items) ->
  truthy (Some c) = true -> Js.lengthIsZero c = false ->
  let st' := stateOf (loadCapabilityStatement P st) in
  capabilityData st' = Some data
  /\ panels (dom st') = panels (dom st)
  /\ results_visible (dom st') = false
  /\ error_visible (dom st') = true
  /\ exists e, Render.renderOverview R (Some data) = Throw e
               /\ error_text (dom st') = errorMessage e
               /\ outcomes (eventsOf (loadCapabilityStatement P st))
                  = [EShowError (errorMessage e)].
Proof.
  intros url T Hne Hok Hv Hc Hn Ht Hl st'. subst st'.
  assert (X : exists e, Render.renderOverview R (Some data) = Throw e).
  { destruct (Render.renderOverview R (Some data)) as [h|e] eqn:H; [|eauto].
    exfalso.
    destruct data as [| b | x | t | items | fields]; try discriminate Hc.
    cbn [getProp] in Hc.
    unfold Render.renderOverview in H. cbn [Render.thisData Js.getMember getProp] in H.
    cbn [Js.bindR] in H.
    do 8 RenderFacts.split_bind H.
    rewrite Hc, (renderContactInfo_not_a_list R c Hn), Ht, Hl in E6.
    discriminate E6. }
  destruct X as [e X].
  rewrite (load_display P st data Hne Hok Hv). fold url.
  rewrite display_renderAll.
  destruct (renderAll_partial P renderOrder overview_content e (Some data) 0
              (prelude (dom st)) eq_refl) as [ps [Run [_ B]]].
  - intros q [].
  - rewrite T. exact X.
  - rewrite Run. cbn [stateOf eventsOf fst snd capabilityData dom].
    assert (Eq : ps = panels (dom st)).
    { destruct ps as [a1 a2 a3 a4 a5 a6 a7].
      destruct (panels (dom st)) as [b1 b2 b3 b4 b5 b6 b7] eqn:Ps.
      pose proof (B overview_content (fun x => x)) as B1.
      pose proof (B resources_tab (fun x => x)) as B2.
      pose proof (B interactions_tab (fun x => x)) as B3.
      pose proof (B operations_tab (fun x => x)) as B4.
      pose proof (B search_tab (fun x => x)) as B5.
      pose proof (B security_tab (fun x => x)) as B6.
      pose proof (B raw_tab (fun x => x)) as B7.
      cbn [prelude setResults setError setLoading panels getPanel overview_html
             resources_html interactions_html operations_html search_html security_html
             raw_html firstn In] in B1, B2, B3, B4, B5, B6, B7.
      rewrite Ps in B1, B2, B3, B4, B5, B6, B7.
      cbn in B1, B2, B3, B4, B5, B6, B7. congruence. }
    subst ps. split; [reflexivity|]. split; [reflexivity|]. split; [reflexivity|].
    split; [reflexivity|]. exists e. split; [exact X|]. split; [reflexivity|].
    rewrite outcomes_app, validated_outcomes. reflexivity.
Qed.

Lemma contact_that_is_not_a_list_fails_the_load_witness :
  let st' := stateOf (loadCapabilityStatement
                        (RenderScenario.serving RenderScenario.contactObjectBody)
                        Scenario.loaded) in
  capabilityData st' = Some RenderScenario.contactObjectDoc
  /\ panels (dom st') = panels (dom Scenario.loaded)
  /\ results_visible (dom st') = false.
Proof.
  destruct (contact_that_is_not_a_list_fails_the_load
              RenderScenario.runtime
              (RenderScenario.serving RenderScenario.contactObjectBody)
              Scenario.loaded RenderScenario.contactObjectDoc
              (VObject [("name", VString "Support")]))
    as (A & B & C & _).
  - intros p d. reflexivity.
  - vm_compute. discriminate.
  - vm_compute. reflexivity.
  - vm_compute. reflexivity.
  - reflexivity.
  - intros items. discriminate.
  - reflexivity.
  - reflexivity.
  - split; [exact A|]. split; [exact B | exact C].
Defined.

Module GroupFacts.
Import Js Render.

Lemma extend_nil (old : option (list (option value))) : extend old [] = old.
Proof. reflexivity. Qed.

Lemma extend_app (old : option (list (option value))) (a b : list (option value)) :
  extend (extend old a) b = extend old (a ++ b).
Proof.
  destruct a as [|x a]; [reflexivity|].
  destruct b as [|y b]; [cbn [extend]; rewrite app_nil_r; reflexivity|].
  destruct old; cbn [extend app]; rewrite <- ?app_assoc; reflexivity.
Qed.

Lemma lookupGroup_pushGroup (g : groups) (key k : string) (type : option value) :
  lookupGroup (pushGroup g key type) k
  = if String.eqb key k
    then match lookupGroup g k with Some o => Some (o ++ [type])%list | None => None end
    else lookupGroup g k.
Proof.
  induction g as [|[k0 types] g IH]; cbn [pushGroup lookupGroup].
  - destruct (String.eqb key k); reflexivity.
  - destruct (String.eqb k0 key) eqn:E0; cbn [lookupGroup].
    + apply String.eqb_eq in E0. subst k0.
      destruct (String.eqb key k); reflexivity.
    + destruct (String.eqb k0 k) eqn:E1; [|exact IH].
      apply String.eqb_eq in E1. subst k0. rewrite String.eqb_sym, E0. reflexivity.
Qed.

Lemma lookupGroup_app (g : groups) (key k : string) (types : list (option value)) :
  lookupGroup g key = None ->
  lookupGroup (g ++ [(key, types)])%list k
  = if String.eqb key k then Some types else lookupGroup g k.
Proof.
  intros N. induction g as [|[k0 t0] g IH]; cbn [app lookupGroup] in *.
  - destruct (String.eqb key k); reflexivity.
  - destruct (String.eqb k0 key) eqn:E0; [discriminate N|].
    destruct (String.eqb k0 k) eqn:E1; [|exact (IH N)].
    apply String.eqb_eq in E1. subst k0. rewrite String.eqb_sym, E0. reflexivity.
Qed.

(** One interaction with a plain code: the type is pushed to the group of
    the code, which is created when it is not there. *)
Lemma addInteraction_plain (R : Runtime) (type : option value) (g : groups)
      (i : value) (c : string) :
  getProp i "code" = Some (VString c) -> isObjectPrototypeName c = false ->
  exists g', addInteraction R type g i = Ok g'
             /\ forall k, lookupGroup g' k
                          = extend (lookupGroup g k) (if String.eqb c k then [type] else []).
Proof.
  intros Hc Hp. unfold addInteraction.
  destruct i as [| b | x | t | items | fields]; try discriminate Hc.
  cbn [getMember bindR]. rewrite Hc. cbn [toStrU toStr bindR].
  destruct (lookupGroup g c) as [o|] eqn:L.
  - eexists. split; [reflexivity|]. intros k. rewrite lookupGroup_pushGroup.
    destruct (String.eqb c k) eqn:E; [|reflexivity].
    apply String.eqb_eq in E. subst k. rewrite L. reflexivity.
  - rewrite Hp. eexists. split; [reflexivity|]. intros k.
    rewrite (lookupGroup_app g c k [type] L).
    destruct (String.eqb c k) eqn:E; [|reflexivity].
    apply String.eqb_eq in E. subst k. rewrite L. reflexivity.
Qed.

Lemma addInteractions_plain (R : Runtime) (type : option value) (l : list value) :
  Forall plainCode l ->
  forall g, exists g',
    addInteractions R type g l = Ok g'
    /\ forall k, lookupGroup g' k
                 = extend (lookupGroup g k)
                          (flat_map (fun c => if String.eqb c k then [type] else [])
                             (flat_map (fun i => match getProp i "code" with
                                                 | Some (VString c) => [c]
                                                 | _ => []
                                                 end) l)).
Proof.
  induction 1 as [|i l [c [Hc Hp]] _ IH]; intros g.
  - exists g. split; [reflexivity|]. intros k. reflexivity.
  - destruct (addInteraction_plain R type g i c Hc Hp) as [g1 [E1 L1]].
    destruct (IH g1) as [g2 [E2 L2]].
    exists g2. cbn [addInteractions]. rewrite E1. cbn [bindR]. split; [exact E2|].
    intros k. rewrite L2, L1. cbn [flat_map]. rewrite Hc. cbn [app flat_map].
    rewrite extend_app. reflexivity.
Qed.

Lemma addResource_groupable (R : Runtime) (r : value) :
  groupable r ->
  forall g, exists g',
    addResource R g r = Ok g'
    /\ forall k, lookupGroup g' k = extend (lookupGroup g k) (declarations k r).
Proof.
  intros [Hn Hi] g. unfold addResource, declarations, codesOf.
  destruct r as [| b | x | t | items | fields];
    try (exists g; split; [reflexivity|]; intros k; reflexivity).
  - contradiction.
  - cbn [getMember bindR getProp] in *.
    destruct (lookup fields "interaction") as [[| b | x | t | items | fs]|];
      try contradiction;
      try (exists g; split; [reflexivity|]; intros k; reflexivity).
    cbn [optArrayOf bindR].
    apply (addInteractions_plain R (lookup fields "type") items Hi g).
Qed.

Lemma addResources_groupable (R : Runtime) (resources : list value) :
  Forall groupable resources ->
  forall g, exists g',
    addResources R g resources = Ok g'
    /\ forall k, lookupGroup g' k = extend (lookupGroup g k) (declaring k resources).
Proof.
  induction 1 as [|r l Hr _ IH]; intros g.
  - exists g. split; [reflexivity|]. intros k. reflexivity.
  - destruct (addResource_groupable R r Hr g) as [g1 [E1 L1]].
    destruct (IH g1) as [g2 [E2 L2]].
    exists g2. cbn [addResources]. rewrite E1. cbn [bindR]. split; [exact E2|].
    intros k. rewrite L2, L1, extend_app. reflexivity.
Qed.

End GroupFacts.

(** X14: the grouping of [renderInteractions].  For resources whose
    interactions have string codes, none the name of a member of
    [Object.prototype], the two nested loops end without an exception, and
    the group of each code lists the [type] of every resource that
    declares it, once per declaration and in document order; a code that
    no resource declares has no group. *)
Theorem interactions_grouped_by_code
        (R : Js.Runtime) (resources : list value) (key : string) :
  Forall groupable resources ->
  exists g,
    Render.addResources R [] resources = Ok g
    /\ Render.lookupGroup g key
       = match declaring key resources with
         | [] => None
         | types => Some types
         end.
Proof.
  intros H.
  destruct (GroupFacts.addResources_groupable R resources H []) as [g [E L]].
  exists g. split; [exact E|]. rewrite L. cbn [Render.lookupGroup].
  destruct (declaring key resources); reflexivity.
Qed.

Lemma interactions_grouped_by_code_witness :
  exists g,
    Render.addResources RenderScenario.runtime [] RenderScenario.twoResources = Ok g
    /\ Render.lookupGroup g "read"
       = Some [Some (VString "Patient"); Some (VString "Observation")].
Proof.
  apply (interactions_grouped_by_code RenderScenario.runtime RenderScenario.twoResources
           "read").
  repeat constructor; try discriminate;
    cbn; repeat constructor; eexists; split; reflexivity.
Defined.

Module BuiltinFacts.
Import Js Render.

Lemma plain_codes_differ (l : list value) (c : string) :
  Forall plainCode l -> isObjectPrototypeName c = true ->
  flat_map (fun k => if String.eqb k c then [@None value] else [])
           (flat_map (fun i => match getProp i "code" with
                               | Some (VString c) => [c]
                               | _ => []
                               end) l) = [].
Proof.
  intros H Hc. induction H as [|i l [k [Hk Hp]] _ IH]; [reflexivity|].
  cbn [flat_map]. rewrite Hk. cbn [app flat_map].
  destruct (String.eqb k c) eqn:E; [|exact IH].
  apply String.eqb_eq in E. congruence.
Qed.

Lemma flat_map_nil_irrelevant {A B} (x y : B) (p : A -> bool) (l : list A) :
  flat_map (fun a => if p a then [x] else []) l = [] ->
  flat_map (fun a => if p a then [y] else []) l = [].
Proof.
  induction l as [|a l IH]; [reflexivity|]. cbn [flat_map].
  destruct (p a); [discriminate | exact IH].
Qed.

Lemma declarations_builtin (r : value) (c : string) :
  groupable r -> isObjectPrototypeName c = true -> declarations c r = [].
Proof.
  intros [_ H] Hc. unfold declarations, codesOf.
  destruct (getProp r "interaction") as [[| b | x | t | items | fs]|]; try reflexivity.
  apply (flat_map_nil_irrelevant None _ (fun k => String.eqb k c)).
  apply plain_codes_differ; assumption.
Qed.

Lemma declaring_builtin (l : list value) (c : string) :
  Forall groupable l -> isObjectPrototypeName c = true -> declaring c l = [].
Proof.
  intros H Hc. induction H as [|r l Hr _ IH]; [reflexivity|].
  unfold declaring. cbn [flat_map].
  rewrite (declarations_builtin r c Hr Hc). exact IH.
Qed.

Lemma addInteractions_app (R : Runtime) (type : option value) (a b : list value) :
  forall g, addInteractions R type g (a ++ b)
            = bindR (addInteractions R type g a) (fun g' => addInteractions R type g' b).
Proof.
  induction a as [|i a IH]; intros g; [reflexivity|].
  cbn [app addInteractions]. destruct (addInteraction R type g i); [apply IH | reflexivity].
Qed.

Lemma addResources_app (R : Runtime) (a b : list value) :
  forall g, addResources R g (a ++ b)
            = bindR (addResources R g a) (fun g' => addResources R g' b).
Proof.
  induction a as [|r a IH]; intros g; [reflexivity|].
  cbn [app addResources]. destruct (addResource R g r); [apply IH | reflexivity].
Qed.

End BuiltinFacts.

(** X15: an interaction code that is the name of a member of
    [Object.prototype] (constructor, toString, valueOf, ...) is found on the
    prototype of the grouping object, so no group is created for it and the
    call of [push] fails: the grouping throws at the first such code, and
    [renderInteractions] throws for every document whose first [rest]
    entry lists the resources. *)
Theorem builtin_interaction_code_throws
        (R : Js.Runtime) (before after ibefore iafter : list value)
        (r i : value) (c : string) :
  Forall groupable before ->
  r <> VNull ->
  getProp r "interaction" = Some (VArray (ibefore ++ i :: iafter)) ->
  Forall plainCode ibefore ->
  getProp i "code" = Some (VString c) ->
  Js.isObjectPrototypeName c = true ->
  let resources := (before ++ r :: after)%list in
  Render.addResources R [] resources
  = Throw (Js.notFunction "resourceInteractions[interaction.code].push")
  /\ forall data rest more,
       getProp data "rest" = Some (VArray (rest :: more)) ->
       getProp rest "resource" = Some (VArray resources) ->
       exists e, Render.renderInteractions R (Some data) = Throw e.
Proof.
  intros Hb Hr Hi Hib Hc Hp resources.
  assert (X : Render.addResources R [] resources
              = Throw (Js.notFunction "resourceInteractions[interaction.code].push")).
  { unfold resources. rewrite BuiltinFacts.addResources_app.
    destruct (GroupFacts.addResources_groupable R before Hb []) as [g1 [E1 L1]].
    rewrite E1. cbn [Js.bindR Render.addResources].
    unfold Render.addResource at 1.
    destruct r as [| b | x | t | items | fields]; try discriminate Hi.
    cbn [Js.getMember Js.bindR]. rewrite Hi. cbn [Js.optArrayOf Js.bindR].
    rewrite BuiltinFacts.addInteractions_app.
    destruct (GroupFacts.addInteractions_plain R (getProp (VObject fields) "type")
                ibefore Hib g1) as [g2 [E2 L2]].
    rewrite E2. cbn [Js.bindR Render.addInteractions].
    unfold Render.addInteraction at 1.
    destruct i as [| b | x | t | items | ifields]; try discriminate Hc.
    cbn [Js.getMember Js.bindR]. rewrite Hc. cbn [Js.toStrU Js.toStr Js.bindR].
    rewrite L2, L1. cbn [Render.lookupGroup].
    rewrite (BuiltinFacts.declaring_builtin before c Hb Hp).
    rewrite (BuiltinFacts.flat_map_nil_irrelevant None _ (fun k => String.eqb k c) _
               (BuiltinFacts.plain_codes_differ ibefore c Hib Hp)).
    cbn [extend]. rewrite Hp. reflexivity. }
  split; [exact X|].
  intros data rest more Hd Hrest.
  destruct (Render.renderInteractions R (Some data)) as [h|e] eqn:H; [exfalso | eauto].
  destruct data as [| b | x | t | items | fields]; try discriminate Hd.
  destruct rest as [| b | x | t | items | rfields]; try discriminate Hrest.
  unfold Render.renderInteractions, Render.firstRest in H.
  cbn [Render.thisData Js.getMember Js.bindR] in H. rewrite Hd in H.
  cbn [Js.optIndex0 truthy negb Js.getMember Js.bindR] in H.
  do 3 RenderFacts.split_bind H.
  rewrite Hrest in H. cbn [Js.optArrayOf Js.bindR] in H.
  rewrite X in H. discriminate H.
Qed.

Lemma builtin_interaction_code_throws_witness :
  Render.addResources RenderScenario.runtime [] RenderScenario.constructorResources
  = Throw (Js.typeError "resourceInteractions[interaction.code].push is not a function")
  /\ exists e,
       Render.renderInteractions RenderScenario.runtime
         (Some (RenderScenario.withRest
                  [VObject [("resource", VArray RenderScenario.constructorResources)]]))
       = Throw e.
Proof.
  destruct (builtin_interaction_code_throws RenderScenario.runtime
              [VObject [("type", VString "Patient");
                        ("interaction", VArray [RenderScenario.interactionOf "read"])]]
              [] [RenderScenario.interactionOf "read"] []
              (VObject [("type", VString "Observation");
                        ("interaction",
                         VArray [RenderScenario.interactionOf "read";
                                 RenderScenario.interactionOf "constructor"])])
              (RenderScenario.interactionOf "constructor") "constructor")
    as [A B].
  - repeat constructor; try discriminate.
    cbn. repeat constructor. eexists. split; reflexivity.
  - discriminate.
  - reflexivity.
  - repeat constructor. eexists. split; reflexivity.
  - reflexivity.
  - reflexivity.
  - split; [exact A|].
    apply (B _ (VObject [("resource", VArray RenderScenario.constructorResources)]) []);
      reflexivity.
Defined.

Module RestFacts.
Import Js Render.

Lemma firstRest_run (data : value) :
  data <> VNull -> firstRest (Some data) = Ok (optIndex0 (getProp data "rest")).
Proof. intros N. destruct data; try reflexivity. contradiction. Qed.

(** What is falsy has no properties. *)
Lemma falsy_optMember (x : option value) (k : string) :
  truthy x = false -> optMember x k = None.
Proof. destruct x as [[| b | n | s | items | fields]|]; try reflexivity; discriminate. Qed.

End RestFacts.

(** X16: without a first [rest] entry (no [rest], an empty list, or a falsy
    first entry) each of the five panels computed from it shows its own
    fixed message, whatever else the document holds. *)
Theorem no_rest_entry_gives_the_empty_messages
        (R : Js.Runtime) (data : value) (p : panel) :
  data <> VNull ->
  truthy (Js.optIndex0 (getProp data "rest")) = false ->
  In p restPanels ->
  Render.template R p (Some data) = Ok (emptyMessage p).
Proof.
  intros N F Hp.
  pose proof (RestFacts.firstRest_run data N) as FR.
  assert (O : forall k, Js.optMember (Js.optIndex0 (getProp data "rest")) k = None)
    by (intros k; apply RestFacts.falsy_optMember, F).
  unfold restPanels in Hp. cbn [In] in Hp.
  destruct Hp as [<-|[<-|[<-|[<-|[<-|[]]]]]]; cbn [Render.template emptyMessage].
  - unfold Render.renderResources, Render.resourcesOf. rewrite FR. cbn [Js.bindR].
    rewrite O. reflexivity.
  - unfold Render.renderInteractions. rewrite FR. cbn [Js.bindR]. rewrite F. reflexivity.
  - unfold Render.renderOperations. rewrite FR. cbn [Js.bindR]. rewrite !O. reflexivity.
  - unfold Render.renderSearchParameters, Render.resourcesOf. rewrite FR. cbn [Js.bindR].
    rewrite O. reflexivity.
  - unfold Render.renderSecurity. rewrite FR. cbn [Js.bindR]. rewrite O. reflexivity.
Qed.

Lemma no_rest_entry_gives_the_empty_messages_witness :
  Render.template RenderScenario.runtime security_tab (Some (RenderScenario.withRest []))
  = Ok "<p>No security information found in this CapabilityStatement.</p>".
Proof.
  apply (no_rest_entry_gives_the_empty_messages RenderScenario.runtime
           (RenderScenario.withRest []) security_tab).
  - discriminate.
  - reflexivity.
  - cbn. tauto.
Defined.

(** X17: only the first entry of [rest] is rendered: two documents whose
    [rest] lists start with the same entry get the same resources,
    interactions, operations, search parameters and security panels. *)
Theorem only_the_first_rest_entry_is_rendered
        (R : Js.Runtime) (data1 data2 entry : value) (more1 more2 : list value)
        (p : panel) :
  getProp data1 "rest" = Some (VArray (entry :: more1)) ->
  getProp data2 "rest" = Some (VArray (entry :: more2)) ->
  In p restPanels ->
  Render.template R p (Some data1) = Render.template R p (Some data2).
Proof.
  intros H1 H2 Hp.
  assert (F1 : Render.firstRest (Some data1) = Ok (Some entry)).
  { rewrite RestFacts.firstRest_run, H1; [reflexivity|]. intros ->. discriminate H1. }
  assert (F2 : Render.firstRest (Some data2) = Ok (Some entry)).
  { rewrite RestFacts.firstRest_run, H2; [reflexivity|]. intros ->. discriminate H2. }
  unfold restPanels in Hp. cbn [In] in Hp.
  destruct Hp as [<-|[<-|[<-|[<-|[<-|[]]]]]]; cbn [Render.template];
    unfold Render.renderResources, Render.renderInteractions, Render.renderOperations,
      Render.renderSearchParameters, Render.renderSecurity, Render.resourcesOf;
    rewrite F1, F2; reflexivity.
Qed.

Lemma only_the_first_rest_entry_is_rendered_witness :
  Render.template RenderScenario.runtime resources_tab
    (Some (RenderScenario.withRest [RenderScenario.emptyLists; RenderScenario.secondEntry]))
  = Render.template RenderScenario.runtime resources_tab
      (Some (RenderScenario.withRest [RenderScenario.emptyLists])).
Proof.
  apply (only_the_first_rest_entry_is_rendered RenderScenario.runtime _ _
           RenderScenario.emptyLists [RenderScenario.secondEntry] []).
  - reflexivity.
  - reflexivity.
  - cbn. tauto.
Defined.

(** X18: a list that is declared but empty is told apart from one that is
    not declared.  With an [operation] that is truthy but has no positive
    length (and no [resource]) the operations panel reads [No operations
    found.]; with a [security] that has no [cors], no service and no
    description the security panel reads [No detailed security
    information available.] *)
Theorem declared_but_empty_gets_the_short_message
        (R : Js.Runtime) (data entry : value) (more : list value) :
  getProp data "rest" = Some (VArray (entry :: more)) ->
  (forall operation,
      getProp entry "operation" = Some operation ->
      truthy (Some operation) = true ->
      Js.lengthPositive R operation = Ok false ->
      getProp entry "resource" = None ->
      Render.renderOperations R (Some data) = Ok "<p>No operations found.</p>")
  /\ (forall security,
         getProp entry "security" = Some security ->
         truthy (Some security) = true ->
         getProp security "cors" = None ->
         Js.optLengthPositive R (getProp security "service") = Ok false ->
         truthy (getProp security "description") = false ->
         Render.renderSecurity R (Some data)
         = Ok "<p>No detailed security information available.</p>").
Proof.
  intros H.
  assert (F : Render.firstRest (Some data) = Ok (Some entry)).
  { rewrite RestFacts.firstRest_run, H; [reflexivity|]. intros ->. discriminate H. }
  split.
  - intros operation Ho Ht Hl Hr.
    destruct entry as [| b | x | t | items | fields]; try discriminate Ho.
    unfold Render.renderOperations. rewrite F.
    cbn [Js.bindR Js.optMember Js.getMember]. rewrite Ho, Ht. cbn [Js.bindR].
    assert (L : Js.optLengthPositive R (Some operation) = Ok false).
    { destruct operation; try exact Hl; reflexivity. }
    rewrite L, Hr. reflexivity.
  - intros security Hs Ht Hc Hl Hd.
    destruct entry as [| b | x | t | items | fields]; try discriminate Hs.
    unfold Render.renderSecurity. rewrite F.
    cbn [Js.bindR Js.optMember]. rewrite Hs, Ht. cbn [negb].
    destruct security as [| b | x | t | items | sfields]; try discriminate Ht;
      cbn [Js.getMember Js.bindR]; rewrite Hc, Hl; cbn [Render.ifDefined Js.bindR];
      unfold Render.ifTruthy; rewrite Hd; reflexivity.
Qed.

Lemma declared_but_empty_gets_the_short_message_witness :
  Render.renderOperations RenderScenario.runtime
    (Some (RenderScenario.withRest [RenderScenario.emptyLists]))
  = Ok "<p>No operations found.</p>"
  /\ Render.renderSecurity RenderScenario.runtime
       (Some (RenderScenario.withRest [RenderScenario.emptyLists]))
     = Ok "<p>No detailed security information available.</p>".
Proof.
  destruct (declared_but_empty_gets_the_short_message RenderScenario.runtime
              (RenderScenario.withRest [RenderScenario.emptyLists])
              RenderScenario.emptyLists [] eq_refl) as [A B].
  split.
  - apply (A (VArray [])); reflexivity.
  - apply (B (VObject [("service", VArray [])])); reflexivity.
Defined.

Section Complete.

Variable P : Platform.

(** When every render method of the list returns, all its panels are
    rebuilt and the results are shown. *)
Lemma renderAll_complete (l : list panel) (cd : option value) :
  (forall q, In q l -> exists h, template P q cd = Ok h) ->
  forall d : Dom,
  exists ps : Panels,
    renderAll P l (mkApp cd d)
    = (Ok tt, mkApp cd (setResults true (setPanels (fun _ => ps) d)), [EShowResults])
    /\ (forall q, In q l -> template P q cd = Ok (getPanel q ps))
    /\ (forall q, ~ In q l -> getPanel q ps = getPanel q (panels d)).
Proof.
  induction l as [|q0 l IH]; intros H d.
  - exists (panels d). cbn [renderAll fold_right]. rewrite setPanels_same.
    split; [reflexivity|]. split; [intros q []|reflexivity].
  - destruct (H q0 (or_introl eq_refl)) as [h0 E0].
    cbn [renderAll fold_right]. rewrite bind_render. cbn [capabilityData dom].
    rewrite E0. fold (renderAll P l).
    destruct (IH (fun q Hq => H q (or_intror Hq)) (setPanels (setPanel q0 h0) d))
      as [ps [Run [A B]]].
    exists ps. rewrite Run, setPanels_const. split; [reflexivity|]. split.
    + intros q Hq. destruct (in_dec panel_eq_dec q l) as [I|I]; [now apply A|].
      destruct Hq as [<-|Hq]; [|contradiction].
      rewrite (B q0 I). cbn [panels setPanels]. rewrite getPanel_setPanel_same. exact E0.
    + intros q Hq. rewrite B by (intros I; apply Hq; now right).
      cbn [panels setPanels]. apply getPanel_setPanel_other.
      intros ->. apply Hq. now left.
Qed.

End Complete.

Module PlainFacts.
Import Js Render.

Lemma orElse_plain (R : Runtime) (x : option value) (lit : string) :
  x = None \/ (exists s, x = Some (VString s)) -> exists t, orElse R x lit = Ok t.
Proof.
  intros [->|[s ->]]; unfold orElse; [eexists; reflexivity|].
  destruct (truthy _); eexists; reflexivity.
Qed.

Lemma toStrU_plain (R : Runtime) (x : option value) :
  x = None \/ (exists s, x = Some (VString s)) -> exists t, toStrU R x = Ok t.
Proof. intros [->|[s ->]]; eexists; reflexivity. Qed.

(** The overview of a plain document is computed without an exception. *)
Lemma renderOverview_plain (R : Runtime) (fields : list (string * value)) :
  plainDocument (VObject fields) ->
  exists h, renderOverview R (Some (VObject fields)) = Ok h.
Proof.
  intros [T A]. cbn [getProp] in T, A.
  unfold renderOverview. cbn [thisData getMember getProp bindR].
  destruct (orElse_plain R (lookup fields "name") "Not specified") as [t1 ->];
    [apply T; cbn; tauto|].
  destruct (toStrU_plain R (lookup fields "fhirVersion")) as [t2 ->];
    [apply T; cbn; tauto|].
  destruct (orElse_plain R (lookup fields "status") "Unknown") as [t3 ->];
    [apply T; cbn; tauto|].
  rewrite (A "date") by (cbn; tauto).
  destruct (orElse_plain R (lookup fields "publisher") "Not specified") as [t4 ->];
    [apply T; cbn; tauto|].
  rewrite (A "software") by (cbn; tauto).
  destruct (orElse_plain R (lookup fields "kind") "Not specified") as [t5 ->];
    [apply T; cbn; tauto|].
  rewrite (A "contact") by (cbn; tauto).
  cbn [truthy optMember orElse renderContactInfo bindR].
  destruct (T "description") as [->|[s ->]]; [cbn; tauto | |].
  - eexists. reflexivity.
  - cbn [truthy]. destruct (negb _); cbn [toStrU toStr bindR]; eexists; reflexivity.
Qed.

End PlainFacts.

(** X19: a valid document with nothing but text (the descriptive elements
    absent or strings; no [date], [software], [contact] or [rest]) is
    always displayed: every render method returns, the results are shown
    with no error, and the five panels computed from [rest] show their
    fixed messages. *)
Theorem plain_document_is_displayed
        (R : Js.Runtime) (P : Platform) (st : App) (data : value) :
  let url := trim (fhir_url (dom st)) in
  (forall p d, template P p d = Render.template R p d) ->
  url <> EmptyString -> isValidUrl P url = true ->
  resultOf (validated P url st) = Ok data ->
  plainDocument data ->
  let st' := stateOf (loadCapabilityStatement P st) in
  capabilityData st' = Some data
  /\ results_visible (dom st') = true
  /\ error_visible (dom st') = false
  /\ outcomes (eventsOf (loadCapabilityStatement P st)) = [EShowResults]
  /\ (forall p, In p restPanels -> getPanel p (panels (dom st')) = emptyMessage p)
  /\ Render.renderOverview R (Some data) = Ok (overview_html (panels (dom st'))).
Proof.
  intros url T Hne Hok Hv Hp st'. subst st'.
  pose proof (validated_valid P url st data Hv) as V.
  assert (N : data <> VNull) by (intros ->; discriminate V).
  assert (F : truthy (Js.optIndex0 (getProp data "rest")) = false).
  { destruct Hp as [_ A]. rewrite (A "rest") by (cbn; tauto). reflexivity. }
  assert (Empty : forall p, In p restPanels ->
                            template P p (Some data) = Ok (emptyMessage p)).
  { intros p I. rewrite T.
    destruct p; cbn in I; try (exfalso; intuition discriminate).
    - unfold Render.template, Render.renderResources, Render.resourcesOf.
      rewrite (RestFacts.firstRest_run data N). cbn [Js.bindR].
      rewrite (RestFacts.falsy_optMember _ _ F). reflexivity.
    - unfold Render.template, Render.renderInteractions.
      rewrite (RestFacts.firstRest_run data N). cbn [Js.bindR]. rewrite F. reflexivity.
    - unfold Render.template, Render.renderOperations.
      rewrite (RestFacts.firstRest_run data N). cbn [Js.bindR].
      rewrite !(RestFacts.falsy_optMember _ _ F). reflexivity.
    - unfold Render.template, Render.renderSearchParameters, Render.resourcesOf.
      rewrite (RestFacts.firstRest_run data N). cbn [Js.bindR].
      rewrite (RestFacts.falsy_optMember _ _ F). reflexivity.
    - unfold Render.template, Render.renderSecurity.
      rewrite (RestFacts.firstRest_run data N). cbn [Js.bindR].
      rewrite (RestFacts.falsy_optMember _ _ F). reflexivity. }
  assert (All : forall q, In q renderOrder -> exists h, template P q (Some data) = Ok h).
  { intros q _. destruct q;
      try (eexists; apply Empty; cbn; tauto).
    - rewrite T. cbn [Render.template].
      destruct data as [| b | x | t | items | fields];
        try (exfalso; revert V; unfold isValidCapabilityStatement; cbn;
             rewrite ?andb_false_r; discriminate).
      apply PlainFacts.renderOverview_plain, Hp.
    - rewrite T. eexists. reflexivity. }
  rewrite (load_display P st data Hne Hok Hv). fold url.
  rewrite display_renderAll.
  destruct (renderAll_complete P renderOrder (Some data) All (prelude (dom st)))
    as [ps [Run [A _]]].
  rewrite Run. cbn [stateOf eventsOf fst snd capabilityData dom].
  split; [reflexivity|]. split; [reflexivity|]. split; [reflexivity|]. split.
  - rewrite outcomes_app, validated_outcomes. reflexivity.
  - split.
    + intros p I. cbn [panels setLoading setResults setPanels].
      assert (O : In p renderOrder) by (destruct p; cbn; tauto).
      pose proof (A p O) as E. rewrite (Empty p I) in E.
      injection E as E. symmetry. exact E.
    + cbn [panels setLoading setResults setPanels].
      assert (O : In overview_content renderOrder) by (cbn; tauto).
      pose proof (A overview_content O) as E. rewrite T in E. exact E.
Qed.

Lemma plain_document_is_displayed_witness :
  let st' := stateOf (loadCapabilityStatement (RenderScenario.serving Scenario.minimalBody)
                        (Scenario.app Scenario.exampleUrl)) in
  results_visible (dom st') = true
  /\ security_html (panels (dom st'))
     = "<p>No security information found in this CapabilityStatement.</p>".
Proof.
  destruct (plain_document_is_displayed RenderScenario.runtime
              (RenderScenario.serving Scenario.minimalBody)
              (Scenario.app Scenario.exampleUrl) Scenario.minimalDoc)
    as (_ & B & _ & _ & E & _).
  - intros p d. reflexivity.
  - vm_compute. discriminate.
  - vm_compute. reflexivity.
  - vm_compute. reflexivity.
  - split.
    + intros k H. cbn in H.
      destruct H as [<-|[<-|[<-|[<-|[<-|[<-|[]]]]]]];
        first [left; reflexivity | right; eexists; reflexivity].
    + intros k H. cbn in H. destruct H as [<-|[<-|[<-|[<-|[]]]]]; reflexivity.
  - split; [exact B|]. apply (E security_tab). cbn. tauto.
Defined.

(** X20: a telecom entry whose [value] is truthy but not a string (a phone
    number sent as a JSON number, say) cannot be rendered unless its
    [system] is [url]: [value.startsWith] is not a function.  The exception
    is that one whenever the entry has no [use]. *)
Theorem telecom_value_that_is_not_a_string_throws
        (R : Js.Runtime) (telecom v : value) :
  getProp telecom "value" = Some v ->
  truthy (Some v) = true ->
  (forall s, v <> VString s) ->
  strictEqString (getProp telecom "system") "url" = false ->
  exists e,
    Render.telecomLine R telecom = Throw e
    /\ (truthy (getProp telecom "use") = false -> e = Js.notFunction "value.startsWith").
Proof.
  intros Hv Ht Hs Hu.
  destruct telecom as [| b | x | t | items | fields]; try discriminate Hv.
  cbn [getProp] in *.
  unfold Render.telecomLine. cbn [Js.getMember Js.bindR getProp]. rewrite Hv, Ht.
  cbv zeta. rewrite Ht.
  assert (S : strictEqString
                (if truthy (lookup fields "system") then lookup fields "system"
                 else Some (VString "contact")) "url" = false).
  { destruct (truthy (lookup fields "system")); [exact Hu | reflexivity]. }
  rewrite S.
  destruct (truthy (lookup fields "use")) eqn:U.
  - destruct (Js.toStrU R (lookup fields "use")) as [t|e] eqn:E; cbn [Js.bindR].
    + destruct v as [| b | x | t0 | items | vf];
        try (eexists; split; [reflexivity | discriminate]).
      exfalso. apply (Hs t0). reflexivity.
    + exists e. split; [reflexivity | discriminate].
  - cbn [Js.bindR].
    destruct v as [| b | x | t0 | items | vf];
      try (eexists; split; reflexivity).
    exfalso. apply (Hs t0). reflexivity.
Qed.

Lemma telecom_value_that_is_not_a_string_throws_witness :
  Render.telecomLine RenderScenario.runtime
    (VObject [("system", VString "phone"); ("value", VNumber 5551234%float)])
  = Throw (Js.typeError "value.startsWith is not a function").
Proof.
  destruct (telecom_value_that_is_not_a_string_throws RenderScenario.runtime
              (VObject [("system", VString "phone"); ("value", VNumber 5551234%float)])
              (VNumber 5551234%float)) as [e [E F]].
  - reflexivity.
  - vm_compute. reflexivity.
  - intros s. discriminate.
  - reflexivity.
  - rewrite E, F; reflexivity.
Defined.
